(** * RealGlobal data scripts: a shallow embedding and its properties

    The repository is a set of stand-alone Python batch scripts working on
    GeoJSON documents and delimited tables:

    - [convert_opportunity_zones.py]  (module [Convert])
    - [split_opportunity_zones.py]    (module [Split])
    - [convert_qozs_to_geojson.py]    (module [Qozs])
    - [qozs_to_geojson_bulk.py]       (module [Bulk])
    - [generate_economic_data.py]     (module [Economic])

    The scripts work on whatever [json.load] returns, so the data model is
    the dynamically typed JSON value, and every Python operation that can
    raise is a function into an error monad. *)

From Stdlib Require Import ZArith String Ascii.
From stdpp Require Import base option list strings pretty gmap.

Local Open Scope string_scope.
Local Open Scope list_scope.

(** ** JSON values as [json.load] builds them *)

(** A Python [float] is kept as its IEEE-754 binary64 bit pattern; the
    scripts never compute with floats themselves (the projection library
    does), they only move them around.  A [dict] keeps insertion order, so
    it is an association list. *)
#[warnings="-register-all"]
Inductive json : Type :=
| JNull
| JBool (b : bool)
| JInt (z : Z)
| JFloat (bits : Z)
| JStr (s : string)
| JArr (items : list json)
| JObj (members : list (string * json)).

(** ** Exceptions *)

(** The classes of the Python exceptions the scripts can meet.  As in
    Python, the text of a built-in exception names the key or the kind of
    object involved and nothing else; [LibError] is whatever an external
    library (the projection library, [requests], [json]) raises. *)
Inductive exn : Type :=
| KeyError (k : string)
| KeyErrorInt (i : nat)
| IndexError
| TypeError
| AttributeError
| RuntimeError
| FileNotFoundError
| LibError (msg : string).

Inductive result (A : Type) : Type :=
| Ok (a : A)
| Err (e : exn).
Arguments Ok {A} a.
Arguments Err {A} e.

#[global] Instance result_ret : MRet result := fun A a => Ok a.
#[global] Instance result_bind : MBind result := fun A B f m =>
  match m with Ok a => f a | Err e => Err e end.

Definition is_ok {A} (r : result A) : bool :=
  match r with Ok _ => true | Err _ => false end.

(** [for i, x in enumerate(xs)] with a body that may raise and that
    produces one value per round. *)
Fixpoint imapM_from {A B} (f : nat -> A -> result B) (i : nat) (xs : list A)
  : result (list B) :=
  match xs with
  | [] => Ok []
  | x :: xs' => y ← f i x; ys ← imapM_from f (S i) xs'; Ok (y :: ys)
  end.

Definition imapM {A B} (f : nat -> A -> result B) (xs : list A) : result (list B) :=
  imapM_from f 0 xs.

(** ** Python's dynamic operations on JSON values *)

Module Py.

(** First binding of a key in a dict. *)
Fixpoint assoc_get (m : list (string * json)) (k : string) : option json :=
  match m with
  | [] => None
  | (k', v) :: m' => if String.eqb k' k then Some v else assoc_get m' k
  end.

(** [d[k] = v]: an existing key keeps its place, a new key goes last. *)
Fixpoint assoc_set (m : list (string * json)) (k : string) (v : json)
  : list (string * json) :=
  match m with
  | [] => [(k, v)]
  | (k', v') :: m' =>
      if String.eqb k' k then (k', v) :: m' else (k', v') :: assoc_set m' k v
  end.

(** [o[k]] for a string key. *)
Definition getitem (o : json) (k : string) : result json :=
  match o with
  | JObj m => match assoc_get m k with Some v => Ok v | None => Err (KeyError k) end
  | _ => Err TypeError
  end.

Definition char_str (c : ascii) : json := JStr (String c EmptyString).

(** [o[i]] for an integer index [i >= 0].  A dict loaded from JSON has
    string keys only, so an integer key is never found. *)
Definition getidx (o : json) (i : nat) : result json :=
  match o with
  | JArr l => match l !! i with Some v => Ok v | None => Err IndexError end
  | JStr s => match String.get i s with Some c => Ok (char_str c) | None => Err IndexError end
  | JObj _ => Err (KeyErrorInt i)
  | _ => Err TypeError
  end.

(** The items a [for] loop sees: the elements of a list, the characters
    of a string, the keys of a dict. *)
Definition iter (o : json) : result (list json) :=
  match o with
  | JArr l => Ok l
  | JStr s => Ok (char_str <$> list_ascii_of_string s)
  | JObj m => Ok ((fun kv => JStr kv.1) <$> m)
  | _ => Err TypeError
  end.

(** [len(o)]. *)
Definition len (o : json) : result nat :=
  match o with
  | JArr l => Ok (length l)
  | JStr s => Ok (String.length s)
  | JObj m => Ok (length m)
  | _ => Err TypeError
  end.

(** [o.get(k, default)]; only a dict has the method. *)
Definition get (o : json) (k : string) (dflt : json) : result json :=
  match o with
  | JObj m => Ok (default dflt (assoc_get m k))
  | _ => Err AttributeError
  end.

(** Truth value of an object in [if o:]. *)
Definition truthy (o : json) : bool :=
  match o with
  | JNull => false
  | JBool b => b
  | JInt z => negb (Z.eqb z 0)
  | JFloat bits => negb (Z.eqb (Z.land bits (Z.ones 63)) 0)
  | JStr s => negb (String.eqb s "")
  | JArr l => negb (Nat.eqb (length l) 0)
  | JObj m => negb (Nat.eqb (length m) 0)
  end.

(** [o == "literal"]. *)
Definition eq_str (o : json) (s : string) : bool :=
  match o with
  | JStr s' => String.eqb s' s
  | _ => false
  end.

End Py.

(** ** Scripts: a file to write, a console, and exceptions *)

(** What a script prints.  Fixed texts are kept without their status
    glyph; an f-string keeps the value it shows. *)
Inductive line : Type :=
| Text (s : string)
| Show (label : string) (v : json)
| ShowNum (label : string) (n : nat)
| ErrorMsg (e : exn)
| ErrorIn (what : string) (e : exn)
| Traceback (e : exn).

(** The effects of a run: the document written to the output file (if the
    run got as far as writing it) and the lines printed so far. *)
Record world : Type := World { written : option json; console : list line }.

Definition script (A : Type) : Type := world -> world * result A.

#[global] Instance script_ret : MRet script := fun A a w => (w, Ok a).
#[global] Instance script_bind : MBind script := fun A B f m w =>
  match m w with
  | (w', Ok a) => f a w'
  | (w', Err e) => (w', Err e)
  end.

(** An expression that may raise. *)
Definition eval {A} (r : result A) : script A := fun w => (w, r).

(** [print(...)]. *)
Definition say (l : line) : script unit := fun w =>
  (World (written w) (console w ++ [l]), Ok tt).

(** [with open(out, 'w') as f: json.dump(doc, f)]. *)
Definition dump (doc : json) : script unit := fun w =>
  (World (Some doc) (console w), Ok tt).

Definition start : world := World None [].

(** A finished process. *)
Record process : Type := Process { final : world; exit_status : Z }.

(** ** split_opportunity_zones.py *)

Module Split.

Section WithRepr.

(** [str(x)] of a float, a list or a dict: Python's [repr], not modelled. *)
Variable py_repr : json -> string.

(** [f"{x}"]. *)
Definition py_str (x : json) : string :=
  match x with
  | JStr s => s
  | JInt z => pretty z
  | JNull => "None"
  | JBool true => "True"
  | JBool false => "False"
  | _ => py_repr x
  end.

(** [**d] inside a dict display: only a mapping can be unpacked. *)
Definition unpack (d : json) : result (list (string * json)) :=
  match d with
  | JObj m => Ok m
  | _ => Err TypeError
  end.

(** The dict display of lines 24-36, for part [i] of [feature]. *)
Definition new_feature (feature multipolygon_coords : json)
    (i : nat) (polygon_coords : json) : result json :=
  id ← Py.get feature "id" (JStr "unknown");
  props ← Py.get feature "properties" (JObj []);
  m ← unpack props;
  total ← Py.len multipolygon_coords;
  Ok (JObj [("type", JStr "Feature");
            ("id", JStr (py_str id ++ "_" ++ pretty i));
            ("geometry", JObj [("type", JStr "Polygon");
                               ("coordinates", polygon_coords)]);
            ("properties",
              JObj (Py.assoc_set (Py.assoc_set m "polygon_index" (JInt (Z.of_nat i)))
                                 "total_polygons" (JInt (Z.of_nat total))))]).

(** One round of the loop over the features: what is appended to
    [new_features]. *)
Definition split_feature (feature : json) : result (list json) :=
  geometry ← Py.getitem feature "geometry";
  ty ← Py.getitem geometry "type";
  if Py.eq_str ty "MultiPolygon" then
    multipolygon_coords ← Py.getitem geometry "coordinates";
    parts ← Py.iter multipolygon_coords;
    imapM (new_feature feature multipolygon_coords) parts
  else Ok [feature].

(** The loop, with [new_features] as accumulator. *)
Fixpoint split_features (features : list json) (new_features : list json)
  : result (list json) :=
  match features with
  | [] => Ok new_features
  | feature :: rest =>
      out ← split_feature feature;
      split_features rest (new_features ++ out)
  end.

Definition new_geojson (crs : json) (new_features : list json) : json :=
  JObj [("type", JStr "FeatureCollection");
        ("crs", crs);
        ("features", JArr new_features)].

(** [split_multipolygon()]; [file] is what opening and parsing
    [opportunity_zones_wgs84.geojson] gives. *)
Definition split_multipolygon (file : result json) : script unit :=
  geojson ← eval file;
  features ← eval (Py.getitem geojson "features");
  items ← eval (Py.iter features);
  new_features ← eval (split_features items []);
  crs ← eval (Py.getitem geojson "crs");
  dump (new_geojson crs new_features);;
  say (ShowNum "Split MultiPolygon into individual features" (length new_features));;
  say (Text "Output: opportunity_zones_split.geojson");;
  features' ← eval (Py.getitem geojson "features");
  original_count ← eval (Py.len features');
  say (ShowNum "Original features" original_count);;
  say (ShowNum "New features" (length new_features));;
  match new_features with
  | [] => mret tt
  | first :: _ =>
      id ← eval (Py.get first "id" JNull);
      say (Show "Sample feature ID" id);;
      geometry ← eval (Py.getitem first "geometry");
      coordinates ← eval (Py.getitem geometry "coordinates");
      c0 ← eval (Py.getidx coordinates 0);
      c00 ← eval (Py.getidx c0 0);
      say (Show "Sample coordinates" c00)
  end.

(** The [__main__] block: the handler prints the error and a traceback
    and falls off the end of the script. *)
Definition main (file : result json) : process :=
  match split_multipolygon file start with
  | (w, Ok _) => Process w 0
  | (w, Err e) =>
      Process (World (written w) (console w ++ [ErrorMsg e; Traceback e])) 0
  end.

End WithRepr.

End Split.

(** ** convert_opportunity_zones.py *)

Module Convert.

(** A loop [for x in container:] whose body changes [x] in place.  The
    elements of a list are the objects of the document itself; iterating
    over a string or a dict hands out strings, which cannot change, so
    such a container is left as it is when every round succeeds. *)
Definition for_each (body : json -> result json) (container : json) : result json :=
  match container with
  | JArr items => items' ← mapM body items; Ok (JArr items')
  | _ => items ← Py.iter container; _ ← mapM body items; Ok container
  end.

(** [o[k] = v] on an object of the document. *)
Definition setitem (o : json) (k : string) (v : json) : json :=
  match o with
  | JObj m => JObj (Py.assoc_set m k v)
  | _ => o
  end.

Definition wgs84_crs : json :=
  JObj [("type", JStr "name");
        ("properties", JObj [("name", JStr "EPSG:4326")])].

Section WithTransformer.

(** [transformer.transform(x, y)] of the projection library, from
    EPSG:2926 to EPSG:4326: a pure function of the two components that
    returns a pair or raises. *)
Variable transform : json -> json -> result (json * json).

(** Lines 27-29: the new value of [ring[i]]. *)
Definition convert_coord (coord : json) : result json :=
  x ← Py.getidx coord 0;
  y ← Py.getidx coord 1;
  lonlat ← transform x y;
  Ok (JArr [lonlat.1; lonlat.2]).

(** Lines 26-29, [for i, coord in enumerate(ring): ... ring[i] = ...].
    A string does not support item assignment; assigning to an integer
    key of a dict adds a key, which the iteration over the dict then
    reports. *)
Definition convert_ring (ring : json) : result json :=
  match ring with
  | JArr coords => coords' ← mapM convert_coord coords; Ok (JArr coords')
  | JStr s =>
      match list_ascii_of_string s with
      | [] => Ok ring
      | c :: _ => _ ← convert_coord (Py.char_str c); Err TypeError
      end
  | JObj m =>
      match m with
      | [] => Ok ring
      | (k, _) :: _ => _ ← convert_coord (JStr k); Err RuntimeError
      end
  | _ => Err TypeError
  end.

(** Line 25. *)
Definition convert_polygon (polygon : json) : result json :=
  for_each convert_ring polygon.

(** Lines 23-29, one round of the loop over the features. *)
Definition convert_feature (feature : json) : result json :=
  geometry ← Py.getitem feature "geometry";
  ty ← Py.getitem geometry "type";
  if Py.eq_str ty "MultiPolygon" then
    coordinates ← Py.getitem geometry "coordinates";
    coordinates' ← for_each convert_polygon coordinates;
    Ok (setitem feature "geometry" (setitem geometry "coordinates" coordinates'))
  else Ok feature.

(** Lines 22-37: the document after the loop and the CRS update. *)
Definition convert_document (geojson : json) : result json :=
  features ← Py.getitem geojson "features";
  features' ← for_each convert_feature features;
  Ok (setitem (setitem geojson "features" features') "crs" wgs84_crs).

(** [convert_coordinates()]; [file] is what opening and parsing the
    input GeoJSON gives. *)
Definition convert_coordinates (file : result json) : script unit :=
  geojson ← eval file;
  geojson' ← eval (convert_document geojson);
  dump geojson';;
  say (Text "Converted opportunity zones to WGS84 coordinates");;
  say (Text "Output: opportunity_zones_wgs84.geojson");;
  features ← eval (Py.getitem geojson' "features");
  if Py.truthy features then
    first ← eval (Py.getidx features 0);
    geometry ← eval (Py.getitem first "geometry");
    coordinates ← eval (Py.getitem geometry "coordinates");
    c0 ← eval (Py.getidx coordinates 0);
    c00 ← eval (Py.getidx c0 0);
    sample_coords ← eval (Py.getidx c00 0);
    say (Show "Sample coordinates" sample_coords)
  else mret tt.

(** The [__main__] block: the handler prints the error and a hint and
    calls [sys.exit(1)]. *)
Definition main (file : result json) : process :=
  match convert_coordinates file start with
  | (w, Ok _) => Process w 0
  | (w, Err e) =>
      Process (World (written w)
                 (console w ++ [ErrorMsg e;
                                Text "Make sure pyproj is installed: pip install pyproj"]))
              1
  end.

End WithTransformer.

End Convert.

(** ** convert_qozs_to_geojson.py *)

Module Qozs.

Definition valid_states : list string :=
  ["Alabama"; "Alaska"; "Arizona"; "Arkansas"; "California"; "Colorado"; "Connecticut";
   "Delaware"; "Florida"; "Georgia"; "Hawaii"; "Idaho"; "Illinois"; "Indiana"; "Iowa";
   "Kansas"; "Kentucky"; "Louisiana"; "Maine"; "Maryland"; "Massachusetts"; "Michigan";
   "Minnesota"; "Mississippi"; "Missouri"; "Montana"; "Nebraska"; "Nevada"; "New Hampshire";
   "New Jersey"; "New Mexico"; "New York"; "North Carolina"; "North Dakota"; "Ohio";
   "Oklahoma"; "Oregon"; "Pennsylvania"; "Rhode Island"; "South Carolina"; "South Dakota";
   "Tennessee"; "Texas"; "Utah"; "Vermont"; "Virginia"; "Washington"; "West Virginia";
   "Wisconsin"; "Wyoming"].

(** One entry of the list [load_qozs_csv] returns. *)
Record qoz : Type := Qoz {
  state : string;
  county : string;
  tract_id : string;
  zone_type : string;
  year_range : string
}.

(** The test of line 30: [len(row) >= 5 and row[0] and row[0] in valid_states]. *)
Definition keeps (row : list string) : bool :=
  (5 <=? length row)%nat &&
  match row !! 0%nat with
  | Some s => negb (String.eqb s "") && bool_decide (s ∈ valid_states)
  | None => false
  end.

(** Line 31: [state, county, tract_id, zone_type, year_range = row[:5]]. *)
Definition unpack5 (row : list string) : option qoz :=
  match take 5 row with
  | [a; b; c; d; e] => Some (Qoz a b c d e)
  | _ => None
  end.

(** [load_qozs_csv()], over the rows [csv.reader] yields. *)
Fixpoint load_qozs_csv (rows : list (list string)) : list qoz :=
  match rows with
  | [] => []
  | row :: rest =>
      if keeps row then
        match unpack5 row with
        | Some q => q :: load_qozs_csv rest
        | None => load_qozs_csv rest
        end
      else load_qozs_csv rest
  end.

Definition state_fips_map : list (string * string) :=
  [("Alabama", "01"); ("Alaska", "02"); ("Arizona", "04"); ("Arkansas", "05"); ("California", "06");
   ("Colorado", "08"); ("Connecticut", "09"); ("Delaware", "10"); ("Florida", "12"); ("Georgia", "13");
   ("Hawaii", "15"); ("Idaho", "16"); ("Illinois", "17"); ("Indiana", "18"); ("Iowa", "19");
   ("Kansas", "20"); ("Kentucky", "21"); ("Louisiana", "22"); ("Maine", "23"); ("Maryland", "24");
   ("Massachusetts", "25"); ("Michigan", "26"); ("Minnesota", "27"); ("Mississippi", "28"); ("Missouri", "29");
   ("Montana", "30"); ("Nebraska", "31"); ("Nevada", "32"); ("New Hampshire", "33"); ("New Jersey", "34");
   ("New Mexico", "35"); ("New York", "36"); ("North Carolina", "37"); ("North Dakota", "38"); ("Ohio", "39");
   ("Oklahoma", "40"); ("Oregon", "41"); ("Pennsylvania", "42"); ("Rhode Island", "44"); ("South Carolina", "45");
   ("South Dakota", "46"); ("Tennessee", "47"); ("Texas", "48"); ("Utah", "49"); ("Vermont", "50");
   ("Virginia", "51"); ("Washington", "53"); ("West Virginia", "54"); ("Wisconsin", "55"); ("Wyoming", "56")].

Fixpoint fips_of (m : list (string * string)) (name : string) : string :=
  match m with
  | [] => "00"
  | (k, v) :: m' => if String.eqb k name then v else fips_of m' name
  end.

(** The [where] parameter of the query of lines 62-67. *)
Definition where_clause (state_fips tract : string) : string :=
  "STATE='" ++ fips_of state_fips_map state_fips ++ "' AND TRACT='" ++ tract ++ "'".

(** What [requests.get] does: it raises, or it returns a response with a
    status code and a body that [response.json()] parses or rejects. *)
Inductive http : Type :=
| Raises (e : exn)
| Response (status_code : Z) (body : result json).

(** The [try] block of [get_census_tract_boundary], lines 69-73: the
    feature to return, [None] to fall through to [return None], or the
    exception the handler will catch. *)
Definition boundary_of (r : http) : result (option json) :=
  match r with
  | Raises e => Err e
  | Response status_code body =>
      if (status_code =? 200)%Z then
        data ← body;
        features ← Py.get data "features" JNull;
        if Py.truthy features then
          feats ← Py.getitem data "features";
          first ← Py.getidx feats 0;
          Ok (Some first)
        else Ok None
      else Ok None
  end.

Section WithService.

(** The boundary service: the answer to the [n]-th request of the run,
    given its [where] parameter. *)
Variable tigerweb : nat -> string -> http.

(** [get_census_tract_boundary(state_fips, tract_id)] as the [n]-th call:
    an exception is printed and turned into [None]. *)
Definition get_census_tract_boundary (n : nat) (state_fips tract : string)
  : script (option json) := fun w =>
  match boundary_of (tigerweb n (where_clause state_fips tract)) with
  | Ok b => (w, Ok b)
  | Err e =>
      (World (written w)
         (console w ++
            [ErrorIn ("getting boundary for " ++ state_fips ++ " tract " ++ tract) e]),
       Ok None)
  end.

Definition properties (i : nat) (q : qoz) (description : string) : json :=
  JObj [("OBJECTID", JInt (Z.of_nat (i + 1)));
        ("STATE", JStr (state q));
        ("COUNTY", JStr (county q));
        ("TRACT_ID", JStr (tract_id q));
        ("ZONE_TYPE", JStr (zone_type q));
        ("YEAR_RANGE", JStr (year_range q));
        ("DESCRIPTION", JStr description)].

Definition description (q : qoz) : string :=
  "Opportunity Zone in " ++ county q ++ ", " ++ state q.

(** Lines 101-114. *)
Definition boundary_feature (i : nat) (q : qoz) (geometry : json) : json :=
  JObj [("type", JStr "Feature");
        ("id", JInt (Z.of_nat (i + 1)));
        ("geometry", geometry);
        ("properties", properties i q (description q))].

(** The default coordinates [-122.3, 47.6], as binary64 bit patterns. *)
Definition default_coordinates : json :=
  JArr [JFloat 0xC05E933333333333; JFloat 0x4047CCCCCCCCCCCD].

(** Lines 119-135. *)
Definition point_feature (i : nat) (q : qoz) : json :=
  JObj [("type", JStr "Feature");
        ("id", JInt (Z.of_nat (i + 1)));
        ("geometry", JObj [("type", JStr "Point");
                           ("coordinates", default_coordinates)]);
        ("properties", properties i q (description q ++ " (point only)"))].

(** [if boundary:] on the value the lookup returned. *)
Definition found (boundary : option json) : bool :=
  match boundary with
  | Some b => Py.truthy b
  | None => false
  end.

(** The state of the loop of lines 93-139. *)
Record tally : Type := Tally { features : list json; success_count : nat }.

(** The [else] branch, lines 118-136. *)
Definition fallback (i : nat) (q : qoz) (t : tally) : tally :=
  Tally (features t ++ [point_feature i q]) (success_count t).

(** One round of the loop, for row [i]. *)
Definition process_zone (total i : nat) (q : qoz) (t : tally) : script tally :=
  say (Show ("Processing " ++ pretty (i + 1)%nat ++ "/" ++ pretty total ++ ": " ++ state q)
            (JStr (tract_id q)));;
  boundary ← get_census_tract_boundary i (state q) (tract_id q);
  match boundary with
  | Some b =>
      if Py.truthy b then
        geometry ← eval (Py.getitem b "geometry");
        mret (Tally (features t ++ [boundary_feature i q geometry])
                    (S (success_count t)))
      else mret (fallback i q t)
  | None => mret (fallback i q t)
  end.

Fixpoint process_zones (total i : nat) (zones : list qoz) (t : tally) : script tally :=
  match zones with
  | [] => mret t
  | q :: rest =>
      t' ← process_zone total i q t;
      process_zones total (S i) rest t'
  end.

Definition feature_collection (fs : list json) : json :=
  JObj [("type", JStr "FeatureCollection"); ("features", JArr fs)].

(** The four lines printed after the file is saved. *)
Definition report (t : tally) (total_csv : nat) : list line :=
  [ShowNum "Created GeoJSON with opportunity zones" (length (features t));
   Text "Saved to: opportunity_zones_complete.geojson";
   ShowNum "Successfully got boundaries for zones" (success_count t);
   ShowNum "Total zones in CSV" total_csv].

Fixpoint say_all (ls : list line) : script unit :=
  match ls with
  | [] => mret tt
  | l :: ls' => say l;; say_all ls'
  end.

(** [create_qozs_geojson()], over the rows of the zone table. *)
Definition create_qozs_geojson (rows : list (list string)) : script json :=
  say (Text "Loading QOZs CSV data...");;
  let qozs := load_qozs_csv rows in
  say (ShowNum "Found opportunity zones" (length qozs));;
  let test_zones := take 100 qozs in
  say (ShowNum "Processing first zones" (length test_zones));;
  t ← process_zones (length test_zones) 0 test_zones (Tally [] 0);
  let geojson := feature_collection (features t) in
  dump geojson;;
  say_all (report t (length qozs));;
  mret geojson.

End WithService.

End Qozs.

(** ** qozs_to_geojson_bulk.py *)

Module Bulk.

Definition is_sign (c : ascii) : bool :=
  Ascii.eqb c "+"%char || Ascii.eqb c "-"%char.

Fixpoint zeros (n : nat) : string :=
  match n with
  | O => ""
  | S n' => String "0"%char (zeros n')
  end.

(** [str.zfill(width)]: zeros on the left up to [width] characters, put
    after a leading sign. *)
Definition zfill (width : nat) (s : string) : string :=
  if (width <=? String.length s)%nat then s
  else
    let pad := zeros (width - String.length s) in
    match s with
    | String c rest => if is_sign c then String c (pad ++ rest) else pad ++ s
    | EmptyString => pad
    end.

(** A row of the zone frame [read_csv] returns (the seven leading lines
    of the file already skipped), [TRACTCE] as [astype(str)] shows it. *)
Record zone_row : Type := ZoneRow {
  STATE : json;
  COUNTY : json;
  TRACTCE : string;
  ZONE_TYPE : json;
  YEAR_RANGE : json
}.

(** A row of the tract frame read from the shapefile, [GEOID] as
    [astype(str)] shows it. *)
Record tract_row : Type := TractRow {
  GEOID : string;
  attributes : list (string * json);
  geometry : json
}.

(** A row of the merged frame: the columns of both sides. *)
Record merged_row : Type := MergedRow { tract : tract_row; zone : zone_row }.

(** Line 15: [qozs['TRACTCE'] = qozs['TRACTCE'].astype(str).str.zfill(11)]. *)
Definition pad_tractce (q : zone_row) : zone_row :=
  ZoneRow (STATE q) (COUNTY q) (zfill 11 (TRACTCE q)) (ZONE_TYPE q) (YEAR_RANGE q).

Definition matches (t : tract_row) (q : zone_row) : bool :=
  String.eqb (GEOID t) (TRACTCE q).

(** [left.merge(right, left_on='GEOID', right_on='TRACTCE', how='inner')]
    of pandas: one row for each pair of a left and a right row with equal
    keys, in the order of the left keys. *)
Definition merge_inner (left : list tract_row) (right : list zone_row)
  : list merged_row :=
  t ← left; q ← filter (fun q => matches t q = true) right; [MergedRow t q].

(** Lines 15-22: the frame written out, one feature per row. *)
Definition merged (tracts : list tract_row) (qozs : list zone_row) : list merged_row :=
  merge_inner tracts (pad_tractce <$> qozs).

End Bulk.

(** ** generate_economic_data.py *)

Module Economic.

(** [null_if_missing(val)]; [None] is Python's [None]. *)
Definition null_if_missing (val : option string) : string :=
  match val with
  | None => "NULL"
  | Some s => if String.eqb s "" then "NULL" else s
  end.

Definition fieldnames : list string :=
  ["region"; "gdp_growth"; "employment_rate"; "property_appreciation";
   "builder_accessibility"; "international_accessibility"; "last_updated"].

Definition row_get (rowdict : list (string * string)) (k : string) : string :=
  default "" ((list_to_map rowdict : gmap string string) !! k).

(** [csv.DictWriter.writerow]: the values of the row in the order of the
    field names. *)
Definition writerow (rowdict : list (string * string)) : list string :=
  row_get rowdict <$> fieldnames.

Section WithData.

(** The two indicator tables ([download_and_extract]), by lower-cased
    country name, and the date of the run. *)
Variables gdp_growth employment_rate : gmap string string.
Variable today : string.

(** [d.get(country, '')]. *)
Definition get_or_empty (d : gmap string string) (country : string) : string :=
  default "" (d !! country).

(** The dict passed to [writerow], lines 66-74. *)
Definition rowdict (country : string) : list (string * string) :=
  [("region", country);
   ("gdp_growth", null_if_missing (Some (get_or_empty gdp_growth country)));
   ("employment_rate", null_if_missing (Some (get_or_empty employment_rate country)));
   ("property_appreciation", "");
   ("builder_accessibility", "");
   ("international_accessibility", "");
   ("last_updated", today)].

(** The output table: the header, then one row per country. *)
Definition economic_data_global (countries : list string) : list (list string) :=
  fieldnames :: ((fun c => writerow (rowdict c)) <$> countries).

End WithData.

End Economic.

(** ** generate_economic_data.py: reading an indicator archive *)

Module Indicators.

(** [needle in hay] for two strings. *)
Fixpoint contains (needle hay : string) : bool :=
  String.prefix needle hay ||
  match hay with
  | EmptyString => false
  | String _ rest => contains needle rest
  end.

(** [s.endswith(suffix)]. *)
Definition endswith (suffix s : string) : bool :=
  (String.length suffix <=? String.length s)%nat &&
  String.eqb (String.substring (String.length s - String.length suffix)
                               (String.length suffix) s) suffix.

(** The names left out of the table besides the income groups. *)
Definition aggregates : list string :=
  ["world"; "europe & central asia"; "east asia & pacific"; "sub-saharan africa";
   "latin america & caribbean"; "middle east & north africa"; "north america";
   "south asia"; "european union"].

(** [range(2022, 1999, -1)]. *)
Definition years : list nat := rev (seq 2000 23).

(** A row as [csv.DictReader] yields it: field name to value, [None] for
    a field the line was too short for. *)
Definition row : Type := list (string * option string).

Fixpoint row_lookup (r : row) (k : string) : option (option string) :=
  match r with
  | [] => None
  | (k', v) :: r' => if String.eqb k' k then Some v else row_lookup r' k
  end.

(** [row.get(key, '')]: [None] is Python's [None]. *)
Definition row_get (r : row) (k : string) : option string :=
  default (Some "") (row_lookup r k).

(** [val and val != '..']. *)
Definition usable (val : option string) : bool :=
  match val with
  | Some s => negb (String.eqb s "") && negb (String.eqb s "..")
  | None => false
  end.

(** The loop over the years, lines 34-38: the first usable value. *)
Fixpoint latest_value (r : row) (ys : list nat) : option string :=
  match ys with
  | [] => None
  | year :: ys' =>
      let val := row_get r (pretty year) in
      if usable val then val else latest_value r ys'
  end.

(** Why reading a table fails: the two exceptions the script raises
    itself, or one that Python raises. *)
Inductive failure : Type :=
| HeaderNotFound
| CountryColumnNotFound
| Raised (e : exn).

Section WithText.

(** [str.lower] and [str.strip] of Python, which know of Unicode. *)
Variables lower strip : string -> string.

(** Lines 14-18: the index of the header line. *)
Fixpoint find_header (i : nat) (lines : list string) : option nat :=
  match lines with
  | [] => None
  | line :: rest =>
      if contains "country name" (lower line) then Some i
      else find_header (S i) rest
  end.

(** Lines 24-27: the first column whose name mentions a country. *)
Fixpoint find_country_col (fieldnames : list string) : option string :=
  match fieldnames with
  | [] => None
  | col :: rest =>
      if contains "country" (lower col) then Some col else find_country_col rest
  end.

(** The test of line 32. *)
Definition skipped (country : string) : bool :=
  String.eqb country "" || contains "income" country
  || bool_decide (country ∈ aggregates).

(** One round of the loop over the rows, lines 30-38. *)
Definition add_row (country_col : string) (data : gmap string string) (r : row)
  : result (gmap string string) :=
  match row_lookup r country_col with
  | None => Err (KeyError country_col)
  | Some None => Err AttributeError
  | Some (Some name) =>
      let country := lower (strip name) in
      if skipped country then Ok data
      else match latest_value r years with
           | Some val => Ok (<[country := val]> data)
           | None => Ok data
           end
  end.

Fixpoint add_rows (country_col : string) (data : gmap string string) (rows : list row)
  : result (gmap string string) :=
  match rows with
  | [] => Ok data
  | r :: rest => data' ← add_row country_col data r; add_rows country_col data' rest
  end.

(** [csv.DictReader] over the lines from the header on: the field names
    and the rows. *)
Variable dict_reader : list string -> list string * list row.

(** Lines 12-39: one table of the archive. *)
Definition read_table (lines : list string) : failure + gmap string string :=
  match find_header 0 lines with
  | None => inl HeaderNotFound
  | Some header_idx =>
      let reader := dict_reader (drop header_idx lines) in
      match find_country_col reader.1 with
      | None => inl CountryColumnNotFound
      | Some country_col =>
          if String.eqb country_col "" then inl CountryColumnNotFound
          else match add_rows country_col ∅ reader.2 with
               | Ok data => inr data
               | Err e => inl (Raised e)
               end
      end
  end.

(** [download_and_extract], over the files of the archive in the order
    of [namelist()]: the first table that is not a metadata table
    decides. *)
Fixpoint download_and_extract (archive : list (string * list string))
  : failure + gmap string string :=
  match archive with
  | [] => inr ∅
  | (name, lines) :: rest =>
      if endswith ".csv" name && negb (contains "Metadata" name)
      then read_table lines
      else download_and_extract rest
  end.

End WithText.

End Indicators.

(** ** download_opportunity_zones.py *)

Module Download.

Definition sources : list string :=
  ["https://opendata.arcgis.com/datasets/0ef47379cbae44e88267c01eaec2ff6e_0.geojson";
   "https://raw.githubusercontent.com/OpenDataIS/opportunity-zones/master/data/opportunity-zones.geojson";
   "https://data.cityofchicago.org/api/geospatial/opportunity-zones?method=export&format=GeoJSON"].

(** ['features' in data]: a key of a dict, an element of a list, a
    substring of a string. *)
Definition has_features (data : json) : result bool :=
  match data with
  | JObj m => Ok (bool_decide (is_Some (Py.assoc_get m "features")))
  | JArr l => Ok (existsb (fun x => Py.eq_str x "features") l)
  | JStr s => Ok (Indicators.contains "features" s)
  | _ => Err TypeError
  end.

(** [list(d.keys())]; only a dict has the method. *)
Definition keys (d : json) : result json :=
  match d with
  | JObj m => Ok (JArr ((fun kv => JStr kv.1) <$> m))
  | _ => Err AttributeError
  end.

(** The body of the [try] block of lines 21-43 for the answer [resp] of
    a source: [True] when the function returns [True], [False] when the
    loop goes on. *)
Definition attempt_body (resp : Qozs.http) : script bool :=
  match resp with
  | Qozs.Raises e => eval (Err e)
  | Qozs.Response status_code body =>
      if (status_code =? 200)%Z then
        data ← eval body;
        listed ← eval (has_features data);
        enough ← (if listed : bool then
                    features ← eval (Py.getitem data "features");
                    n ← eval (Py.len features);
                    mret (100 <? n)%nat
                  else mret false);
        if enough : bool then
          features ← eval (Py.getitem data "features");
          n ← eval (Py.len features);
          say (ShowNum "Success! Found opportunity zones" n);;
          dump data;;
          say (Text "Saved to: opportunity_zones_complete.geojson");;
          features ← eval (Py.getitem data "features");
          n ← eval (Py.len features);
          say (ShowNum "Total features" n);;
          features ← eval (Py.getitem data "features");
          (if Py.truthy features then
             first ← eval (Py.getidx features 0);
             sample_props ← eval (Py.get first "properties" (JObj []));
             names ← eval (keys sample_props);
             say (Show "Sample properties" names)
           else mret tt);;
          mret true
        else
          say (Text "Invalid data structure or too few features");;
          mret false
      else
        say (Show "HTTP" (JInt status_code));;
        mret false
  end.

(** One round of the loop of lines 18-45: the announcement, the [try]
    block, and the handler that prints the exception and lets the loop
    go on. *)
Definition attempt (i : nat) (url : string) (resp : Qozs.http) : script bool :=
  fun w =>
    match (say (Show ("Trying source " ++ pretty (i + 1)%nat) (JStr url));;
           attempt_body resp) w with
    | (w', Ok b) => (w', Ok b)
    | (w', Err e) => (World (written w') (console w' ++ [ErrorMsg e]), Ok false)
    end.

Section WithSources.

(** The answer of the [i]-th source to [requests.get]. *)
Variable responses : nat -> Qozs.http.

Fixpoint try_sources (i : nat) (urls : list string) : script bool :=
  match urls with
  | [] =>
      say (Text "All sources failed. Creating a sample with multiple zones...");;
      mret false
  | url :: rest =>
      done ← attempt i url (responses i);
      if done : bool then mret true else try_sources (S i) rest
  end.

(** [download_opportunity_zones()]. *)
Definition download_opportunity_zones : script bool := try_sources 0 sources.

End WithSources.

Section WithFloats.

(** Addition and multiplication of Python floats and the conversion of
    an [int], on binary64 bit patterns. *)
Variables fadd fmul : Z -> Z -> Z.
Variable float_of_int : Z -> Z.

Definition f_122_3 : Z := 0xC05E933333333333.
Definition f47_6 : Z := 0x4047CCCCCCCCCCCD.
Definition f0_01 : Z := 0x3F847AE147AE147B.
Definition f0_005 : Z := 0x3F747AE147AE147B.

(** [-122.3 + (i * 0.01)] and [47.6 + (i * 0.01)]. *)
Definition west (i : nat) : Z := fadd f_122_3 (fmul (float_of_int (Z.of_nat i)) f0_01).
Definition south (i : nat) : Z := fadd f47_6 (fmul (float_of_int (Z.of_nat i)) f0_01).

Definition corner (x y : Z) : json := JArr [JFloat x; JFloat y].

(** [f"{n:04d}"] for a natural number. *)
Definition pad4 (n : nat) : string := Bulk.zfill 4 (pretty n).

(** The feature built in round [i] of the loop, lines 58-78. *)
Definition sample_feature (i : nat) : json :=
  JObj [("type", JStr "Feature");
        ("id", JInt (Z.of_nat (i + 1)));
        ("geometry",
          JObj [("type", JStr "Polygon");
                ("coordinates",
                  JArr [JArr [corner (west i) (south i);
                              corner (west i) (fadd (south i) f0_005);
                              corner (fadd (west i) f0_005) (fadd (south i) f0_005);
                              corner (fadd (west i) f0_005) (south i);
                              corner (west i) (south i)]])]);
        ("properties",
          JObj [("OBJECTID", JInt (Z.of_nat (i + 1)));
                ("ZONE_ID", JStr ("OZ_" ++ pad4 (i + 1)));
                ("STATE", JStr "WA");
                ("CITY", JStr "Seattle");
                ("DESCRIPTION", JStr ("Opportunity Zone " ++ pretty (i + 1)%nat))])].

(** [create_sample_multiple_zones()]; its file is
    [opportunity_zones_sample.geojson]. *)
Definition create_sample_multiple_zones : script unit :=
  say (Text "Creating sample with multiple zones...");;
  let features := sample_feature <$> seq 0 50 in
  dump (JObj [("type", JStr "FeatureCollection"); ("features", JArr features)]);;
  say (ShowNum "Created sample with opportunity zones" (length features));;
  say (Text "Saved to: opportunity_zones_sample.geojson").

(** The two files the script can leave behind, and its console. *)
Record outcome : Type := Outcome {
  complete_file : option json;
  sample_file : option json;
  printed : list line
}.

(** The [__main__] block: the sample is created when the download
    returns [False]. *)
Definition main (responses : nat -> Qozs.http) : outcome :=
  match download_opportunity_zones responses start with
  | (w, Ok true) => Outcome (written w) None (console w)
  | (w, Ok false) =>
      let w' := (create_sample_multiple_zones (World None (console w))).1 in
      Outcome (written w) (written w') (console w')
  | (w, Err e) => Outcome (written w) None (console w ++ [Traceback e])
  end.

End WithFloats.

End Download.

(** ** Observations on documents, used to state the properties *)

(** [feature['geometry']['type']]. *)
Definition geometry_type (feature : json) : result json :=
  geometry ← Py.getitem feature "geometry"; Py.getitem geometry "type".

(** [feature['geometry']['coordinates']]. *)
Definition geometry_coordinates (feature : json) : result json :=
  geometry ← Py.getitem feature "geometry"; Py.getitem geometry "coordinates".

(** The test of both scripts: [feature['geometry']['type'] == 'MultiPolygon']. *)
Definition is_multipolygon (feature : json) : bool :=
  match geometry_type feature with
  | Ok ty => Py.eq_str ty "MultiPolygon"
  | Err _ => false
  end.

(** The number of constituent polygons of a feature. *)
Definition part_count (feature : json) : nat :=
  match geometry_coordinates feature ≫= Py.len with
  | Ok n => n
  | Err _ => 0
  end.

(** The number of output features one input feature stands for after the
    split. *)
Definition out_count (feature : json) : nat :=
  if is_multipolygon feature then part_count feature else 1.

(** A feature as far as the split reads it: it has a geometry with a
    type, and a MultiPolygon feature has a list of constituent polygons
    and properties that are a mapping (or no [properties] member). *)
Definition well_formed (feature : json) : bool :=
  match geometry_type feature with
  | Ok ty =>
      if Py.eq_str ty "MultiPolygon" then
        match geometry_coordinates feature, Py.get feature "properties" (JObj []) with
        | Ok (JArr _), Ok (JObj _) => true
        | _, _ => false
        end
      else true
  | Err _ => false
  end.

(** The items of a container, none for what cannot be iterated. *)
Definition items_of (o : json) : list json :=
  match Py.iter o with
  | Ok l => l
  | Err _ => []
  end.

(** [feature['geometry']['coordinates']], [null] when there is none. *)
Definition coordinates_of (feature : json) : json :=
  match geometry_coordinates feature with
  | Ok c => c
  | Err _ => JNull
  end.

(** The features of a document. *)
Definition features_of (geojson : json) : list json :=
  match Py.getitem geojson "features" with
  | Ok fs => items_of fs
  | Err _ => []
  end.

(** A script leaves the output file alone. *)
Definition keeps_file {A} (m : script A) : Prop :=
  forall w, written (m w).1 = written w.

(** A JSON number. *)
Definition is_number (o : json) : bool :=
  match o with
  | JInt _ | JFloat _ => true
  | _ => false
  end.

(** A list of exactly two components. *)
Definition is_pair (o : json) : Prop :=
  exists lon lat : json, o = JArr [lon; lat].

(** Every list-shaped ring of every polygon of a feature holds pairs
    only. *)
Definition rings_hold_pairs (feature : json) : Prop :=
  forall polygon ring coords,
    polygon ∈ items_of (coordinates_of feature) ->
    ring ∈ items_of polygon ->
    ring = JArr coords ->
    Forall is_pair coords.

(** ** What reprojection must keep *)

(** A ring keeps its number of coordinate pairs, and stays closed if it
    was ([==] on pairs read as identity of the JSON values). *)
Definition ring_preserved (ring ring' : json) : Prop :=
  length (items_of ring') = length (items_of ring) /\
  (head (items_of ring) = last (items_of ring) ->
   head (items_of ring') = last (items_of ring')).

(** A polygon keeps its rings, in order. *)
Definition polygon_preserved (polygon polygon' : json) : Prop :=
  Forall2 ring_preserved (items_of polygon) (items_of polygon').

(** A MultiPolygon feature stays one and keeps its parts, in order; any
    other feature stays as it is. *)
Definition feature_preserved (feature feature' : json) : Prop :=
  is_multipolygon feature' = is_multipolygon feature /\
  if is_multipolygon feature
  then Forall2 polygon_preserved (items_of (coordinates_of feature))
                                 (items_of (coordinates_of feature'))
  else feature' = feature.

(** ** Observations on the zone table and the boundary lookups *)

(** Field [i] of a row, empty when the row is too short. *)
Definition field (i : nat) (row : list string) : string := default "" (row !! i).

(** The rows the loader is meant to keep: at least five fields, the first
    one non-empty and a recognised state name. *)
Definition accepted (row : list string) : Prop :=
  5 <= length row /\ field 0 row <> "" /\ field 0 row ∈ Qozs.valid_states.

#[global] Instance accepted_dec (row : list string) : Decision (accepted row).
Proof. unfold accepted. apply _. Defined.

(** The record made of the first five fields of a row. *)
Definition qoz_of_row (row : list string) : Qozs.qoz :=
  Qozs.Qoz (field 0 row) (field 1 row) (field 2 row) (field 3 row) (field 4 row).

(** What the [n]-th lookup of the run hands back to the loop for zone
    [q]: a boundary, or [None] when the service failed or had nothing. *)
Definition lookup_boundary (tigerweb : nat -> string -> Qozs.http)
    (n : nat) (q : Qozs.qoz) : option json :=
  match Qozs.boundary_of
          (tigerweb n (Qozs.where_clause (Qozs.state q) (Qozs.tract_id q))) with
  | Ok b => b
  | Err _ => None
  end.

(** Whether the loop takes the boundary branch for zone [q]. *)
Definition boundary_found (tigerweb : nat -> string -> Qozs.http)
    (n : nat) (q : Qozs.qoz) : bool :=
  Qozs.found (lookup_boundary tigerweb n q).

(** The number of zones, numbered from [n], whose boundary is found. *)
Fixpoint count_found (tigerweb : nat -> string -> Qozs.http)
    (n : nat) (zones : list Qozs.qoz) : nat :=
  match zones with
  | [] => 0
  | q :: rest =>
      (if boundary_found tigerweb n q then 1 else 0) + count_found tigerweb (S n) rest
  end.

(** The number of zones, numbered from [n], that get no boundary. *)
Fixpoint count_missing (tigerweb : nat -> string -> Qozs.http)
    (n : nat) (zones : list Qozs.qoz) : nat :=
  match zones with
  | [] => 0
  | q :: rest =>
      (if boundary_found tigerweb n q then 0 else 1) + count_missing tigerweb (S n) rest
  end.

(** The zones a run processes: [test_zones = qozs[:100]]. *)
Definition processed_zones (rows : list (list string)) : list Qozs.qoz :=
  take 100 (Qozs.load_qozs_csv rows).

(** What the output feature of zone [q], processed as row [j], must
    show: the running number as identifier and [OBJECTID], the columns of
    the zone as properties, and as geometry that of the boundary found,
    or the placeholder Point when none was found. *)
Definition property_of (f : json) (k : string) : result json :=
  p ← Py.getitem f "properties"; Py.getitem p k.

Definition describes (tigerweb : nat -> string -> Qozs.http)
    (j : nat) (q : Qozs.qoz) (f : json) : Prop :=
  Py.getitem f "type" = Ok (JStr "Feature") /\
  Py.getitem f "id" = Ok (JInt (Z.of_nat (j + 1))) /\
  property_of f "OBJECTID" = Ok (JInt (Z.of_nat (j + 1))) /\
  property_of f "STATE" = Ok (JStr (Qozs.state q)) /\
  property_of f "COUNTY" = Ok (JStr (Qozs.county q)) /\
  property_of f "TRACT_ID" = Ok (JStr (Qozs.tract_id q)) /\
  property_of f "ZONE_TYPE" = Ok (JStr (Qozs.zone_type q)) /\
  property_of f "YEAR_RANGE" = Ok (JStr (Qozs.year_range q)) /\
  match lookup_boundary tigerweb j q with
  | Some b =>
      if Py.truthy b
      then Py.getitem f "geometry" = Py.getitem b "geometry"
      else Py.getitem f "geometry" =
           Ok (JObj [("type", JStr "Point"); ("coordinates", Qozs.default_coordinates)])
  | None =>
      Py.getitem f "geometry" =
      Ok (JObj [("type", JStr "Point"); ("coordinates", Qozs.default_coordinates)])
  end.

(** The numbers a list of console lines reports. *)
Definition reported_numbers (ls : list line) : list nat :=
  omap (fun l => match l with ShowNum _ n => Some n | _ => None end) ls.

(** ** Observations on the tabular join *)

(** The first tract of the boundary table with a given identifier. *)
Definition tract_for (tracts : list Bulk.tract_row) (code : string)
  : option Bulk.tract_row :=
  List.find (fun t => String.eqb (Bulk.GEOID t) code) tracts.

(** The output row a zone row is meant to give: the zone row, its tract
    code padded, next to the tract with that identifier; none without
    such a tract. *)
Definition joined_row (tracts : list Bulk.tract_row) (q : Bulk.zone_row)
  : option Bulk.merged_row :=
  t ← tract_for tracts (Bulk.zfill 11 (Bulk.TRACTCE q));
  Some (Bulk.MergedRow t (Bulk.pad_tractce q)).

(** The rows an inner join is meant to give for zone rows whose tract
    codes are already padded. *)
Definition joined (tracts : list Bulk.tract_row) (qs : list Bulk.zone_row)
  : list Bulk.merged_row :=
  omap (fun q => t ← tract_for tracts (Bulk.TRACTCE q); Some (Bulk.MergedRow t q)) qs.

(** A zone row has a match in the boundary table. *)
Definition has_tract (tracts : list Bulk.tract_row) (q : Bulk.zone_row) : Prop :=
  Bulk.zfill 11 (Bulk.TRACTCE q) ∈ Bulk.GEOID <$> tracts.

#[global] Instance has_tract_dec (tracts : list Bulk.tract_row) (q : Bulk.zone_row) :
  Decision (has_tract tracts q).
Proof. unfold has_tract. apply _. Defined.

(** ** Observations on the indicator tables *)

(** A country name and value fit to be kept. *)
Definition kept (country value : string) : Prop :=
  country <> "" /\
  (Indicators.contains "income" country = false) /\
  (country ∉ Indicators.aggregates) /\
  value <> "" /\ value <> "..".

(** ** Observations on the download *)

(** A document worth saving: its [features] member has more than a
    hundred elements. *)
Definition large_enough (data : json) : Prop :=
  exists (features : json) (n : nat),
    Py.getitem data "features" = Ok features /\
    Py.len features = Ok n /\ 100 < n.

(** A source that gives nothing: the request raises, the status is not
    200, or the body does not parse. *)
Definition gives_nothing (resp : Qozs.http) : Prop :=
  match resp with
  | Qozs.Raises _ => True
  | Qozs.Response status_code body =>
      status_code <> 200%Z \/ exists e, body = Err e
  end.

(** A collection as the sources are expected to serve it: an object whose
    [features] member is a list of more than a hundred elements. *)
Definition large_collection (data first : json) (others : list json) : Prop :=
  exists m, data = JObj m /\
            Py.assoc_get m "features" = Some (JArr (first :: others)) /\
            100 < length (first :: others).

(** The file is untouched or holds a document worth saving. *)
Definition file_is_sound (w : world) : Prop :=
  forall data, written w = Some data -> large_enough data.

(** ** Sample documents *)

Module Sample.

Definition pt (x y : Z) : json := JArr [JInt x; JInt y].

(** The feature of the end-to-end example: identifier ["7"], two parts
    of five and four coordinate pairs. *)
Definition part0 : json := JArr [JArr [pt 0 0; pt 4 0; pt 4 4; pt 0 4; pt 0 0]].
Definition part1 : json := JArr [JArr [pt 6 6; pt 8 6; pt 8 8; pt 6 6]].

Definition feature7 : json :=
  JObj [("type", JStr "Feature");
        ("id", JStr "7");
        ("geometry", JObj [("type", JStr "MultiPolygon");
                           ("coordinates", JArr [part0; part1])]);
        ("properties", JObj [("STATE", JStr "Washington")])].

(** A Polygon feature. *)
Definition square : json :=
  JObj [("type", JStr "Feature");
        ("id", JInt 3);
        ("geometry", JObj [("type", JStr "Polygon"); ("coordinates", part0)]);
        ("properties", JObj [("STATE", JStr "Oregon")])].

(** A Point feature. *)
Definition dot : json :=
  JObj [("type", JStr "Feature");
        ("id", JInt 4);
        ("geometry", JObj [("type", JStr "Point"); ("coordinates", pt 2 2)]);
        ("properties", JObj [])].

(** A MultiPolygon feature whose ring holds a pair with one component. *)
Definition broken : json :=
  JObj [("type", JStr "Feature");
        ("id", JInt 5);
        ("geometry", JObj [("type", JStr "MultiPolygon");
                           ("coordinates", JArr [JArr [JArr [pt 1 1; JArr [JInt 1]]]])]);
        ("properties", JObj [])].

Definition epsg2926 : json :=
  JObj [("type", JStr "name"); ("properties", JObj [("name", JStr "EPSG:2926")])].

(** A document with a [crs] member, and one without. *)
Definition collection (fs : list json) : json :=
  JObj [("type", JStr "FeatureCollection");
        ("name", JStr "Opportunity_Zones");
        ("crs", epsg2926);
        ("features", JArr fs)].

Definition bare_collection (fs : list json) : json :=
  JObj [("type", JStr "FeatureCollection"); ("features", JArr fs)].

Definition polygons_without_crs : json := bare_collection [square].

Definition mixed : list json := [square; feature7; dot].

(** A stand-in for the projection: it swaps the two components. *)
Definition swap (x y : json) : result (json * json) := Ok (y, x).

(** A stand-in for [repr]. *)
Definition no_repr (x : json) : string := "?".

(** A zone table: a header line, a blank line and three zones. *)
Definition zone_rows : list (list string) :=
  [["State"; "County"; "Census Tract Number"; "Tract Type"; "ACS Data Source"];
   [];
   ["Alabama"; "Autauga"; "01001020700"; "Low-Income Community"; "2011-2015"];
   ["Alaska"; "Bethel"; "02050000100"; "Low-Income Community"; "2011-2015"];
   ["Puerto Rico"; "Adjuntas"; "72001956300"; "Low-Income Community"; "2011-2015"];
   ["Wyoming"; "Albany"; "56001963700"; "Non-LIC Contiguous"; "2011-2015"; "note"]].

(** A boundary service that answers the first request with a tract, times
    out on the second and has no feature for the third. *)
Definition tract_geometry : json :=
  JObj [("type", JStr "Polygon"); ("coordinates", part0)].

Definition service (n : nat) (where_ : string) : Qozs.http :=
  match n with
  | 0 => Qozs.Response 200
           (Ok (JObj [("type", JStr "FeatureCollection");
                      ("features", JArr [JObj [("type", JStr "Feature");
                                               ("geometry", tract_geometry)]])]))
  | 1 => Qozs.Raises (LibError "Read timed out")
  | _ => Qozs.Response 200
           (Ok (JObj [("type", JStr "FeatureCollection"); ("features", JArr [])]))
  end.

(** A boundary table of two tracts and a zone table of three rows, one
    of them with a tract code that is in no boundary table. *)
Definition tracts : list Bulk.tract_row :=
  [Bulk.TractRow "01001020700" [("NAME", JStr "207")] tract_geometry;
   Bulk.TractRow "02050000100" [("NAME", JStr "1")] tract_geometry].

Definition zones : list Bulk.zone_row :=
  [Bulk.ZoneRow (JStr "Alaska") (JStr "Bethel") "2050000100"
                (JStr "Low-Income Community") (JStr "2011-2015");
   Bulk.ZoneRow (JStr "Guam") (JStr "Guam") "66010951100"
                (JStr "Low-Income Community") (JStr "2011-2015");
   Bulk.ZoneRow (JStr "Alabama") (JStr "Autauga") "1001020700"
                (JStr "Low-Income Community") (JStr "2011-2015")].

(** A boundary table that lists one tract identifier twice, and a zone
    table of one row with that tract code. *)
Definition autauga_a : Bulk.tract_row :=
  Bulk.TractRow "01001020700" [("NAME", JStr "207")] tract_geometry.

Definition autauga_b : Bulk.tract_row :=
  Bulk.TractRow "01001020700" [("NAME", JStr "207 (part)")] tract_geometry.

Definition autauga_zone : Bulk.zone_row :=
  Bulk.ZoneRow (JStr "Alabama") (JStr "Autauga") "1001020700"
               (JStr "Low-Income Community") (JStr "2011-2015").

(** A MultiPolygon feature without identifier, and one whose properties
    are [null]. *)
Definition anonymous : json :=
  JObj [("type", JStr "Feature");
        ("geometry", JObj [("type", JStr "MultiPolygon");
                           ("coordinates", JArr [part0; part1])]);
        ("properties", JObj [("STATE", JStr "Idaho")])].

Definition null_props_members : list (string * json) :=
  [("type", JStr "Feature");
   ("id", JInt 9);
   ("geometry", JObj [("type", JStr "MultiPolygon");
                      ("coordinates", JArr [part0])]);
   ("properties", JNull)].

Definition null_props : json := JObj null_props_members.

(** A MultiPolygon feature with elevations. *)
Definition elevated : json :=
  JObj [("type", JStr "Feature");
        ("id", JInt 11);
        ("geometry",
          JObj [("type", JStr "MultiPolygon");
                ("coordinates",
                  JArr [JArr [JArr [JArr [JInt 1; JInt 2; JInt 30];
                                    JArr [JInt 4; JInt 2; JInt 31];
                                    JArr [JInt 4; JInt 6; JInt 32];
                                    JArr [JInt 1; JInt 2; JInt 30]]]])]);
        ("properties", JObj [])].

(** A boundary service whose features have no geometry. *)
Definition bare_service (n : nat) (where_ : string) : Qozs.http :=
  Qozs.Response 200
    (Ok (JObj [("features", JArr [JObj [("type", JStr "Feature")]])])).

(** Rows of an indicator table, and a reader that yields them. *)
Definition row_france : Indicators.row :=
  [("Country Name", Some "France"); ("Country Code", Some "FRA");
   ("2020", Some "1.5"); ("2021", Some ".."); ("2022", Some "")].

Definition row_world : Indicators.row :=
  [("Country Name", Some "World"); ("Country Code", Some "WLD");
   ("2020", Some "3.1"); ("2021", Some "3.0"); ("2022", Some "2.9")].

Definition row_france_old : Indicators.row :=
  [("Country Name", Some "France"); ("Country Code", Some "FRA");
   ("2019", Some "0.7")].

Definition row_france_empty : Indicators.row :=
  [("Country Name", Some "France"); ("Country Code", Some "FRA");
   ("2022", Some "..")].

Definition row_short : Indicators.row :=
  [("Country Name", None); ("Country Code", None)].

Definition reader (lines : list string) : list string * list Indicators.row :=
  (["Country Name"; "Country Code"; "2020"; "2021"; "2022"],
   [row_france_old; row_world; row_france; row_france_empty]).

Definition short_reader (lines : list string) : list string * list Indicators.row :=
  (["Country Name"; "Country Code"], [row_france; row_short]).

(** Stand-ins for [str.lower] and [str.strip] on the sample rows, whose
    names need no stripping. *)
Definition lower (s : string) : string :=
  if String.eqb s "France" then "france"
  else if String.eqb s "World" then "world"
  else if String.eqb s "Country Name" then "country name"
  else if String.eqb s "Country Code" then "country code"
  else s.

Definition strip (s : string) : string := s.

Definition archive : list (string * list string) :=
  [("Metadata_Country.csv", ["Country Code,Region"]);
   ("readme.txt", ["Country Name"]);
   ("API_NY.GDP.csv", ["Data Source,World Development Indicators"; "";
                       "Country Name"; "France,FRA,1.5,..,"])].

(** Sources that are all out of reach, and sources of which the second
    serves a collection of 101 squares, or of 100 squares behind the
    feature with [null] properties. *)
Definition offline (i : nat) : Qozs.http := Qozs.Raises (LibError "Connection refused").

Definition squares : json := JObj [("features", JArr (replicate 101 square))].

Definition second_serves (i : nat) : Qozs.http :=
  match i with
  | 1 => Qozs.Response 200 (Ok squares)
  | _ => Qozs.Response 404 (Err (LibError "Expecting value"))
  end.

Definition unlistable : json :=
  JObj [("features", JArr (null_props :: replicate 100 square))].

Definition second_unlistable (i : nat) : Qozs.http :=
  match i with
  | 1 => Qozs.Response 200 (Ok unlistable)
  | _ => Qozs.Response 404 (Err (LibError "Expecting value"))
  end.

End Sample.

(** * Properties *)

(** ** The error monad and the loops *)

Lemma bind_ok {A B} (m : result A) (k : A -> result B) (b : B) :
  m ≫= k = Ok b -> exists a, m = Ok a /\ k a = Ok b.
Proof. destruct m as [a|e]; simpl; [eauto | discriminate]. Qed.

Lemma bind_err {A B} (m : result A) (k : A -> result B) (e : exn) :
  m = Err e -> m ≫= k = Err e.
Proof. intros ->. reflexivity. Qed.

(** Break the successful run of a sequence of binds into its steps. *)
Ltac ok_steps :=
  repeat match goal with
  | H : Ok _ = Ok _ |- _ => inversion H; subst; clear H
  | H : Err _ = Ok _ |- _ => discriminate H
  | H : mret _ = Ok _ |- _ => inversion H; subst; clear H
  | H : _ ≫= _ = Ok _ |- _ =>
      let a := fresh "a" in
      let Ha := fresh "Ha" in
      apply bind_ok in H; destruct H as (a & Ha & H)
  end.

Section Loops.
Context {A B : Type}.
Implicit Types (f : A -> result B) (g : nat -> A -> result B).

Lemma mapM_ok f (l : list A) (k : list B) :
  mapM f l = Ok k <-> Forall2 (fun x y => f x = Ok y) l k.
Proof.
  split.
  - revert k. induction l as [|x l IH]; intros k H; simpl in H.
    + inversion H. constructor.
    + ok_steps. constructor; auto.
  - induction 1 as [|x y l k Hxy _ IH]; simpl; [reflexivity|].
    rewrite Hxy. simpl. rewrite IH. reflexivity.
Qed.

Lemma mapM_length f (l : list A) (k : list B) :
  mapM f l = Ok k -> length k = length l.
Proof. intros H. apply mapM_ok in H. symmetry. eapply Forall2_length, H. Qed.

(** One failing round makes the whole loop fail (with the exception of
    the first failing round). *)
Lemma mapM_fails f (l : list A) (i : nat) (x : A) (e : exn) :
  l !! i = Some x -> f x = Err e -> exists e', mapM f l = Err e'.
Proof.
  revert i. induction l as [|y l IH]; intros [|i] Hi Hx; simpl in *; try discriminate.
  - inversion Hi; subst. rewrite Hx. eauto.
  - destruct (f y) as [b|e1]; simpl; [|eauto].
    destruct (IH i Hi Hx) as [e' ->]. simpl. eauto.
Qed.

Lemma imapM_from_ok g (i : nat) (l : list A) (k : list B) :
  imapM_from g i l = Ok k ->
  length k = length l /\
  forall j x, l !! j = Some x -> exists y, k !! j = Some y /\ g (i + j) x = Ok y.
Proof.
  revert i k. induction l as [|x l IH]; intros i k H; simpl in H.
  - inversion H. split; [reflexivity|]. intros j x Hj. destruct j; discriminate.
  - ok_steps. destruct (IH _ _ Ha0) as [Hlen Hk]. split; [simpl; lia|].
    intros [|j] z Hj; simpl in Hj.
    + inversion Hj; subst. exists a. rewrite Nat.add_0_r. auto.
    + destruct (Hk j z Hj) as (y & Hy & Hg). exists y. split; [exact Hy|].
      replace (i + S j) with (S i + j) by lia. exact Hg.
Qed.

Lemma imapM_from_total g (i : nat) (l : list A) :
  (forall j x, l !! j = Some x -> is_ok (g (i + j) x) = true) ->
  exists k, imapM_from g i l = Ok k.
Proof.
  revert i. induction l as [|x l IH]; intros i H; simpl; [eauto|].
  pose proof (H 0 x eq_refl) as H0. rewrite Nat.add_0_r in H0.
  destruct (g i x) as [y|]; [|discriminate]. simpl.
  destruct (IH (S i)) as [k ->].
  { intros j z Hj. replace (S i + j) with (i + S j) by lia. apply H. exact Hj. }
  simpl. eauto.
Qed.
End Loops.

(** ** Dicts *)

Lemma assoc_get_set_eq (m : list (string * json)) (k : string) (v : json) :
  Py.assoc_get (Py.assoc_set m k v) k = Some v.
Proof.
  induction m as [|[k' v'] m IH]; simpl.
  - rewrite String.eqb_refl. reflexivity.
  - destruct (String.eqb k' k) eqn:E; simpl; rewrite E; auto.
Qed.

Lemma assoc_get_set_ne (m : list (string * json)) (k k' : string) (v : json) :
  k <> k' -> Py.assoc_get (Py.assoc_set m k v) k' = Py.assoc_get m k'.
Proof.
  intros Hne. induction m as [|[k0 v0] m IH]; simpl.
  - destruct (String.eqb_spec k k'); [contradiction | reflexivity].
  - destruct (String.eqb_spec k0 k) as [->|Hk]; simpl.
    + destruct (String.eqb_spec k k'); [contradiction | reflexivity].
    + destruct (String.eqb k0 k'); auto.
Qed.

Lemma getitem_obj (o : json) (k : string) (v : json) :
  Py.getitem o k = Ok v -> exists m, o = JObj m /\ Py.assoc_get m k = Some v.
Proof.
  destruct o; simpl; try discriminate.
  destruct (Py.assoc_get members k) eqn:E; intros H; inversion H; subst; eauto.
Qed.

Lemma length_list_ascii_of_string (s : string) :
  length (list_ascii_of_string s) = String.length s.
Proof. induction s; simpl; auto. Qed.

Lemma iter_length (o : json) (items : list json) (n : nat) :
  Py.iter o = Ok items -> Py.len o = Ok n -> length items = n.
Proof.
  destruct o; simpl; intros Hi Hn; inversion Hi; inversion Hn; subst;
    rewrite ?length_fmap, ?length_list_ascii_of_string; reflexivity.
Qed.

Lemma iter_len_ok (o : json) (items : list json) :
  Py.iter o = Ok items -> Py.len o = Ok (length items).
Proof.
  destruct o; simpl; intros Hi; inversion Hi; subst;
    rewrite ?length_fmap, ?length_list_ascii_of_string; reflexivity.
Qed.

(** ** Splitting MultiPolygon features *)

Lemma lookup_concat {A} (ls : list (list A)) (n : nat) (l : list A) (i : nat) :
  ls !! n = Some l -> (i < length l)%nat ->
  concat ls !! (sum_list (length <$> take n ls) + i)%nat = l !! i.
Proof.
  revert n. induction ls as [|l0 ls IH]; intros [|n] Hn Hi; simpl in *; try discriminate.
  - inversion Hn; subst. apply lookup_app_l. exact Hi.
  - rewrite lookup_app_r by lia. rewrite <- (IH n Hn Hi). f_equal.
    change (list_fmap (list A) nat length (take n ls)) with (length <$> take n ls).
    generalize (sum_list (length <$> take n ls)). intros k. lia.
Qed.

Lemma length_concat_sum {A} (ls : list (list A)) :
  length (concat ls) = sum_list (length <$> ls).
Proof.
  induction ls as [|l ls IH]; [reflexivity|].
  rewrite fmap_cons. cbn [concat sum_list sum_list_with]. unfold id.
  rewrite length_app, IH. reflexivity.
Qed.

Section SplitProperties.

Variable py_repr : json -> string.

Local Abbreviation split_feature := (Split.split_feature py_repr).
Local Abbreviation split_features := (Split.split_features py_repr).
Local Abbreviation new_feature := (Split.new_feature py_repr).

(** The loop appends, feature by feature, what [split_feature] gives. *)
Lemma split_features_concat (fs : list json) (acc out : list json) :
  split_features fs acc = Ok out ->
  exists outs, Forall2 (fun f o => split_feature f = Ok o) fs outs /\
               out = acc ++ concat outs.
Proof.
  revert acc. induction fs as [|f fs IH]; intros acc H; simpl in H.
  - inversion H; subst. exists []. split; [constructor|]. simpl. by rewrite app_nil_r.
  - ok_steps. destruct (IH _ H) as (outs & HF & ->).
    exists (a :: outs). split; [by constructor|]. simpl. by rewrite app_assoc.
Qed.

(** The loop succeeds as soon as every round does. *)
Lemma split_features_total (fs : list json) (acc : list json) :
  Forall (fun f => is_ok (split_feature f) = true) fs ->
  exists out, split_features fs acc = Ok out.
Proof.
  intros HF. revert acc. induction HF as [|f fs Hf _ IH]; intros acc; simpl; [eauto|].
  destruct (split_feature f) as [o|]; [|discriminate]. simpl. apply IH.
Qed.

Lemma split_feature_length (f : json) (parts : list json) :
  split_feature f = Ok parts -> length parts = out_count f.
Proof.
  unfold Split.split_feature, out_count, is_multipolygon, part_count,
    geometry_type, geometry_coordinates.
  intros H. ok_steps. rewrite Ha. simpl. rewrite Ha0. simpl.
  destruct (Py.eq_str a0 "MultiPolygon"); [|by inversion H].
  ok_steps. rewrite Ha1. simpl.
  apply imapM_from_ok in H. destruct H as [-> _].
  by rewrite (iter_len_ok _ _ Ha2).
Qed.

Lemma sum_out_count (fs : list json) :
  sum_list (out_count <$> fs) =
  (sum_list (part_count <$> filter (fun f => is_multipolygon f = true) fs)
   + length (filter (fun f => is_multipolygon f <> true) fs))%nat.
Proof.
  induction fs as [|f fs IH]; [reflexivity|].
  rewrite !filter_cons, fmap_cons. cbn [sum_list sum_list_with]. rewrite IH.
  unfold out_count at 1.
  destruct (is_multipolygon f) eqn:E.
  - rewrite decide_True by reflexivity. rewrite decide_False by (intros ?; congruence).
    rewrite fmap_cons. cbn [sum_list sum_list_with]. unfold id. lia.
  - rewrite decide_False by discriminate. rewrite decide_True by discriminate.
    cbn [length]. unfold id. lia.
Qed.

Lemma Forall2_lengths_out_count (fs : list json) (outs : list (list json)) :
  Forall2 (fun f o => split_feature f = Ok o) fs outs ->
  length <$> outs = out_count <$> fs.
Proof.
  induction 1 as [|f o fs outs Hfo _ IH]; [reflexivity|].
  rewrite !fmap_cons, IH. f_equal. by apply split_feature_length.
Qed.

(** What the dict display builds for part [i] of a well-formed
    MultiPolygon feature. *)
Lemma new_feature_value (feature geometry id : json) (polys : list json)
    (props : list (string * json)) (i : nat) (polygon : json) :
  Py.getitem feature "id" = Ok id ->
  Py.get feature "properties" (JObj []) = Ok (JObj props) ->
  new_feature feature (JArr polys) i polygon =
  Ok (JObj [("type", JStr "Feature");
            ("id", JStr (Split.py_str py_repr id ++ "_" ++ pretty i));
            ("geometry", JObj [("type", JStr "Polygon"); ("coordinates", polygon)]);
            ("properties",
              JObj (Py.assoc_set (Py.assoc_set props "polygon_index" (JInt (Z.of_nat i)))
                      "total_polygons" (JInt (Z.of_nat (length polys)))))]).
Proof.
  intros Hid Hprops. unfold Split.new_feature.
  apply getitem_obj in Hid. destruct Hid as (m & -> & Hid).
  simpl in *. rewrite Hid. simpl. inversion Hprops as [Hp]. rewrite Hp. reflexivity.
Qed.

(** The round of a well-formed feature succeeds. *)
Lemma well_formed_splits (f : json) :
  well_formed f = true -> is_ok (split_feature f) = true.
Proof.
  unfold well_formed, Split.split_feature, geometry_type, geometry_coordinates.
  destruct (Py.getitem f "geometry") as [g|] eqn:Hg; simpl; [|discriminate].
  destruct (Py.getitem g "type") as [ty|]; simpl; [|discriminate].
  destruct (Py.eq_str ty "MultiPolygon"); [|reflexivity].
  destruct (Py.getitem g "coordinates") as [c|]; simpl; [|discriminate].
  destruct c as [| | | | |polys|]; try discriminate.
  destruct (Py.get f "properties" (JObj [])) as [props|] eqn:Hp; [|discriminate].
  destruct props as [| | | | | |props]; try discriminate.
  intros _. apply getitem_obj in Hg. destruct Hg as (m & -> & _).
  destruct (imapM_from_total (new_feature (JObj m) (JArr polys)) 0 polys)
    as [parts Hparts].
  { intros j x _. unfold Split.new_feature. simpl in *.
    inversion Hp as [Hp']. rewrite Hp'. reflexivity. }
  simpl. unfold imapM. rewrite Hparts. reflexivity.
Qed.

(** What the loop over the features returns: the number of output
    features is the sum of the part counts of the MultiPolygon features
    plus the number of the other features, and a MultiPolygon feature
    with an identifier and a properties mapping stands for consecutive
    output features, one per constituent polygon. *)
Lemma split_features_parts (fs out : list json) :
  Split.split_features py_repr fs [] = Ok out ->
  length out =
    (sum_list (part_count <$> filter (fun f => is_multipolygon f = true) fs)
     + length (filter (fun f => is_multipolygon f <> true) fs))%nat /\
  forall (n : nat) (feature id : json) (polys : list json)
         (props : list (string * json)),
    fs !! n = Some feature ->
    geometry_type feature = Ok (JStr "MultiPolygon") ->
    geometry_coordinates feature = Ok (JArr polys) ->
    Py.getitem feature "id" = Ok id ->
    Py.get feature "properties" (JObj []) = Ok (JObj props) ->
    out_count feature = length polys /\
    forall (i : nat) (polygon : json), polys !! i = Some polygon ->
      exists (p : json) (pprops : list (string * json)),
        out !! (sum_list (out_count <$> take n fs) + i)%nat = Some p /\
        Py.getitem p "type" = Ok (JStr "Feature") /\
        geometry_type p = Ok (JStr "Polygon") /\
        geometry_coordinates p = Ok polygon /\
        Py.getitem p "id" = Ok (JStr (Split.py_str py_repr id ++ "_" ++ pretty i)) /\
        Py.getitem p "properties" = Ok (JObj pprops) /\
        Py.assoc_get pprops "polygon_index" = Some (JInt (Z.of_nat i)) /\
        Py.assoc_get pprops "total_polygons" = Some (JInt (Z.of_nat (length polys))) /\
        forall k : string, k <> "polygon_index" -> k <> "total_polygons" ->
          Py.assoc_get pprops k = Py.assoc_get props k.
Proof.
  intros Hrun. apply split_features_concat in Hrun.
  destruct Hrun as (outs & HF & ->). simpl.
  pose proof (Forall2_lengths_out_count _ _ HF) as Hlens.
  split.
  { rewrite length_concat_sum, Hlens. apply sum_out_count. }
  intros n feature id polys props Hn Hty Hco Hid Hprops.
  destruct (Forall2_lookup_l _ _ _ _ _ HF Hn) as (parts & Houts & Hsplit).
  pose proof (split_feature_length _ _ Hsplit) as Hcount.
  unfold Split.split_feature in Hsplit.
  unfold geometry_type in Hty. unfold geometry_coordinates in Hco.
  destruct (Py.getitem feature "geometry") as [geometry|]; [|discriminate].
  simpl in Hty, Hco, Hsplit. rewrite Hty in Hsplit. simpl in Hsplit.
  rewrite Hco in Hsplit. simpl in Hsplit.
  apply imapM_from_ok in Hsplit. destruct Hsplit as [Hlen Hparts].
  split; [congruence|].
  intros i polygon Hi.
  destruct (Hparts i polygon Hi) as (p & Hp & Hnew). simpl in Hnew.
  rewrite (new_feature_value feature geometry id polys props i polygon Hid Hprops) in Hnew.
  inversion Hnew; subst p; clear Hnew.
  eexists. eexists. split.
  { rewrite fmap_take, <- Hlens, <- fmap_take.
    rewrite (lookup_concat outs n parts i Houts); [exact Hp|].
    apply lookup_lt_Some in Hi. lia. }
  repeat split; try reflexivity.
  - rewrite assoc_get_set_ne by discriminate. apply assoc_get_set_eq.
  - apply assoc_get_set_eq.
  - intros k Hk1 Hk2. rewrite assoc_get_set_ne by congruence.
    apply assoc_get_set_ne. congruence.
Qed.

Lemma split_features_passthrough (fs acc : list json) :
  Forall (fun f => is_multipolygon f = false /\ is_ok (geometry_type f) = true) fs ->
  Split.split_features py_repr fs acc = Ok (acc ++ fs).
Proof.
  intros HF. revert acc. induction HF as [|f fs [Hf Hok] _ IH]; intros acc; simpl.
  - by rewrite app_nil_r.
  - unfold Split.split_feature. unfold is_multipolygon, geometry_type in *.
    destruct (Py.getitem f "geometry") as [g|]; simpl in *; [|discriminate].
    destruct (Py.getitem g "type") as [ty|]; simpl in *; [|discriminate].
    rewrite Hf. simpl. rewrite IH. by rewrite <- app_assoc.
Qed.

End SplitProperties.

(** ** Runs of a script *)

Section Runs.
Context {A B : Type}.

Lemma run_eval_ok (a : A) (k : A -> script B) (w : world) :
  (eval (Ok a) ≫= k) w = k a w.
Proof. reflexivity. Qed.

Lemma run_eval_err (e : exn) (k : A -> script B) (w : world) :
  (eval (Err e) ≫= k) w = (w, Err e).
Proof. reflexivity. Qed.

Lemma run_say (l : line) (k : unit -> script B) (w : world) :
  (say l ≫= k) w = k tt (World (written w) (console w ++ [l])).
Proof. reflexivity. Qed.

Lemma run_dump (doc : json) (k : unit -> script B) (w : world) :
  (dump doc ≫= k) w = k tt (World (Some doc) (console w)).
Proof. reflexivity. Qed.

Lemma keeps_file_eval (r : result A) : keeps_file (eval r).
Proof. intros w. reflexivity. Qed.

Lemma keeps_file_ret (a : A) : keeps_file (mret a : script A).
Proof. intros w. reflexivity. Qed.

Lemma keeps_file_bind (m : script A) (k : A -> script B) :
  keeps_file m -> (forall a, keeps_file (k a)) -> keeps_file (m ≫= k).
Proof.
  intros Hm Hk w. unfold mbind, script_bind. specialize (Hm w).
  destruct (m w) as [w' [a|e]]; simpl in *; [|exact Hm].
  rewrite <- Hm. apply Hk.
Qed.
End Runs.

Lemma keeps_file_say (l : line) : keeps_file (say l).
Proof. intros w. reflexivity. Qed.

(** Scripts built from [eval], [say] and sequencing keep the file. *)
Ltac keeps_file :=
  repeat first
    [ apply keeps_file_say
    | apply keeps_file_eval
    | apply keeps_file_ret
    | apply keeps_file_bind; [|intros ?]
    | match goal with |- keeps_file (match ?x with _ => _ end) => destruct x end
    | match goal with |- keeps_file (if ?x then _ else _) => destruct x end ].

(** ** The split script as a whole *)

Section SplitRuns.

Variable py_repr : json -> string.

(** Where the run of the split script stands once the loop and the
    lookup of [crs] have succeeded: the new document is written, and
    nothing that follows touches the file. *)
Lemma split_multipolygon_written (doc features crs : json) (items new_features : list json) :
  Py.getitem doc "features" = Ok features ->
  Py.iter features = Ok items ->
  Split.split_features py_repr items [] = Ok new_features ->
  Py.getitem doc "crs" = Ok crs ->
  written (final (Split.main py_repr (Ok doc))) = Some (Split.new_geojson crs new_features).
Proof.
  intros Hfs Hit Hsplit Hcrs. unfold Split.main, Split.split_multipolygon.
  rewrite run_eval_ok, Hfs, run_eval_ok, Hit, run_eval_ok, Hsplit, run_eval_ok,
    Hcrs, run_eval_ok, run_dump.
  match goal with |- context [?k (World (Some ?d) ?c)] =>
    assert (Hk : keeps_file k) by (unfold keeps_file; keeps_file);
    specialize (Hk (World (Some d) c)); destruct (k (World (Some d) c)) as [w [[]|e]]
  end; simpl in *; exact Hk.
Qed.

(** C1, as amended.  For a document that has a [crs] member and a list
    of well-formed features, the split script writes a document whose
    feature list has as many features as the sum of the part counts of
    the MultiPolygon features plus the number of the other features; and
    in that list a MultiPolygon feature with K constituent polygons, an
    identifier and a properties mapping is replaced by exactly K
    consecutive features, the i-th of which (from zero, in array order)
    is a Feature of geometry type Polygon whose coordinates are the i-th
    constituent polygon, whose identifier is the text of the original
    identifier, an underscore and i, and whose properties are the
    original ones plus [polygon_index = i] and [total_polygons = K]. *)
Theorem split_multipolygon_parts (doc crs : json) (fs : list json) :
  Py.getitem doc "features" = Ok (JArr fs) ->
  Py.getitem doc "crs" = Ok crs ->
  Forall (fun f => well_formed f = true) fs ->
  exists (out : json) (new_features : list json),
    written (final (Split.main py_repr (Ok doc))) = Some out /\
    Py.getitem out "features" = Ok (JArr new_features) /\
    length new_features =
      (sum_list (part_count <$> filter (fun f => is_multipolygon f = true) fs)
       + length (filter (fun f => is_multipolygon f <> true) fs))%nat /\
    forall (n : nat) (feature id : json) (polys : list json)
           (props : list (string * json)),
      fs !! n = Some feature ->
      geometry_type feature = Ok (JStr "MultiPolygon") ->
      geometry_coordinates feature = Ok (JArr polys) ->
      Py.getitem feature "id" = Ok id ->
      Py.get feature "properties" (JObj []) = Ok (JObj props) ->
      out_count feature = length polys /\
      forall (i : nat) (polygon : json), polys !! i = Some polygon ->
        exists (p : json) (pprops : list (string * json)),
          new_features !! (sum_list (out_count <$> take n fs) + i)%nat = Some p /\
          Py.getitem p "type" = Ok (JStr "Feature") /\
          geometry_type p = Ok (JStr "Polygon") /\
          geometry_coordinates p = Ok polygon /\
          Py.getitem p "id" = Ok (JStr (Split.py_str py_repr id ++ "_" ++ pretty i)) /\
          Py.getitem p "properties" = Ok (JObj pprops) /\
          Py.assoc_get pprops "polygon_index" = Some (JInt (Z.of_nat i)) /\
          Py.assoc_get pprops "total_polygons" = Some (JInt (Z.of_nat (length polys))) /\
          forall k : string, k <> "polygon_index" -> k <> "total_polygons" ->
            Py.assoc_get pprops k = Py.assoc_get props k.
Proof.
  intros Hfs Hcrs Hwf.
  destruct (split_features_total py_repr fs []) as [new_features Hrun].
  { eapply Forall_impl; [exact Hwf|]. intros f. apply well_formed_splits. }
  exists (Split.new_geojson crs new_features), new_features.
  split.
  { exact (split_multipolygon_written doc (JArr fs) crs fs new_features
             Hfs eq_refl Hrun Hcrs). }
  split; [reflexivity|].
  exact (split_features_parts py_repr fs new_features Hrun).
Qed.

(** C4, as amended.  For a document that has a [crs] member and whose
    features all have geometry type Polygon, the split script writes a
    document whose feature list is, element for element, the feature list
    of the input, with the input's [crs]. *)
Theorem split_polygons_only (doc crs : json) (fs : list json) :
  Py.getitem doc "features" = Ok (JArr fs) ->
  Py.getitem doc "crs" = Ok crs ->
  Forall (fun f => geometry_type f = Ok (JStr "Polygon")) fs ->
  exists out : json,
    written (final (Split.main py_repr (Ok doc))) = Some out /\
    Py.getitem out "features" = Ok (JArr fs) /\
    Py.getitem out "crs" = Ok crs /\
    Py.getitem out "type" = Ok (JStr "FeatureCollection").
Proof.
  intros Hfs Hcrs Hpoly. exists (Split.new_geojson crs fs). split; [|by repeat split].
  apply (split_multipolygon_written doc (JArr fs) crs fs fs Hfs eq_refl); [|exact Hcrs].
  apply (split_features_passthrough py_repr fs []).
  eapply Forall_impl; [exact Hpoly|]. intros f Hf. unfold is_multipolygon.
  rewrite Hf. by split.
Qed.

(** C5 on the split script: whatever happens, the process ends with
    status 0; a failure is caught, printed with its traceback, and the
    script falls off its end. *)
Theorem split_main_exit_status :
  (forall file, exit_status (Split.main py_repr file) = 0%Z) /\
  (forall e, Split.main py_repr (Err e) =
             Process (World None [ErrorMsg e; Traceback e]) 0).
Proof.
  split.
  - intros file. unfold Split.main.
    destruct (Split.split_multipolygon py_repr file start) as [w [u|e]]; reflexivity.
  - intros e. reflexivity.
Qed.

End SplitRuns.

(** C4 as stated fails: a document of Polygon features without a [crs]
    member is not returned at all; the lookup of [crs] raises and no file
    is written. *)
Lemma split_polygons_only_needs_crs :
  Forall (fun f => geometry_type f = Ok (JStr "Polygon"))
         (features_of Sample.polygons_without_crs) /\
  Split.main Sample.no_repr (Ok Sample.polygons_without_crs) =
    Process (World None [ErrorMsg (KeyError "crs"); Traceback (KeyError "crs")]) 0.
Proof. split; [repeat constructor | reflexivity]. Qed.

Lemma split_polygons_only_witness :
  exists out : json,
    written (final (Split.main Sample.no_repr
                      (Ok (Sample.collection [Sample.square; Sample.square])))) = Some out /\
    Py.getitem out "features" = Ok (JArr [Sample.square; Sample.square]) /\
    Py.getitem out "crs" = Ok Sample.epsg2926 /\
    Py.getitem out "type" = Ok (JStr "FeatureCollection").
Proof.
  apply (split_polygons_only Sample.no_repr
           (Sample.collection [Sample.square; Sample.square]) Sample.epsg2926
           [Sample.square; Sample.square]).
  - reflexivity.
  - reflexivity.
  - repeat constructor.
Defined.

(** C1 as stated fails: a MultiPolygon feature of a document without a
    [crs] member is not replaced by anything; the loop splits it, the
    lookup of [crs] raises and no file is written. *)
Lemma split_multipolygon_parts_needs_crs :
  Forall (fun f => well_formed f = true)
         (features_of (Sample.bare_collection [Sample.feature7])) /\
  geometry_type Sample.feature7 = Ok (JStr "MultiPolygon") /\
  part_count Sample.feature7 = 2%nat /\
  Split.main Sample.no_repr (Ok (Sample.bare_collection [Sample.feature7])) =
    Process (World None [ErrorMsg (KeyError "crs"); Traceback (KeyError "crs")]) 0.
Proof. split; [repeat constructor | repeat split]. Qed.

Lemma split_multipolygon_parts_witness :
  exists (out : json) (new_features : list json),
    written (final (Split.main Sample.no_repr (Ok (Sample.collection Sample.mixed)))) =
      Some out /\
    Py.getitem out "features" = Ok (JArr new_features) /\
    length new_features = 4%nat /\
    exists (p : json) (pprops : list (string * json)),
      new_features !! 2%nat = Some p /\
      Py.getitem p "type" = Ok (JStr "Feature") /\
      geometry_type p = Ok (JStr "Polygon") /\
      geometry_coordinates p = Ok Sample.part1 /\
      Py.getitem p "id" = Ok (JStr "7_1") /\
      Py.getitem p "properties" = Ok (JObj pprops) /\
      Py.assoc_get pprops "polygon_index" = Some (JInt 1) /\
      Py.assoc_get pprops "total_polygons" = Some (JInt 2) /\
      Py.assoc_get pprops "STATE" = Some (JStr "Washington").
Proof.
  destruct (split_multipolygon_parts Sample.no_repr (Sample.collection Sample.mixed)
              Sample.epsg2926 Sample.mixed eq_refl eq_refl)
    as (out & new_features & Hout & Hfs & Hlen & Hparts).
  { repeat constructor. }
  exists out, new_features. split; [exact Hout|]. split; [exact Hfs|].
  split; [exact Hlen|].
  destruct (Hparts 1%nat Sample.feature7 (JStr "7") [Sample.part0; Sample.part1]
              [("STATE", JStr "Washington")] eq_refl eq_refl eq_refl eq_refl eq_refl)
    as [_ Hpart].
  destruct (Hpart 1%nat Sample.part1 eq_refl)
    as (p & pprops & H0 & H1 & H2 & H3 & H4 & H5 & H6 & H7 & H8).
  exists p, pprops. repeat split; try assumption.
  rewrite H8 by discriminate. reflexivity.
Defined.

(** ** Reprojection *)

Lemma Forall2_refl {A} (R : A -> A -> Prop) (l : list A) :
  (forall x, R x x) -> Forall2 R l l.
Proof. intros HR. induction l; constructor; auto. Qed.

(** A loop body that is a function sends equal ends to equal ends. *)
Lemma Forall2_fun_closed {A B} (f : A -> result B) (l : list A) (k : list B) :
  Forall2 (fun x y => f x = Ok y) l k -> head l = last l -> head k = last k.
Proof.
  intros HF. pose proof (Forall2_length _ _ _ HF) as Hlen.
  rewrite !head_lookup, !last_lookup, <- Hlen.
  destruct (l !! 0%nat) as [a|] eqn:Ha.
  - intros Hclosed. symmetry in Hclosed.
    destruct (Forall2_lookup_l _ _ _ _ _ HF Ha) as (y0 & -> & Hy0).
    destruct (Forall2_lookup_l _ _ _ _ _ HF Hclosed) as (y1 & -> & Hy1).
    congruence.
  - intros _. destruct l; [|discriminate]. inversion HF; subst. reflexivity.
Qed.

Lemma ring_preserved_refl (ring : json) : ring_preserved ring ring.
Proof. split; auto. Qed.

Lemma polygon_preserved_refl (polygon : json) : polygon_preserved polygon polygon.
Proof. apply Forall2_refl, ring_preserved_refl. Qed.

Lemma feature_preserved_refl (feature : json) : feature_preserved feature feature.
Proof.
  split; [reflexivity|]. destruct (is_multipolygon feature); [|reflexivity].
  apply Forall2_refl, polygon_preserved_refl.
Qed.

Lemma for_each_Forall2 (body : json -> result json) (R : json -> json -> Prop)
    (c c' : json) :
  (forall x y, body x = Ok y -> R x y) -> (forall x, R x x) ->
  Convert.for_each body c = Ok c' -> Forall2 R (items_of c) (items_of c').
Proof.
  intros Hbody Hrefl H.
  destruct c; simpl in H; try discriminate; ok_steps;
    try (apply Forall2_refl; exact Hrefl).
  apply mapM_ok in Ha. unfold items_of. simpl.
  eapply Forall2_impl; [exact Ha|]. exact Hbody.
Qed.

(** One failing element makes a loop over a list fail. *)
Lemma for_each_fails (body : json -> result json) (items : list json)
    (i : nat) (x : json) (e : exn) :
  items !! i = Some x -> body x = Err e ->
  exists e', Convert.for_each body (JArr items) = Err e'.
Proof.
  intros Hi Hx. simpl. destruct (mapM_fails body items i x e Hi Hx) as [e' ->].
  simpl. eauto.
Qed.

Section ConvertProperties.

Variable transform : json -> json -> result (json * json).

Lemma convert_ring_preserved (ring ring' : json) :
  Convert.convert_ring transform ring = Ok ring' -> ring_preserved ring ring'.
Proof.
  destruct ring; simpl; try discriminate.
  - destruct (list_ascii_of_string s); intros H; ok_steps.
    apply ring_preserved_refl.
  - intros H. ok_steps. apply mapM_ok in Ha. unfold ring_preserved, items_of. simpl.
    split; [symmetry; eapply Forall2_length, Ha|].
    eapply Forall2_fun_closed, Ha.
  - destruct members as [|[k v] m]; intros H; ok_steps.
    apply ring_preserved_refl.
Qed.

Lemma convert_polygon_preserved (polygon polygon' : json) :
  Convert.convert_polygon transform polygon = Ok polygon' ->
  polygon_preserved polygon polygon'.
Proof.
  apply for_each_Forall2; [apply convert_ring_preserved | apply ring_preserved_refl].
Qed.

Lemma convert_feature_preserved (feature feature' : json) :
  Convert.convert_feature transform feature = Ok feature' ->
  feature_preserved feature feature'.
Proof.
  unfold Convert.convert_feature. intros H. ok_steps.
  destruct (Py.eq_str a0 "MultiPolygon") eqn:Hmp.
  - ok_steps.
    apply getitem_obj in Ha. destruct Ha as (m & -> & Hg).
    apply getitem_obj in Ha0. destruct Ha0 as (gm & -> & Hty).
    apply getitem_obj in Ha1. destruct Ha1 as (gm' & Heq & Hco). inversion Heq; subst gm'.
    assert (Hty' : Py.assoc_get (Py.assoc_set gm "coordinates" a2) "type" = Some a0)
      by (rewrite assoc_get_set_ne by discriminate; exact Hty).
    unfold feature_preserved, is_multipolygon, coordinates_of, geometry_type,
      geometry_coordinates. simpl.
    rewrite assoc_get_set_eq, Hg. simpl. rewrite Hty', Hty, Hmp, Hco.
    rewrite assoc_get_set_eq. split; [reflexivity|].
    eapply for_each_Forall2; [apply convert_polygon_preserved
                             | apply polygon_preserved_refl | exact Ha2].
  - ok_steps. unfold feature_preserved, is_multipolygon, geometry_type.
    rewrite Ha. simpl. rewrite Ha0, Hmp. split; reflexivity.
Qed.

(** The document after the loop and the CRS update. *)
Lemma convert_document_preserved (doc out : json) :
  Convert.convert_document transform doc = Ok out ->
  Forall2 feature_preserved (features_of doc) (features_of out) /\
  Py.getitem out "crs" = Ok Convert.wgs84_crs.
Proof.
  unfold Convert.convert_document. intros H. ok_steps.
  pose proof Ha as Hfs. apply getitem_obj in Ha. destruct Ha as (m & -> & Hm).
  unfold features_of. rewrite Hfs. simpl.
  rewrite assoc_get_set_eq, assoc_get_set_ne, assoc_get_set_eq by discriminate.
  split; [|reflexivity].
  eapply for_each_Forall2; [apply convert_feature_preserved
                           | apply feature_preserved_refl | exact Ha0].
Qed.

(** The output file is written exactly when the input parses and the
    whole document converts, and it then holds the converted document. *)
Lemma convert_main_written (file : result json) (out : json) :
  written (final (Convert.main transform file)) = Some out <->
  exists doc, file = Ok doc /\ Convert.convert_document transform doc = Ok out.
Proof.
  unfold Convert.main, Convert.convert_coordinates.
  destruct file as [doc|e]; [|split; [discriminate | intros (d & Hd & _); discriminate]].
  rewrite run_eval_ok.
  destruct (Convert.convert_document transform doc) as [out'|e] eqn:Hdoc.
  - rewrite run_eval_ok, run_dump.
    match goal with |- context [?k (World (Some ?d) ?c)] =>
      assert (Hk : keeps_file k) by (unfold keeps_file; keeps_file);
      specialize (Hk (World (Some d) c)); destruct (k (World (Some d) c)) as [w [[]|e]]
    end; simpl in *; rewrite Hk;
      (split; [intros H; inversion H; subst; eauto
              | intros (d & Hd & Hout); inversion Hd; subst; congruence]).
  - rewrite run_eval_err. simpl.
    split; [discriminate | intros (d & Hd & Hout); inversion Hd; subst; congruence].
Qed.

(** A failure before the file is written: nothing is written, the
    exception is printed with the hint, and the status is 1. *)
Lemma convert_main_failure (doc : json) (e : exn) :
  Convert.convert_document transform doc = Err e ->
  Convert.main transform (Ok doc) =
  Process (World None [ErrorMsg e;
                       Text "Make sure pyproj is installed: pip install pyproj"]) 1.
Proof.
  intros H. unfold Convert.main, Convert.convert_coordinates.
  rewrite run_eval_ok, H, run_eval_err. reflexivity.
Qed.

(** The exit status of the conversion script: 0 when
    [convert_coordinates] returns, 1 when it raises. *)
Lemma convert_main_exit_status (file : result json) :
  exit_status (Convert.main transform file) =
  if is_ok (Convert.convert_coordinates transform file start).2 then 0%Z else 1%Z.
Proof.
  unfold Convert.main.
  destruct (Convert.convert_coordinates transform file start) as [w [u|e]]; reflexivity.
Qed.

(** C2. Reprojection preserves cardinality and ring closure.  Whenever
    the conversion script writes its output, the output has the features
    of the input, one for one and in order; a MultiPolygon feature keeps
    its polygon parts, each part its rings, each ring its number of
    coordinate pairs, all in order, and a ring whose first pair equals its
    last pair still has that property; every other feature is unchanged. *)
Theorem reprojection_preserves_shape (file : result json) (out : json) :
  written (final (Convert.main transform file)) = Some out ->
  exists doc : json,
    file = Ok doc /\
    length (features_of out) = length (features_of doc) /\
    Forall2 feature_preserved (features_of doc) (features_of out).
Proof.
  intros H. apply convert_main_written in H. destruct H as (doc & -> & Hdoc).
  apply convert_document_preserved in Hdoc. destruct Hdoc as [HF _].
  exists doc. split; [reflexivity|]. split; [|exact HF].
  symmetry. eapply Forall2_length, HF.
Qed.


(** C3, as amended.  If converting any coordinate pair of a MultiPolygon
    feature raises, the conversion script writes no output file, prints
    the exception (that of the first failing step, as Python raised it)
    with the installation hint, and ends with status 1. *)
Theorem failed_transform_aborts (doc feature : json) (fs polys rings coords : list json)
    (i j k n : nat) (coord : json) (e : exn) :
  Py.getitem doc "features" = Ok (JArr fs) ->
  fs !! i = Some feature ->
  is_multipolygon feature = true ->
  geometry_coordinates feature = Ok (JArr polys) ->
  polys !! j = Some (JArr rings) ->
  rings !! k = Some (JArr coords) ->
  coords !! n = Some coord ->
  Convert.convert_coord transform coord = Err e ->
  exists e' : exn,
    Convert.main transform (Ok doc) =
    Process (World None [ErrorMsg e';
                         Text "Make sure pyproj is installed: pip install pyproj"]) 1.
Proof.
  intros Hfs Hi Hmp Hco Hj Hk Hn He.
  assert (Hring : exists e1, Convert.convert_ring transform (JArr coords) = Err e1).
  { simpl. destruct (mapM_fails _ _ _ _ _ Hn He) as [e1 ->]. simpl. eauto. }
  destruct Hring as [e1 Hring].
  destruct (for_each_fails _ _ _ _ _ Hk Hring) as [e2 Hpoly].
  destruct (for_each_fails (Convert.convert_polygon transform) _ _ _ _ Hj Hpoly)
    as [e3 Hmulti].
  assert (Hfeat : Convert.convert_feature transform feature = Err e3).
  { unfold Convert.convert_feature. unfold is_multipolygon, geometry_type in Hmp.
    unfold geometry_coordinates in Hco.
    destruct (Py.getitem feature "geometry") as [g|]; simpl in *; [|discriminate].
    destruct (Py.getitem g "type") as [ty|]; simpl in *; [|discriminate].
    rewrite Hmp, Hco. simpl. rewrite Hmulti. reflexivity. }
  destruct (for_each_fails _ _ _ _ _ Hi Hfeat) as [e4 Hdoc].
  exists e4. apply convert_main_failure.
  unfold Convert.convert_document. rewrite Hfs.
  change (Ok (JArr fs) ≫= ?k) with (k (JArr fs)). cbv beta.
  rewrite Hdoc. reflexivity.
Qed.

End ConvertProperties.

(** ** Loading the zone table *)

Lemma keeps_accepted (row : list string) :
  Qozs.keeps row = true <-> accepted row.
Proof.
  unfold Qozs.keeps, accepted, field.
  rewrite andb_true_iff, Nat.leb_le.
  destruct (row !! 0%nat) as [s|] eqn:E; simpl.
  - rewrite andb_true_iff, negb_true_iff, bool_decide_eq_true.
    destruct (String.eqb_spec s ""); intuition congruence.
  - split; [intros [_ ?]; discriminate|]. intros (_ & Hne & _). congruence.
Qed.

Lemma unpack5_qoz_of_row (row : list string) :
  5 <= length row -> Qozs.unpack5 row = Some (qoz_of_row row).
Proof.
  intros Hlen. do 5 (destruct row as [|? row]; [simpl in Hlen; lia|]). reflexivity.
Qed.

(** C7. The loader returns, in input order, the records of exactly those
    rows that have at least five fields and whose first field is
    non-empty and one of the fifty state names of the allow-list; every
    other row (header, blank, unrecognised region) is skipped. *)
Theorem load_qozs_csv_filters (rows : list (list string)) :
  Qozs.load_qozs_csv rows = qoz_of_row <$> filter accepted rows /\
  length Qozs.valid_states = 50 /\
  NoDup Qozs.valid_states.
Proof.
  split; [|split; [reflexivity | apply (bool_decide_unpack _); vm_compute; exact I]].
  induction rows as [|row rows IH]; [reflexivity|].
  rewrite filter_cons. simpl. destruct (Qozs.keeps row) eqn:Hk.
  - apply keeps_accepted in Hk. rewrite decide_True by exact Hk.
    rewrite (unpack5_qoz_of_row row (proj1 Hk)), fmap_cons, IH. reflexivity.
  - rewrite decide_False; [exact IH|]. intros Hacc. apply keeps_accepted in Hacc.
    congruence.
Qed.

(** ** The per-row boundary lookups *)

Lemma say_all_run (ls : list line) (w : world) :
  Qozs.say_all ls w = (World (written w) (console w ++ ls), Ok tt).
Proof.
  revert w. induction ls as [|l ls IH]; intros [f c]; simpl.
  - unfold mret, script_ret. by rewrite app_nil_r.
  - rewrite run_say, IH. simpl. by rewrite <- app_assoc.
Qed.

Section QozsProperties.

Variable tigerweb : nat -> string -> Qozs.http.

(** One round of the loop: it appends one feature, the placeholder when
    no boundary was found, and cannot raise unless a boundary that was
    found has no geometry. *)
Lemma process_zone_run (total i : nat) (q : Qozs.qoz) (t : Qozs.tally) (w : world) :
  (forall b, lookup_boundary tigerweb i q = Some b -> Py.truthy b = true ->
             is_ok (Py.getitem b "geometry") = true) ->
  exists (w' : world) (f : json),
    Qozs.process_zone tigerweb total i q t w =
      (w', Ok (Qozs.Tally (Qozs.features t ++ [f])
                 (Qozs.success_count t + if boundary_found tigerweb i q then 1 else 0))) /\
    written w' = written w /\
    (boundary_found tigerweb i q = false -> f = Qozs.point_feature i q).
Proof.
  intros Hgeo. unfold Qozs.process_zone. rewrite run_say.
  unfold mbind at 1. unfold script_bind, Qozs.get_census_tract_boundary.
  unfold boundary_found, lookup_boundary in *.
  destruct (Qozs.boundary_of _) as [[b|]|e]; simpl.
  - destruct (Py.truthy b) eqn:Hb.
    + specialize (Hgeo b eq_refl Hb).
      destruct (Py.getitem b "geometry") as [g|]; [|discriminate].
      rewrite run_eval_ok, !Nat.add_1_r. unfold mret, script_ret.
      do 2 eexists. split; [reflexivity|]. split; [reflexivity|discriminate].
    + rewrite Nat.add_0_r. unfold mret, script_ret, Qozs.fallback.
      do 2 eexists. split; [reflexivity|]. split; reflexivity.
  - rewrite Nat.add_0_r. unfold mret, script_ret, Qozs.fallback.
    do 2 eexists. split; [reflexivity|]. split; reflexivity.
  - rewrite Nat.add_0_r. unfold mret, script_ret, Qozs.fallback.
    do 2 eexists. split; [reflexivity|]. split; reflexivity.
Qed.

(** The loop: one feature per zone, in order. *)
Lemma process_zones_run (total : nat) (zones : list Qozs.qoz) :
  forall (i : nat) (t : Qozs.tally) (w : world),
  (forall j q b, zones !! j = Some q -> lookup_boundary tigerweb (i + j) q = Some b ->
                 Py.truthy b = true -> is_ok (Py.getitem b "geometry") = true) ->
  exists (w' : world) (fs : list json),
    Qozs.process_zones tigerweb total i zones t w =
      (w', Ok (Qozs.Tally (Qozs.features t ++ fs)
                 (Qozs.success_count t + count_found tigerweb i zones))) /\
    written w' = written w /\
    length fs = length zones /\
    forall j q, zones !! j = Some q -> boundary_found tigerweb (i + j) q = false ->
                fs !! j = Some (Qozs.point_feature (i + j) q).
Proof.
  induction zones as [|q zones IH]; intros i t w Hgeo.
  - exists w, []. simpl. unfold mret, script_ret.
    rewrite app_nil_r, Nat.add_0_r. destruct t. repeat split; try reflexivity.
    intros j q Hj. destruct j; discriminate.
  - destruct (process_zone_run total i q t w) as (w1 & f & Hstep & Hw1 & Hf).
    { intros b Hb. apply (Hgeo 0%nat q b eq_refl). by rewrite Nat.add_0_r. }
    cbn [Qozs.process_zones]. unfold mbind at 1. unfold script_bind. rewrite Hstep.
    destruct (IH (S i) (Qozs.Tally (Qozs.features t ++ [f])
                 (Qozs.success_count t + if boundary_found tigerweb i q then 1 else 0)) w1)
      as (w2 & fs & Hrest & Hw2 & Hlen & Hfs).
    { intros j q' b Hj. replace (S i + j)%nat with (i + S j)%nat by lia.
      by apply (Hgeo (S j)). }
    rewrite Hrest. exists w2, (f :: fs). cbn [Qozs.features Qozs.success_count].
    split; [|split; [congruence | split; [simpl; lia|]]].
    + rewrite <- app_assoc. cbn [count_found]. do 3 f_equal. lia.
    + intros [|j] q' Hj Hnf; simpl in Hj.
      * inversion Hj; subst q'. rewrite Nat.add_0_r in *. by rewrite (Hf Hnf).
      * replace (i + S j)%nat with (S i + j)%nat in * by lia. by apply Hfs.
Qed.

Lemma count_found_missing (i : nat) (zones : list Qozs.qoz) :
  (count_found tigerweb i zones + count_missing tigerweb i zones = length zones)%nat.
Proof.
  revert i. induction zones as [|q zones IH]; intros i; simpl; [reflexivity|].
  specialize (IH (S i)). destruct (boundary_found tigerweb i q); lia.
Qed.

(** C6, as amended.  A failed or empty boundary lookup is not fatal: as
    long as every boundary that is found carries a geometry, the run
    completes and writes one feature per processed row, the feature of a
    row without boundary being the placeholder Point at the default
    coordinates.  The counter kept and reported at the end is the number
    of rows whose boundary was found; the number of failures is what is
    missing from it to the number of features. *)
Theorem boundary_failures_get_placeholders (rows : list (list string)) :
  (forall j q b,
      processed_zones rows !! j = Some q ->
      lookup_boundary tigerweb j q = Some b ->
      Py.truthy b = true -> is_ok (Py.getitem b "geometry") = true) ->
  exists (w : world) (fs : list json),
    Qozs.create_qozs_geojson tigerweb rows start = (w, Ok (Qozs.feature_collection fs)) /\
    written w = Some (Qozs.feature_collection fs) /\
    length fs = length (processed_zones rows) /\
    (forall j q,
        processed_zones rows !! j = Some q ->
        boundary_found tigerweb j q = false ->
        fs !! j = Some (Qozs.point_feature j q)) /\
    (exists earlier : list line,
        console w = earlier ++
          Qozs.report (Qozs.Tally fs (count_found tigerweb 0 (processed_zones rows)))
                      (length (Qozs.load_qozs_csv rows))) /\
    (count_found tigerweb 0 (processed_zones rows)
     + count_missing tigerweb 0 (processed_zones rows) = length fs)%nat.
Proof.
  intros Hgeo. unfold Qozs.create_qozs_geojson.
  rewrite !run_say. fold (processed_zones rows).
  unfold mbind at 1. unfold script_bind.
  match goal with |- context [Qozs.process_zones _ _ _ _ ?t ?w0] =>
    destruct (process_zones_run (length (processed_zones rows)) (processed_zones rows)
                0 t w0 Hgeo) as (w1 & fs & Hrun & Hw1 & Hlen & Hfs)
  end.
  rewrite Hrun. cbn [Qozs.features Qozs.success_count app Nat.add].
  rewrite run_dump. unfold mbind at 1. unfold script_bind. rewrite say_all_run.
  unfold mret, script_ret. cbn [written console].
  exists (World (Some (Qozs.feature_collection fs))
            (console w1 ++
               Qozs.report (Qozs.Tally fs (count_found tigerweb 0 (processed_zones rows)))
                 (length (Qozs.load_qozs_csv rows)))), fs.
  split; [reflexivity|]. split; [reflexivity|]. split; [exact Hlen|].
  split; [exact Hfs|]. split; [by exists (console w1)|].
  rewrite Hlen. apply count_found_missing.
Qed.

End QozsProperties.

(** C6 as stated fails: with one boundary found and two lookups that
    give nothing, the lines printed report 3 zones found in the table, 3
    processed, 3 features, 1 boundary found and 3 zones in all; the number
    of failures, 2, is not among them, and no counter of failures is kept. *)
Lemma failure_count_not_reported :
  count_missing Sample.service 0 (processed_zones Sample.zone_rows) = 2%nat /\
  console (Qozs.create_qozs_geojson Sample.service Sample.zone_rows start).1 =
    [Text "Loading QOZs CSV data...";
     ShowNum "Found opportunity zones" 3;
     ShowNum "Processing first zones" 3;
     Show "Processing 1/3: Alabama" (JStr "01001020700");
     Show "Processing 2/3: Alaska" (JStr "02050000100");
     ErrorIn "getting boundary for Alaska tract 02050000100" (LibError "Read timed out");
     Show "Processing 3/3: Wyoming" (JStr "56001963700");
     ShowNum "Created GeoJSON with opportunity zones" 3;
     Text "Saved to: opportunity_zones_complete.geojson";
     ShowNum "Successfully got boundaries for zones" 1;
     ShowNum "Total zones in CSV" 3] /\
  2%nat ∉ reported_numbers
            (console (Qozs.create_qozs_geojson Sample.service Sample.zone_rows start).1).
Proof.
  split; [reflexivity|]. split; [reflexivity|].
  apply (bool_decide_unpack _). vm_compute. exact I.
Qed.

Lemma boundary_failures_get_placeholders_witness :
  exists (w : world) (fs : list json),
    Qozs.create_qozs_geojson Sample.service Sample.zone_rows start
      = (w, Ok (Qozs.feature_collection fs)) /\
    written w = Some (Qozs.feature_collection fs) /\
    length fs = 3%nat /\
    fs !! 1%nat = Some (Qozs.point_feature 1
                          (Qozs.Qoz "Alaska" "Bethel" "02050000100"
                                    "Low-Income Community" "2011-2015")) /\
    (count_found Sample.service 0 (processed_zones Sample.zone_rows)
     + count_missing Sample.service 0 (processed_zones Sample.zone_rows) = length fs)%nat.
Proof.
  destruct (boundary_failures_get_placeholders Sample.service Sample.zone_rows)
    as (w & fs & Hrun & Hw & Hlen & Hfs & _ & Hcount).
  - intros [|[|[|j]]] q b Hq Hb Ht; vm_compute in Hq, Hb; try discriminate.
    inversion Hb; subst b. reflexivity.
  - exists w, fs. split; [exact Hrun|]. split; [exact Hw|]. split; [exact Hlen|].
    split; [|exact Hcount]. apply Hfs; reflexivity.
Defined.

(** ** Reprojection on sample documents *)

Lemma reprojection_preserves_shape_witness :
  exists out : json,
    written (final (Convert.main Sample.swap
                      (Ok (Sample.collection [Sample.feature7; Sample.square])))) = Some out /\
    length (features_of out) = 2%nat /\
    Forall2 feature_preserved [Sample.feature7; Sample.square] (features_of out).
Proof.
  destruct (written (final (Convert.main Sample.swap
              (Ok (Sample.collection [Sample.feature7; Sample.square])))))
    as [out|] eqn:Hout; [|vm_compute in Hout; discriminate].
  exists out. split; [reflexivity|].
  destruct (reprojection_preserves_shape Sample.swap _ out Hout) as (doc & Hdoc & Hlen & HF).
  inversion Hdoc; subst doc. split; [exact Hlen | exact HF].
Defined.


Lemma failed_transform_aborts_witness :
  exists e' : exn,
    Convert.main Sample.swap (Ok (Sample.collection [Sample.feature7; Sample.broken])) =
    Process (World None [ErrorMsg e';
                         Text "Make sure pyproj is installed: pip install pyproj"]) 1.
Proof.
  apply (failed_transform_aborts Sample.swap
           (Sample.collection [Sample.feature7; Sample.broken]) Sample.broken
           [Sample.feature7; Sample.broken]
           [JArr [JArr [Sample.pt 1 1; JArr [JInt 1]]]]
           [JArr [Sample.pt 1 1; JArr [JInt 1]]]
           [Sample.pt 1 1; JArr [JInt 1]]
           1 0 0 1 (JArr [JInt 1]) IndexError); reflexivity.
Defined.

(** C3 as stated fails: a pair with one component makes the run fail,
    but with Python's own [IndexError], which names neither a feature nor
    a position; the same outcome, line for line, comes from a document
    where the pair sits in the first feature and from one where it sits
    in the second. *)
Lemma transform_error_names_no_position :
  Convert.convert_feature Sample.swap Sample.broken = Err IndexError /\
  is_ok (Convert.convert_feature Sample.swap Sample.feature7) = true /\
  Convert.main Sample.swap (Ok (Sample.collection [Sample.broken])) =
    Process (World None [ErrorMsg IndexError;
                         Text "Make sure pyproj is installed: pip install pyproj"]) 1 /\
  Convert.main Sample.swap (Ok (Sample.collection [Sample.feature7; Sample.broken])) =
    Process (World None [ErrorMsg IndexError;
                         Text "Make sure pyproj is installed: pip install pyproj"]) 1.
Proof. repeat split; reflexivity. Qed.

(** ** The tabular join *)

Section Join.

Implicit Types (t : Bulk.tract_row) (q : Bulk.zone_row).

Lemma merge_inner_cons t (ts : list Bulk.tract_row) (qs : list Bulk.zone_row) :
  Bulk.merge_inner (t :: ts) qs =
  (Bulk.MergedRow t <$> filter (fun q => Bulk.matches t q = true) qs)
  ++ Bulk.merge_inner ts qs.
Proof.
  unfold Bulk.merge_inner. rewrite bind_cons. apply (f_equal (fun l => l ++ _)).
  induction (filter (fun q => Bulk.matches t q = true) qs) as [|q l IH]; [reflexivity|].
  rewrite bind_cons, fmap_cons, <- IH. reflexivity.
Qed.

Lemma tract_for_none (ts : list Bulk.tract_row) (code : string) :
  code ∉ Bulk.GEOID <$> ts -> tract_for ts code = None.
Proof.
  induction ts as [|t ts IH]; [reflexivity|].
  rewrite fmap_cons, not_elem_of_cons. intros [Hne Hts]. unfold tract_for. simpl.
  destruct (String.eqb_spec (Bulk.GEOID t) code); [congruence | by apply IH].
Qed.

Lemma tract_for_some (ts : list Bulk.tract_row) (code : string) :
  code ∈ Bulk.GEOID <$> ts ->
  exists t, tract_for ts code = Some t /\ Bulk.GEOID t = code.
Proof.
  induction ts as [|t ts IH]; [intros H; inversion H|].
  rewrite fmap_cons, elem_of_cons. intros H. unfold tract_for. simpl.
  destruct (String.eqb_spec (Bulk.GEOID t) code) as [Heq|Hne]; [eauto|].
  destruct H as [H|H]; [congruence | by apply IH].
Qed.

Lemma joined_cons_tract t (ts : list Bulk.tract_row) (qs : list Bulk.zone_row) :
  Bulk.GEOID t ∉ Bulk.GEOID <$> ts ->
  joined (t :: ts) qs ≡ₚ
  (Bulk.MergedRow t <$> filter (fun q => Bulk.matches t q = true) qs) ++ joined ts qs.
Proof.
  intros Hfresh. induction qs as [|q qs IH]; [reflexivity|].
  rewrite filter_cons. unfold joined in *. cbn [omap list_omap].
  unfold tract_for at 1. cbn [List.find]. fold (tract_for ts (Bulk.TRACTCE q)).
  change (String.eqb (Bulk.GEOID t) (Bulk.TRACTCE q)) with (Bulk.matches t q).
  destruct (Bulk.matches t q) eqn:Hm.
  - apply String.eqb_eq in Hm.
    rewrite decide_True by reflexivity. rewrite fmap_cons. cbn [mbind option_bind].
    rewrite (tract_for_none ts (Bulk.TRACTCE q)) by (by rewrite <- Hm).
    cbn [mbind option_bind app]. by apply Permutation_skip.
  - rewrite decide_False by discriminate.
    destruct (tract_for ts (Bulk.TRACTCE q)) as [t'|]; cbn [mbind option_bind].
    + rewrite IH. apply Permutation_middle.
    + exact IH.
Qed.

(** With one tract per identifier, the merge is the join zone row by
    zone row, up to the order of the rows. *)
Lemma merge_inner_joined (tracts : list Bulk.tract_row) (qs : list Bulk.zone_row) :
  NoDup (Bulk.GEOID <$> tracts) -> Bulk.merge_inner tracts qs ≡ₚ joined tracts qs.
Proof.
  induction tracts as [|t ts IH]; intros Hnd.
  - unfold Bulk.merge_inner, joined. simpl.
    induction qs as [|q qs IHq]; [reflexivity | exact IHq].
  - rewrite fmap_cons in Hnd. apply NoDup_cons in Hnd. destruct Hnd as [Hfresh Hnd].
    rewrite merge_inner_cons, (joined_cons_tract t ts qs Hfresh), (IH Hnd). reflexivity.
Qed.

Lemma joined_row_is_Some (tracts : list Bulk.tract_row) q :
  is_Some (joined_row tracts q) <-> has_tract tracts q.
Proof.
  unfold joined_row, has_tract. split.
  - intros [r Hr]. destruct (tract_for tracts _) as [t|] eqn:E; [|discriminate].
    unfold tract_for in E. apply List.find_some in E. destruct E as [Hin Heq].
    apply String.eqb_eq in Heq. rewrite <- Heq.
    apply list_elem_of_fmap. exists t. split; [reflexivity|]. by apply list_elem_of_In.
  - intros H. destruct (tract_for_some _ _ H) as (t & -> & _). simpl. eauto.
Qed.

Lemma length_omap_filter {A B} (f : A -> option B) (P : A -> Prop)
    `{forall x, Decision (P x)} (l : list A) :
  (forall x, is_Some (f x) <-> P x) ->
  length (omap f l) = length (filter P l).
Proof.
  intros Hf. induction l as [|x l IH]; [reflexivity|].
  rewrite filter_cons. cbn [omap list_omap]. specialize (Hf x).
  destruct (f x) as [y|].
  - rewrite decide_True by (apply Hf; eauto). simpl. by rewrite IH.
  - rewrite decide_False; [exact IH|]. intros HP. apply Hf in HP. by destruct HP.
Qed.


End Join.



(** ** The economic-indicators table *)

Section EconomicProperties.

Variables gdp_growth employment_rate : gmap string string.
Variable today : string.

Lemma null_if_missing_get (d : gmap string string) (country : string) :
  (d !! country = None \/ d !! country = Some "" ->
   Economic.null_if_missing (Some (Economic.get_or_empty d country)) = "NULL") /\
  (forall v, d !! country = Some v -> v <> "" ->
   Economic.null_if_missing (Some (Economic.get_or_empty d country)) = v).
Proof.
  unfold Economic.null_if_missing, Economic.get_or_empty. split.
  - intros [-> | ->]; reflexivity.
  - intros v -> Hv. simpl. destruct (String.eqb_spec v ""); [contradiction|reflexivity].
Qed.

(** C9, as amended.  The table starts with the fixed header, and the row
    of each country has one field per column of the header, in its order:
    the country, [gdp_growth] and [employment_rate] (the literal NULL
    when the indicator is missing, its value otherwise), three fields
    that are always empty (property_appreciation, builder_accessibility,
    international_accessibility), and the date of the run. *)
Theorem economic_table_rows (countries : list string) :
  Economic.economic_data_global gdp_growth employment_rate today countries !! 0%nat
    = Some Economic.fieldnames /\
  forall (i : nat) (country : string), countries !! i = Some country ->
    exists g e : string,
      Economic.economic_data_global gdp_growth employment_rate today countries !! S i
        = Some [country; g; e; ""; ""; ""; today] /\
      (gdp_growth !! country = None \/ gdp_growth !! country = Some "" -> g = "NULL") /\
      (forall v, gdp_growth !! country = Some v -> v <> "" -> g = v) /\
      (employment_rate !! country = None \/ employment_rate !! country = Some ""
       -> e = "NULL") /\
      (forall v, employment_rate !! country = Some v -> v <> "" -> e = v).
Proof.
  split; [reflexivity|]. intros i country Hi.
  exists (Economic.null_if_missing (Some (Economic.get_or_empty gdp_growth country))),
         (Economic.null_if_missing (Some (Economic.get_or_empty employment_rate country))).
  split.
  - unfold Economic.economic_data_global.
    match goal with |- (?x :: ?l) !! S i = _ => change ((x :: l) !! S i) with (l !! i) end.
    rewrite list_lookup_fmap, Hi. reflexivity.
  - pose proof (null_if_missing_get gdp_growth country) as [? ?].
    pose proof (null_if_missing_get employment_rate country) as [? ?].
    repeat split; assumption.
Qed.

End EconomicProperties.

(** C9 as stated fails: for a country with no data at all, the two
    indicator fields are NULL but the three other numeric fields, which
    are missing as well, are empty. *)
Lemma placeholder_columns_not_null :
  Economic.economic_data_global ∅ ∅ "2025-06-30" ["france"] =
    [["region"; "gdp_growth"; "employment_rate"; "property_appreciation";
      "builder_accessibility"; "international_accessibility"; "last_updated"];
     ["france"; "NULL"; "NULL"; ""; ""; ""; "2025-06-30"]].
Proof. reflexivity. Qed.

Lemma economic_table_rows_witness :
  exists g e : string,
    Economic.economic_data_global {["france" := "2.5"]} ∅ "2025-06-30" ["spain"; "france"]
      !! 2%nat = Some ["france"; g; e; ""; ""; ""; "2025-06-30"] /\
    g = "2.5" /\ e = "NULL".
Proof.
  destruct (economic_table_rows {["france" := "2.5"]} ∅ "2025-06-30" ["spain"; "france"])
    as [_ Hrow].
  destruct (Hrow 1%nat "france" eq_refl) as (g & e & Hlook & _ & Hg & He & _).
  exists g, e. split; [exact Hlook|]. split.
  - apply Hg; [reflexivity | discriminate].
  - apply He. left. reflexivity.
Defined.

(** * Further properties of the scripts *)

(** ** The split script: identifiers, failures, shape of the output *)

Section SplitFurther.

Variable py_repr : json -> string.

(** The dict display for a feature that is a dict, whatever it holds
    under [id]. *)
Lemma new_feature_of_dict (m : list (string * json)) (polys : list json)
    (props : list (string * json)) (i : nat) (polygon : json) :
  Py.get (JObj m) "properties" (JObj []) = Ok (JObj props) ->
  Split.new_feature py_repr (JObj m) (JArr polys) i polygon =
  Ok (JObj [("type", JStr "Feature");
            ("id", JStr (Split.py_str py_repr (default (JStr "unknown") (Py.assoc_get m "id"))
                         ++ "_" ++ pretty i));
            ("geometry", JObj [("type", JStr "Polygon"); ("coordinates", polygon)]);
            ("properties",
              JObj (Py.assoc_set (Py.assoc_set props "polygon_index" (JInt (Z.of_nat i)))
                      "total_polygons" (JInt (Z.of_nat (length polys)))))]).
Proof.
  intros Hprops. unfold Split.new_feature. simpl in *.
  inversion Hprops as [Hp]. rewrite Hp. reflexivity.
Qed.

(** A failing round makes the loop over the features fail. *)
Lemma split_features_fails (fs acc : list json) (i : nat) (f : json) (e : exn) :
  fs !! i = Some f -> Split.split_feature py_repr f = Err e ->
  exists e', Split.split_features py_repr fs acc = Err e'.
Proof.
  revert i acc. induction fs as [|f0 fs IH]; intros [|i] acc Hi Hf; simpl in *;
    try discriminate.
  - inversion Hi; subst. rewrite Hf. simpl. eauto.
  - destruct (Split.split_feature py_repr f0) as [o|e0]; simpl; [|eauto].
    eapply IH; eauto.
Qed.

(** The identifier of the parts when the feature has no usable
    identifier of its own: a feature without [id] gives [unknown_0],
    [unknown_1], ...; an [id] that is [null] gives [None_0], ...; an
    integer [id] is written in decimal. *)
Theorem split_part_identifiers (feature : json) (polys : list json)
    (props : list (string * json)) :
  geometry_type feature = Ok (JStr "MultiPolygon") ->
  geometry_coordinates feature = Ok (JArr polys) ->
  Py.get feature "properties" (JObj []) = Ok (JObj props) ->
  exists parts : list json,
    Split.split_feature py_repr feature = Ok parts /\
    length parts = length polys /\
    forall (i : nat) (p : json), parts !! i = Some p ->
      (Py.getitem feature "id" = Err (KeyError "id") ->
       Py.getitem p "id" = Ok (JStr ("unknown_" ++ pretty i))) /\
      (Py.getitem feature "id" = Ok JNull ->
       Py.getitem p "id" = Ok (JStr ("None_" ++ pretty i))) /\
      (forall z : Z, Py.getitem feature "id" = Ok (JInt z) ->
       Py.getitem p "id" = Ok (JStr (pretty z ++ "_" ++ pretty i))).
Proof.
  intros Hty Hco Hprops.
  unfold geometry_type in Hty. unfold geometry_coordinates in Hco.
  destruct (Py.getitem feature "geometry") as [g|] eqn:Hg; [|discriminate].
  simpl in Hty, Hco.
  apply getitem_obj in Hg. destruct Hg as (m & -> & Hg).
  assert (Hsplit : Split.split_feature py_repr (JObj m) =
                   imapM (Split.new_feature py_repr (JObj m) (JArr polys)) polys).
  { unfold Split.split_feature. simpl. rewrite Hg. simpl. rewrite Hty. simpl.
    rewrite Hco. reflexivity. }
  destruct (imapM_from_total (Split.new_feature py_repr (JObj m) (JArr polys)) 0 polys)
    as [parts Hparts].
  { intros j x _. by rewrite (new_feature_of_dict m polys props _ x Hprops). }
  exists parts. rewrite Hsplit. split; [exact Hparts|].
  apply imapM_from_ok in Hparts. destruct Hparts as [Hlen Hall].
  split; [exact Hlen|]. intros i p Hp.
  destruct (polys !! i) as [x|] eqn:Hx.
  2: { apply lookup_ge_None in Hx. apply lookup_lt_Some in Hp. lia. }
  destruct (Hall i x Hx) as (y & Hy & Hnew). simpl in Hnew.
  rewrite (new_feature_of_dict m polys props i x Hprops) in Hnew.
  assert (p = y) by congruence. subst y. inversion Hnew; subst p; clear Hnew.
  simpl. repeat split.
  - destruct (Py.assoc_get m "id"); [discriminate | reflexivity].
  - destruct (Py.assoc_get m "id") as [v|]; [|discriminate].
    intros H; inversion H; subst. reflexivity.
  - intros z. destruct (Py.assoc_get m "id") as [v|]; [|discriminate].
    intros H; inversion H; subst. reflexivity.
Qed.

(** How one feature makes the split fail: a feature without geometry, a
    geometry without type, a MultiPolygon without coordinates or with
    coordinates that cannot be iterated, and a MultiPolygon with at
    least one part whose [properties] member is present but is not a
    mapping ([null], for one). *)
Theorem split_feature_errors (feature : json) (m : list (string * json)) :
  feature = JObj m ->
  (Py.assoc_get m "geometry" = None ->
   Split.split_feature py_repr feature = Err (KeyError "geometry")) /\
  (forall gm, Py.assoc_get m "geometry" = Some (JObj gm) ->
     Py.assoc_get gm "type" = None ->
     Split.split_feature py_repr feature = Err (KeyError "type")) /\
  (forall gm, Py.assoc_get m "geometry" = Some (JObj gm) ->
     Py.assoc_get gm "type" = Some (JStr "MultiPolygon") ->
     (Py.assoc_get gm "coordinates" = None ->
      Split.split_feature py_repr feature = Err (KeyError "coordinates")) /\
     (Py.assoc_get gm "coordinates" = Some JNull ->
      Split.split_feature py_repr feature = Err TypeError) /\
     (forall part parts v,
        Py.assoc_get gm "coordinates" = Some (JArr (part :: parts)) ->
        Py.assoc_get m "properties" = Some v ->
        (forall props, v <> JObj props) ->
        Split.split_feature py_repr feature = Err TypeError)).
Proof.
  intros ->. unfold Split.split_feature. simpl. split; [|split].
  - intros ->. reflexivity.
  - intros gm -> Hty. simpl. rewrite Hty. reflexivity.
  - intros gm -> Hty. simpl. rewrite Hty. simpl. split; [|split].
    + intros ->. reflexivity.
    + intros ->. reflexivity.
    + intros part parts v -> Hv Hnot. simpl.
      unfold Split.new_feature. simpl. rewrite Hv. simpl.
      destruct v; try reflexivity. exfalso. by eapply Hnot.
Qed.

(** All or nothing: when any feature of the document fails to split, the
    script writes no file; it prints the error and its traceback and
    ends with status 0. *)
Theorem split_all_or_nothing (doc : json) (fs : list json) (i : nat)
    (feature : json) (e : exn) :
  Py.getitem doc "features" = Ok (JArr fs) ->
  fs !! i = Some feature ->
  Split.split_feature py_repr feature = Err e ->
  exists e' : exn,
    Split.main py_repr (Ok doc) = Process (World None [ErrorMsg e'; Traceback e']) 0.
Proof.
  intros Hfs Hi He. destruct (split_features_fails fs [] i feature e Hi He) as [e' Hfail].
  exists e'. unfold Split.main, Split.split_multipolygon.
  rewrite run_eval_ok, Hfs, run_eval_ok. simpl Py.iter.
  rewrite run_eval_ok, Hfail, run_eval_err. reflexivity.
Qed.

End SplitFurther.

Section SplitShape.

Variable py_repr : json -> string.

(** Whatever one round appends is a feature with a geometry type, and
    that type is not MultiPolygon. *)
Lemma split_feature_parts_flat (f : json) (parts : list json) :
  Split.split_feature py_repr f = Ok parts ->
  Forall (fun p => is_multipolygon p = false /\ is_ok (geometry_type p) = true) parts.
Proof.
  unfold Split.split_feature. intros H. ok_steps.
  destruct (Py.eq_str a0 "MultiPolygon") eqn:Hmp.
  - ok_steps. apply imapM_from_ok in H. destruct H as [Hlen Hall].
    apply Forall_lookup. intros i p Hp.
    destruct (a2 !! i) as [x|] eqn:Hx.
    2: { apply lookup_ge_None in Hx. apply lookup_lt_Some in Hp. lia. }
    destruct (Hall i x Hx) as (y & Hy & Hnew).
    assert (p = y) by congruence. subst y.
    unfold Split.new_feature in Hnew. ok_steps. split; reflexivity.
  - ok_steps. constructor; [|constructor].
    unfold is_multipolygon, geometry_type. rewrite Ha. simpl. rewrite Ha0. simpl.
    split; [exact Hmp | reflexivity].
Qed.

(** Splitting is idempotent: no feature of the output is a MultiPolygon,
    and splitting the output again gives the output back. *)
Theorem split_idempotent (fs out : list json) :
  Split.split_features py_repr fs [] = Ok out ->
  Forall (fun f => is_multipolygon f = false) out /\
  Split.split_features py_repr out [] = Ok out.
Proof.
  intros H. apply split_features_concat in H. destruct H as (outs & HF & ->). simpl.
  assert (Hflat : Forall (fun p => is_multipolygon p = false /\
                                   is_ok (geometry_type p) = true) (concat outs)).
  { apply Forall_concat. clear -HF. induction HF as [|f o fs outs Hfo _ IH];
      constructor; [|exact IH]. by eapply split_feature_parts_flat. }
  split.
  - eapply Forall_impl; [exact Hflat|]. by intros p [? _].
  - apply (split_features_passthrough py_repr (concat outs) []). exact Hflat.
Qed.

Lemma new_geojson_other_members (crs : json) (nf : list json) (k : string) :
  k <> "type" -> k <> "crs" -> k <> "features" ->
  Py.getitem (Split.new_geojson crs nf) k = Err (KeyError k).
Proof.
  intros H1 H2 H3. unfold Split.new_geojson, Py.getitem. cbn [Py.assoc_get].
  rewrite !(proj2 (String.eqb_neq _ _)) by congruence. reflexivity.
Qed.

(** The document the split script writes has exactly three members:
    [type], the input's [crs] and the new feature list; every other
    member of the input (a name, a bounding box) is left out. *)
Theorem split_output_members (file : result json) (out : json) :
  written (final (Split.main py_repr file)) = Some out ->
  exists (doc crs : json) (new_features : list json),
    file = Ok doc /\
    Py.getitem doc "crs" = Ok crs /\
    Split.split_features py_repr (features_of doc) [] = Ok new_features /\
    out = JObj [("type", JStr "FeatureCollection");
                ("crs", crs);
                ("features", JArr new_features)] /\
    forall k : string, k <> "type" -> k <> "crs" -> k <> "features" ->
      Py.getitem out k = Err (KeyError k).
Proof.
  unfold Split.main, Split.split_multipolygon. destruct file as [doc|e]; [|discriminate].
  rewrite run_eval_ok.
  destruct (Py.getitem doc "features") as [features|] eqn:Hfs; [|discriminate].
  rewrite run_eval_ok.
  destruct (Py.iter features) as [items|] eqn:Hit; [|discriminate].
  rewrite run_eval_ok.
  destruct (Split.split_features py_repr items []) as [nf|] eqn:Hsplit; [|discriminate].
  rewrite run_eval_ok.
  destruct (Py.getitem doc "crs") as [crs|] eqn:Hcrs; [|discriminate].
  rewrite run_eval_ok, run_dump.
  match goal with |- context [?k (World (Some ?d) ?c)] =>
    assert (Hk : keeps_file k) by (unfold keeps_file; keeps_file);
    specialize (Hk (World (Some d) c)); destruct (k (World (Some d) c)) as [w [[]|e]]
  end; simpl in *; rewrite Hk; intros H; inversion H; subst out;
    exists doc, crs, nf; unfold features_of, items_of; rewrite Hfs, Hit;
    (repeat split; try reflexivity; try assumption);
    intros k H1 H2 H3; by apply new_geojson_other_members.
Qed.

End SplitShape.

(** ** The conversion script: what it leaves alone, and how it ends *)

Lemma getitem_setitem_ne (o : json) (k k' : string) (v : json) :
  k <> k' -> Py.getitem (Convert.setitem o k v) k' = Py.getitem o k'.
Proof.
  intros Hne. destruct o; try reflexivity. simpl.
  by rewrite assoc_get_set_ne.
Qed.

Lemma getitem_setitem_eq (m : list (string * json)) (k : string) (v : json) :
  Py.getitem (Convert.setitem (JObj m) k v) k = Ok v.
Proof. simpl. by rewrite assoc_get_set_eq. Qed.

Lemma assoc_set_same (m : list (string * json)) (k : string) (v : json) :
  Py.assoc_get m k = Some v -> Py.assoc_set m k v = m.
Proof.
  induction m as [|[k0 v0] m IH]; simpl; [discriminate|].
  destruct (String.eqb k0 k); intros H.
  - by inversion H.
  - by rewrite IH.
Qed.

Section ConvertFurther.

Variable transform : json -> json -> result (json * json).

(** What a round of the loop leaves alone in a feature: every member but
    [geometry], and in the geometry every member but [coordinates]. *)
Lemma convert_feature_frame (f f' : json) :
  Convert.convert_feature transform f = Ok f' ->
  (forall k, k <> "geometry" -> Py.getitem f' k = Py.getitem f k) /\
  (forall g g' k, Py.getitem f "geometry" = Ok g -> Py.getitem f' "geometry" = Ok g' ->
                  k <> "coordinates" -> Py.getitem g' k = Py.getitem g k).
Proof.
  unfold Convert.convert_feature. intros H. ok_steps.
  destruct (Py.eq_str a0 "MultiPolygon").
  - ok_steps. split.
    + intros k Hk. by apply getitem_setitem_ne.
    + intros g g' k Hg Hg' Hk.
      pose proof Ha as Hobj. apply getitem_obj in Hobj. destruct Hobj as (m & -> & _).
      rewrite getitem_setitem_eq in Hg'. inversion Hg'; subst g'.
      assert (g = a) by congruence. subst g. by apply getitem_setitem_ne.
  - ok_steps. split; [reflexivity|]. intros g g' k Hg Hg' _. congruence.
Qed.

(** The conversion touches coordinates and the [crs] member only: every
    other member of the document, every member of a feature other than
    its geometry (identifier, properties), and every member of a geometry
    other than its coordinates (its type) is in the output as it was. *)
Theorem reprojection_frame (file : result json) (out : json) :
  written (final (Convert.main transform file)) = Some out ->
  exists doc : json,
    file = Ok doc /\
    (forall k, k <> "features" -> k <> "crs" -> Py.getitem out k = Py.getitem doc k) /\
    Forall2 (fun f f' =>
               (forall k, k <> "geometry" -> Py.getitem f' k = Py.getitem f k) /\
               (forall g g' k, Py.getitem f "geometry" = Ok g ->
                               Py.getitem f' "geometry" = Ok g' ->
                               k <> "coordinates" -> Py.getitem g' k = Py.getitem g k))
            (features_of doc) (features_of out).
Proof.
  intros H. apply convert_main_written in H. destruct H as (doc & -> & Hdoc).
  exists doc. split; [reflexivity|].
  unfold Convert.convert_document in Hdoc. ok_steps.
  pose proof Ha as Hobj. apply getitem_obj in Hobj. destruct Hobj as (m & -> & Hm).
  split.
  - intros k Hk1 Hk2. rewrite getitem_setitem_ne by congruence.
    by apply getitem_setitem_ne.
  - unfold features_of. rewrite Ha.
    rewrite getitem_setitem_ne by discriminate. rewrite getitem_setitem_eq.
    eapply for_each_Forall2; [apply convert_feature_frame | | exact Ha0].
    intros f. split; [reflexivity|]. intros g g' k Hg Hg' _. congruence.
Qed.

(** A run that ends with status 0 has written its output, and the output
    is the converted document. *)
Theorem convert_status_zero_written (file : result json) :
  exit_status (Convert.main transform file) = 0%Z ->
  exists doc out : json,
    file = Ok doc /\
    Convert.convert_document transform doc = Ok out /\
    written (final (Convert.main transform file)) = Some out.
Proof.
  unfold Convert.main, Convert.convert_coordinates.
  destruct file as [doc|e]; [|discriminate]. rewrite run_eval_ok.
  destruct (Convert.convert_document transform doc) as [out|e] eqn:Hdoc; [|discriminate].
  rewrite run_eval_ok, run_dump. intros Hst. exists doc, out.
  split; [reflexivity|]. split; [exact Hdoc|]. clear Hst.
  match goal with |- context [?k (World (Some ?d) ?c)] =>
    assert (Hk : keeps_file k) by (unfold keeps_file; keeps_file);
    specialize (Hk (World (Some d) c)); destruct (k (World (Some d) c)) as [w [[]|e]]
  end; simpl in *; exact Hk.
Qed.


End ConvertFurther.

Lemma for_each_outputs (body : json -> result json) (P : json -> Prop) (c c' : json) :
  (forall x y, body x = Ok y -> P y) -> (forall s, P (JStr s)) ->
  Convert.for_each body c = Ok c' -> Forall P (items_of c').
Proof.
  intros Hbody Hstr H. destruct c; simpl in H; try discriminate; ok_steps.
  - unfold items_of. simpl. apply Forall_fmap, Forall_forall. intros c _. apply Hstr.
  - apply mapM_ok in Ha. unfold items_of. simpl.
    induction Ha; constructor; eauto.
  - unfold items_of. simpl. apply Forall_fmap, Forall_forall. intros kv _. apply Hstr.
Qed.

Section ConvertPairs.

Variable transform : json -> json -> result (json * json).

Lemma convert_ring_pairs (ring ring' : json) (coords : list json) :
  Convert.convert_ring transform ring = Ok ring' -> ring' = JArr coords ->
  Forall is_pair coords.
Proof.
  destruct ring; simpl; try discriminate.
  - destruct (list_ascii_of_string s); intros H Heq; subst ring'; ok_steps.
  - intros H Heq. subst ring'. ok_steps. apply mapM_ok in Ha.
    induction Ha as [|x y l k Hxy _ IH]; constructor; [|exact IH].
    unfold Convert.convert_coord in Hxy. ok_steps. by eexists _, _.
  - destruct members as [|[k v] m]; intros H Heq; subst ring'; ok_steps.
Qed.

Lemma convert_feature_pairs (f f' : json) :
  Convert.convert_feature transform f = Ok f' ->
  is_multipolygon f' = true -> rings_hold_pairs f'.
Proof.
  intros H Hmp. pose proof (convert_feature_preserved transform f f' H) as [Hsame _].
  rewrite Hmp in Hsame. symmetry in Hsame.
  unfold Convert.convert_feature in H. unfold is_multipolygon, geometry_type in Hsame.
  ok_steps. rewrite Ha in Hsame. simpl in Hsame. rewrite Ha0 in Hsame.
  rewrite Hsame in H. ok_steps.
  apply getitem_obj in Ha. destruct Ha as (m & -> & Hg).
  apply getitem_obj in Ha1. destruct Ha1 as (gm & -> & Hco).
  assert (Hc : coordinates_of (Convert.setitem (JObj m) "geometry"
                 (Convert.setitem (JObj gm) "coordinates" a2)) = a2).
  { unfold coordinates_of, geometry_coordinates. rewrite getitem_setitem_eq.
    simpl. by rewrite assoc_get_set_eq. }
  unfold rings_hold_pairs. rewrite Hc.
  pose proof (for_each_outputs (Convert.convert_polygon transform)
    (fun p => forall ring coords, ring ∈ items_of p -> ring = JArr coords ->
                                  Forall is_pair coords) a1 a2) as Hout.
  intros polygon ring coords Hpoly Hring Heq.
  refine (proj1 (Forall_forall _ _) (Hout _ _ Ha2) polygon Hpoly ring coords Hring Heq).
  - intros p p' Hp r cs Hr Hcs.
    pose proof (for_each_outputs (Convert.convert_ring transform)
      (fun r => forall cs, r = JArr cs -> Forall is_pair cs) p p') as Hrings.
    refine (proj1 (Forall_forall _ _) (Hrings _ _ Hp) r Hr cs Hcs).
    + intros x y Hxy cs' Hy. by eapply convert_ring_pairs.
    + intros s cs' Hs. discriminate.
  - intros s r cs Hr Hcs. subst r. unfold items_of in Hr. simpl in Hr.
    apply list_elem_of_fmap in Hr. destruct Hr as (c & Hc' & _). discriminate.
Qed.

(** After a conversion, every coordinate of every list-shaped ring of
    every MultiPolygon feature of the output is a list of exactly two
    components: a third component (an elevation) of the input is dropped. *)
Theorem converted_coordinates_are_pairs (file : result json) (out feature : json) :
  written (final (Convert.main transform file)) = Some out ->
  feature ∈ features_of out ->
  is_multipolygon feature = true ->
  rings_hold_pairs feature.
Proof.
  intros H Hin Hmp. apply convert_main_written in H. destruct H as (doc & -> & Hdoc).
  unfold Convert.convert_document in Hdoc. ok_steps.
  pose proof Ha as Hobj. apply getitem_obj in Hobj. destruct Hobj as (m & -> & Hm).
  unfold features_of in Hin.
  rewrite getitem_setitem_ne in Hin by discriminate.
  rewrite getitem_setitem_eq in Hin.
  pose proof (for_each_outputs (Convert.convert_feature transform)
    (fun f => is_multipolygon f = true -> rings_hold_pairs f) a a0) as Hout.
  refine (proj1 (Forall_forall _ _) (Hout _ _ Ha0) feature Hin Hmp).
  - intros x y Hxy. by apply (convert_feature_pairs x y).
  - intros s. discriminate.
Qed.

(** A document whose first feature is not a MultiPolygon and has a
    number as first coordinate (a Point): the output file is written, and
    then the line that prints a sample coordinate raises; the run ends
    with the error printed and status 1 although its output is complete. *)
Theorem convert_point_first (m : list (string * json)) (f : json) (rest : list json)
    (c x out : json) :
  Py.assoc_get m "features" = Some (JArr (f :: rest)) ->
  is_multipolygon f = false ->
  geometry_coordinates f = Ok c ->
  Py.getidx c 0 = Ok x ->
  is_number x = true ->
  Convert.convert_document transform (JObj m) = Ok out ->
  Convert.main transform (Ok (JObj m)) =
  Process (World (Some out)
                 [Text "Converted opportunity zones to WGS84 coordinates";
                  Text "Output: opportunity_zones_wgs84.geojson";
                  ErrorMsg TypeError;
                  Text "Make sure pyproj is installed: pip install pyproj"]) 1.
Proof.
  intros Hfs Hmp Hco Hx Hnum Hdoc.
  unfold Convert.main, Convert.convert_coordinates.
  rewrite run_eval_ok, Hdoc, run_eval_ok, run_dump, !run_say.
  unfold Convert.convert_document, Py.getitem in Hdoc. rewrite Hfs in Hdoc.
  cbn [mbind result_bind] in Hdoc. ok_steps.
  cbn [Convert.for_each] in Ha. ok_steps.
  cbn [mapM] in Ha0. ok_steps.
  match goal with
  | Hf : Convert.convert_feature transform f = Ok ?y |- _ =>
      pose proof (convert_feature_preserved transform f y Hf) as [_ Hkeep];
      rewrite Hmp in Hkeep; subst y
  end.
  match goal with
  | |- context [Py.getitem (JObj (Py.assoc_set (Py.assoc_set m "features" ?v) "crs" ?w))
                           "features"] =>
      assert (Hout : Py.getitem (JObj (Py.assoc_set (Py.assoc_set m "features" v) "crs" w))
                                "features" = Ok v)
        by (unfold Py.getitem; rewrite assoc_get_set_ne by discriminate;
            by rewrite assoc_get_set_eq);
      rewrite Hout
  end.
  rewrite run_eval_ok. cbn [Py.truthy length Nat.eqb negb Py.getidx lookup list_lookup].
  rewrite run_eval_ok.
  unfold geometry_coordinates in Hco.
  destruct (Py.getitem f "geometry") as [g|]; [|discriminate]. simpl in Hco.
  rewrite run_eval_ok, Hco, run_eval_ok, Hx, run_eval_ok.
  destruct x; try discriminate; reflexivity.
Qed.

End ConvertPairs.

(** ** The boundary lookups: what comes back, and what the features show *)

Lemma load_qozs_csv_length (rows : list (list string)) :
  length (Qozs.load_qozs_csv rows) = length (filter accepted rows).
Proof.
  induction rows as [|row rows IH]; [reflexivity|].
  rewrite filter_cons. simpl. destruct (Qozs.keeps row) eqn:Hk.
  - apply keeps_accepted in Hk. rewrite decide_True by exact Hk.
    rewrite (unpack5_qoz_of_row row (proj1 Hk)). simpl. by rewrite IH.
  - rewrite decide_False; [exact IH|]. intros Hacc. apply keeps_accepted in Hacc.
    congruence.
Qed.

Lemma load_qozs_csv_states (rows : list (list string)) :
  Forall (fun q => Qozs.state q ∈ Qozs.valid_states) (Qozs.load_qozs_csv rows).
Proof.
  induction rows as [|row rows IH]; [constructor|].
  simpl. destruct (Qozs.keeps row) eqn:Hk; [|exact IH].
  apply keeps_accepted in Hk. rewrite (unpack5_qoz_of_row row (proj1 Hk)).
  constructor; [|exact IH]. destruct Hk as (_ & _ & Hin). exact Hin.
Qed.

(** Every zone the loader returns is queried with the two-digit code of
    its state, never with the fallback code ["00"], and two zones get the
    same code only if they are in the same state. *)
Theorem loaded_zones_have_fips (rows : list (list string)) :
  (forall q, q ∈ Qozs.load_qozs_csv rows ->
     Qozs.fips_of Qozs.state_fips_map (Qozs.state q) <> "00" /\
     String.length (Qozs.fips_of Qozs.state_fips_map (Qozs.state q)) = 2) /\
  (forall q q', q ∈ Qozs.load_qozs_csv rows -> q' ∈ Qozs.load_qozs_csv rows ->
     Qozs.fips_of Qozs.state_fips_map (Qozs.state q) =
     Qozs.fips_of Qozs.state_fips_map (Qozs.state q') ->
     Qozs.state q = Qozs.state q').
Proof.
  pose proof (load_qozs_csv_states rows) as Hst. rewrite Forall_forall in Hst.
  assert (Hcodes : Forall (fun s => Qozs.fips_of Qozs.state_fips_map s <> "00" /\
                     String.length (Qozs.fips_of Qozs.state_fips_map s) = 2)
                     Qozs.valid_states)
    by (apply (bool_decide_unpack _); vm_compute; exact I).
  assert (Hinj : Forall (fun s => Forall (fun s' =>
                     Qozs.fips_of Qozs.state_fips_map s =
                     Qozs.fips_of Qozs.state_fips_map s' -> s = s') Qozs.valid_states)
                     Qozs.valid_states)
    by (apply (bool_decide_unpack _); vm_compute; exact I).
  rewrite Forall_forall in Hcodes. split.
  - intros q Hq. apply Hcodes, Hst, Hq.
  - intros q q' Hq Hq' Heq. rewrite Forall_forall in Hinj.
    specialize (Hinj _ (Hst q Hq)). rewrite Forall_forall in Hinj.
    exact (Hinj _ (Hst q' Hq') Heq).
Qed.

Section QozsFurther.

Variable tigerweb : nat -> string -> Qozs.http.

(** The lookup hands a boundary to the loop in one case only: the
    service answered with status 200 and a body that parses to an object
    whose [features] member is non-empty, and the boundary is its first
    element.  A network error, another status, an unparsable body, a body
    that is not an object or has no feature all give [None]. *)
Theorem lookup_boundary_found (n : nat) (q : Qozs.qoz) (b : json) :
  lookup_boundary tigerweb n q = Some b <->
  exists data feats : json,
    tigerweb n (Qozs.where_clause (Qozs.state q) (Qozs.tract_id q))
      = Qozs.Response 200 (Ok data) /\
    Py.get data "features" JNull = Ok feats /\
    Py.truthy feats = true /\
    Py.getidx feats 0 = Ok b.
Proof.
  unfold lookup_boundary, Qozs.boundary_of.
  destruct (tigerweb n _) as [e|status body].
  { split; [discriminate | intros (d & fs & H & _); discriminate]. }
  destruct (Z.eqb_spec status 200) as [->|Hne].
  2: { split; [discriminate|]. intros (d & fs & H & _). inversion H. congruence. }
  destruct body as [data|e]; simpl.
  2: { split; [discriminate|]. intros (d & fs & H & _). inversion H. }
  destruct data; simpl;
    try (split; [discriminate | intros (d & fs & H & Hget & _); inversion H; subst;
                 discriminate]).
  destruct (Py.assoc_get members "features") as [feats|] eqn:Hfeats; simpl.
  2: { split; [discriminate|]. intros (d & fs & H & Hget & Ht & _).
       inversion H; subst. simpl in Hget. rewrite Hfeats in Hget.
       inversion Hget; subst. discriminate. }
  destruct (Py.truthy feats) eqn:Ht; simpl.
  - destruct (Py.getidx feats 0) as [first|e] eqn:Hidx; simpl.
    + split.
      * intros H. inversion H; subst. exists (JObj members), feats.
        simpl. rewrite Hfeats. auto.
      * intros (d & fs & H & Hget & _ & Hb). inversion H; subst.
        simpl in Hget. rewrite Hfeats in Hget. inversion Hget; subst. congruence.
    + split; [discriminate|].
      intros (d & fs & H & Hget & _ & Hb). inversion H; subst.
      simpl in Hget. rewrite Hfeats in Hget. inversion Hget; subst. congruence.
  - split; [discriminate|].
    intros (d & fs & H & Hget & Ht' & _). inversion H; subst.
    simpl in Hget. rewrite Hfeats in Hget. inversion Hget; subst. congruence.
Qed.

Lemma describes_point (j : nat) (q : Qozs.qoz) :
  Qozs.found (lookup_boundary tigerweb j q) = false ->
  describes tigerweb j q (Qozs.point_feature j q).
Proof.
  intros Hnf. unfold describes. repeat split.
  unfold Qozs.found in Hnf. destruct (lookup_boundary tigerweb j q) as [b|]; [|reflexivity].
  rewrite Hnf. reflexivity.
Qed.

Lemma describes_boundary (j : nat) (q : Qozs.qoz) (b g : json) :
  lookup_boundary tigerweb j q = Some b -> Py.truthy b = true ->
  Py.getitem b "geometry" = Ok g ->
  describes tigerweb j q (Qozs.boundary_feature j q g).
Proof.
  intros Hb Ht Hg. unfold describes. repeat split. rewrite Hb, Ht, Hg. reflexivity.
Qed.

(** One round of the loop, with what the appended feature shows. *)
Lemma process_zone_describes (total i : nat) (q : Qozs.qoz) (t : Qozs.tally) (w : world) :
  (forall b, lookup_boundary tigerweb i q = Some b -> Py.truthy b = true ->
             is_ok (Py.getitem b "geometry") = true) ->
  exists (w' : world) (f : json) (n : nat),
    Qozs.process_zone tigerweb total i q t w =
      (w', Ok (Qozs.Tally (Qozs.features t ++ [f]) n)) /\
    written w' = written w /\
    describes tigerweb i q f.
Proof.
  intros Hgeo. pose proof (describes_point i q) as Hpoint.
  pose proof (describes_boundary i q) as Hbound.
  unfold Qozs.process_zone. rewrite run_say.
  unfold mbind at 1. unfold script_bind, Qozs.get_census_tract_boundary.
  unfold lookup_boundary in *.
  destruct (Qozs.boundary_of _) as [[b|]|e]; simpl in *.
  - destruct (Py.truthy b) eqn:Hb.
    + specialize (Hgeo b eq_refl Hb).
      destruct (Py.getitem b "geometry") as [g|] eqn:Hg; [|discriminate].
      rewrite run_eval_ok. unfold mret, script_ret.
      do 3 eexists. split; [reflexivity|]. split; [reflexivity|].
      exact (Hbound b g eq_refl Hb Hg).
    + unfold mret, script_ret, Qozs.fallback.
      do 3 eexists. split; [reflexivity|]. split; [reflexivity|]. by apply Hpoint.
  - unfold mret, script_ret, Qozs.fallback.
    do 3 eexists. split; [reflexivity|]. split; [reflexivity|]. by apply Hpoint.
  - unfold mret, script_ret, Qozs.fallback.
    do 3 eexists. split; [reflexivity|]. split; [reflexivity|]. by apply Hpoint.
Qed.

Lemma process_zones_describes (total : nat) (zones : list Qozs.qoz) :
  forall (i : nat) (t : Qozs.tally) (w : world),
  (forall j q b, zones !! j = Some q -> lookup_boundary tigerweb (i + j) q = Some b ->
                 Py.truthy b = true -> is_ok (Py.getitem b "geometry") = true) ->
  exists (w' : world) (fs : list json) (n : nat),
    Qozs.process_zones tigerweb total i zones t w =
      (w', Ok (Qozs.Tally (Qozs.features t ++ fs) n)) /\
    written w' = written w /\
    length fs = length zones /\
    forall j q, zones !! j = Some q ->
      exists f, fs !! j = Some f /\ describes tigerweb (i + j) q f.
Proof.
  induction zones as [|q zones IH]; intros i t w Hgeo.
  - exists w, [], (Qozs.success_count t). simpl. unfold mret, script_ret.
    rewrite app_nil_r. destruct t. repeat split; try reflexivity.
    intros j q Hj. destruct j; discriminate.
  - destruct (process_zone_describes total i q t w) as (w1 & f & n1 & Hstep & Hw1 & Hf).
    { intros b Hb. apply (Hgeo 0%nat q b eq_refl). by rewrite Nat.add_0_r. }
    cbn [Qozs.process_zones]. unfold mbind at 1. unfold script_bind. rewrite Hstep.
    destruct (IH (S i) (Qozs.Tally (Qozs.features t ++ [f]) n1) w1)
      as (w2 & fs & n2 & Hrest & Hw2 & Hlen & Hfs).
    { intros j q' b Hj. replace (S i + j)%nat with (i + S j)%nat by lia.
      by apply (Hgeo (S j)). }
    rewrite Hrest. exists w2, (f :: fs), n2. cbn [Qozs.features].
    split; [by rewrite <- app_assoc|]. split; [congruence|]. split; [simpl; lia|].
    intros [|j] q' Hj; simpl in Hj.
    + inversion Hj; subst q'. rewrite Nat.add_0_r. eauto.
    + replace (i + S j)%nat with (S i + j)%nat by lia. by apply Hfs.
Qed.

(** The features of the output, row by row: as long as every boundary
    found carries a geometry, the run writes one feature for each of the
    first hundred accepted rows of the table, in order; feature [j]
    (from zero) has identifier and OBJECTID [j + 1], the columns of its
    zone as properties, and the geometry of its boundary, or the
    placeholder Point. *)
Theorem created_features_describe_zones (rows : list (list string)) :
  (forall j q b,
      processed_zones rows !! j = Some q ->
      lookup_boundary tigerweb j q = Some b ->
      Py.truthy b = true -> is_ok (Py.getitem b "geometry") = true) ->
  exists (w : world) (fs : list json),
    Qozs.create_qozs_geojson tigerweb rows start = (w, Ok (Qozs.feature_collection fs)) /\
    written w = Some (Qozs.feature_collection fs) /\
    length fs = (100 `min` length (filter accepted rows))%nat /\
    forall j q, processed_zones rows !! j = Some q ->
      exists f, fs !! j = Some f /\ describes tigerweb j q f.
Proof.
  intros Hgeo. unfold Qozs.create_qozs_geojson.
  rewrite !run_say. fold (processed_zones rows).
  unfold mbind at 1. unfold script_bind.
  match goal with |- context [Qozs.process_zones _ _ _ _ ?t ?w0] =>
    destruct (process_zones_describes (length (processed_zones rows))
                (processed_zones rows) 0 t w0 Hgeo)
      as (w1 & fs & n & Hrun & Hw1 & Hlen & Hfs)
  end.
  rewrite Hrun. cbn [Qozs.features app].
  rewrite run_dump. unfold mbind at 1. unfold script_bind. rewrite say_all_run.
  unfold mret, script_ret. cbn [written console].
  do 2 eexists. split; [reflexivity|]. split; [reflexivity|]. split; [|exact Hfs].
  rewrite Hlen. unfold processed_zones. rewrite length_take, load_qozs_csv_length. lia.
Qed.

(** [get_census_tract_boundary] prints at most one line and leaves the
    file alone. *)
Lemma process_zone_keeps_file (total i : nat) (q : Qozs.qoz) (t : Qozs.tally) :
  keeps_file (Qozs.process_zone tigerweb total i q t).
Proof.
  intros w. unfold Qozs.process_zone. rewrite run_say.
  unfold mbind at 1. unfold script_bind, Qozs.get_census_tract_boundary.
  destruct (Qozs.boundary_of _) as [[b|]|e]; simpl; try reflexivity.
  destruct (Py.truthy b); [|reflexivity].
  destruct (Py.getitem b "geometry"); reflexivity.
Qed.

Lemma process_zones_fatal (total : nat) (zones : list Qozs.qoz) :
  forall (i j : nat) (q : Qozs.qoz) (b : json) (e : exn) (t : Qozs.tally) (w : world),
  zones !! j = Some q ->
  lookup_boundary tigerweb (i + j) q = Some b ->
  Py.truthy b = true ->
  Py.getitem b "geometry" = Err e ->
  exists w' e', Qozs.process_zones tigerweb total i zones t w = (w', Err e') /\
                written w' = written w.
Proof.
  induction zones as [|q0 zones IH]; intros i j q b e t w Hj Hb Ht Hg;
    [destruct j; discriminate|].
  cbn [Qozs.process_zones]. unfold mbind at 1. unfold script_bind.
  pose proof (process_zone_keeps_file total i q0 t w) as Hkeep.
  destruct j as [|j]; simpl in Hj.
  - inversion Hj; subst q0. rewrite Nat.add_0_r in Hb.
    assert (Hstep : exists w', Qozs.process_zone tigerweb total i q t w = (w', Err e)).
    { unfold Qozs.process_zone. rewrite run_say.
      unfold mbind at 1. unfold script_bind, Qozs.get_census_tract_boundary.
      unfold lookup_boundary in Hb.
      destruct (Qozs.boundary_of _) as [[b'|]|e0]; try discriminate.
      inversion Hb; subst b'. rewrite Ht, Hg, run_eval_err. eauto. }
    destruct Hstep as [w' Hstep]. rewrite Hstep in *. simpl in Hkeep. eauto.
  - destruct (Qozs.process_zone tigerweb total i q0 t w) as [w1 [t1|e1]];
      simpl in Hkeep; [|eauto].
    destruct (IH (S i) j q b e t1 w1 Hj) as (w' & e' & Hrun & Hw'); try assumption.
    { by replace (S i + j)%nat with (i + S j)%nat by lia. }
    exists w', e'. split; [exact Hrun | congruence].
Qed.

(** The one fatal case of the loop: a boundary that is found but has no
    [geometry] member makes the whole run raise, and no file is written,
    whatever the rows before it gave. *)
Theorem boundary_without_geometry_is_fatal (rows : list (list string))
    (j : nat) (q : Qozs.qoz) (b : json) (e : exn) :
  processed_zones rows !! j = Some q ->
  lookup_boundary tigerweb j q = Some b ->
  Py.truthy b = true ->
  Py.getitem b "geometry" = Err e ->
  exists (w : world) (e' : exn),
    Qozs.create_qozs_geojson tigerweb rows start = (w, Err e') /\
    written w = None.
Proof.
  intros Hj Hb Ht Hg. unfold Qozs.create_qozs_geojson.
  rewrite !run_say. fold (processed_zones rows).
  unfold mbind at 1. unfold script_bind.
  match goal with |- context [Qozs.process_zones _ _ _ _ ?t ?w0] =>
    destruct (process_zones_fatal (length (processed_zones rows))
                (processed_zones rows) 0 j q b e t w0 Hj Hb Ht Hg)
      as (w1 & e' & Hrun & Hw1)
  end.
  rewrite Hrun. exists w1, e'. split; [reflexivity | exact Hw1].
Qed.

End QozsFurther.

(** ** The tabular join in general, and the padding of tract codes *)

Lemma length_string_app (s1 s2 : string) :
  String.length (s1 +:+ s2) = (String.length s1 + String.length s2)%nat.
Proof. induction s1 as [|c s1 IH]; simpl; [reflexivity | by rewrite IH]. Qed.

Lemma length_zeros (n : nat) : String.length (Bulk.zeros n) = n.
Proof. induction n as [|n IH]; simpl; [reflexivity | by rewrite IH]. Qed.

Lemma zfill_length (width : nat) (s : string) :
  String.length (Bulk.zfill width s) = (width `max` String.length s)%nat.
Proof.
  unfold Bulk.zfill. destruct (Nat.leb_spec width (String.length s)) as [Hle|Hlt]; [lia|].
  destruct s as [|c rest].
  - rewrite length_zeros. simpl. lia.
  - destruct (Bulk.is_sign c); simpl in *;
      rewrite ?length_string_app, ?length_zeros; simpl; lia.
Qed.

(** Padding a tract code: the padded code has at least 11 characters
    (exactly 11 when the code had at most 11), a code of 11 characters or
    more is left as it is, a shorter code that does not start with a sign
    gets the missing zeros in front, and padding twice changes nothing
    more. *)
Theorem pad_tractce_width (q : Bulk.zone_row) :
  String.length (Bulk.TRACTCE (Bulk.pad_tractce q))
    = (11 `max` String.length (Bulk.TRACTCE q))%nat /\
  (11 <= String.length (Bulk.TRACTCE q) -> Bulk.pad_tractce q = q) /\
  (forall c rest, Bulk.TRACTCE q = String c rest -> Bulk.is_sign c = false ->
     String.length (Bulk.TRACTCE q) < 11 ->
     Bulk.TRACTCE (Bulk.pad_tractce q)
       = Bulk.zeros (11 - String.length (Bulk.TRACTCE q)) +:+ Bulk.TRACTCE q) /\
  Bulk.pad_tractce (Bulk.pad_tractce q) = Bulk.pad_tractce q.
Proof.
  assert (Hbig : forall s, 11 <= String.length s -> Bulk.zfill 11 s = s).
  { intros s Hs. unfold Bulk.zfill.
    destruct (Nat.leb_spec 11 (String.length s)); [reflexivity | lia]. }
  destruct q as [st co tr zt yr]. unfold Bulk.pad_tractce.
  cbn [Bulk.TRACTCE Bulk.STATE Bulk.COUNTY Bulk.ZONE_TYPE Bulk.YEAR_RANGE].
  split; [apply zfill_length|]. split; [|split].
  - intros Hlen. by rewrite Hbig.
  - intros c rest -> Hsign Hlen. unfold Bulk.zfill.
    destruct (Nat.leb_spec 11 (String.length (String c rest))); [lia|].
    by rewrite Hsign.
  - rewrite (Hbig (Bulk.zfill 11 tr)); [reflexivity|]. rewrite zfill_length. lia.
Qed.

Section JoinFurther.

Implicit Types (t : Bulk.tract_row) (q : Bulk.zone_row) (r : Bulk.merged_row).


Lemma merge_inner_length (tracts : list Bulk.tract_row) (qs : list Bulk.zone_row) :
  length (Bulk.merge_inner tracts qs) =
  sum_list ((fun q => length (filter (fun t => Bulk.matches t q = true) tracts)) <$> qs).
Proof.
  induction tracts as [|t ts IH].
  - unfold Bulk.merge_inner. simpl. induction qs as [|q qs IHq]; [reflexivity|].
    rewrite fmap_cons. cbn [sum_list sum_list_with]. rewrite <- IHq. reflexivity.
  - rewrite merge_inner_cons, length_app, length_fmap, IH. clear IH.
    induction qs as [|q qs IHq]; [reflexivity|].
    rewrite !fmap_cons, !filter_cons. cbn [sum_list sum_list_with].
    destruct (Bulk.matches t q) eqn:Hm.
    + rewrite !decide_True by reflexivity. cbn [length]. rewrite <- IHq.
      unfold id. lia.
    + rewrite !decide_False by discriminate. rewrite <- IHq. unfold id. lia.
Qed.

(** The number of features written, in general: each zone row counts
    once for every tract of the boundary table that has its padded code
    as identifier, so an identifier repeated in the boundary table
    repeats the zone in the output. *)
Theorem merged_length (tracts : list Bulk.tract_row) (qozs : list Bulk.zone_row) :
  length (Bulk.merged tracts qozs) =
  sum_list ((fun q => length (filter (fun t => Bulk.GEOID t = Bulk.zfill 11 (Bulk.TRACTCE q))
                                     tracts)) <$> qozs).
Proof.
  unfold Bulk.merged. rewrite merge_inner_length.
  induction qozs as [|q qs IH]; [reflexivity|].
  rewrite !fmap_cons. cbn [sum_list sum_list_with]. rewrite IH. f_equal. unfold id.
  f_equal. apply list_filter_iff. intros t. unfold Bulk.matches. simpl.
  apply String.eqb_eq.
Qed.

End JoinFurther.

(** ** Reading an indicator archive *)

Lemma years_lookup (i : nat) :
  i < 23 -> Indicators.years !! i = Some (2022 - i).
Proof.
  assert (H : Forall (fun i => Indicators.years !! i = Some (2022 - i)) (seq 0 23))
    by (apply (bool_decide_unpack _); vm_compute; exact I).
  rewrite Forall_forall in H. intros Hi. apply H. apply elem_of_seq. lia.
Qed.

Lemma usable_value (val : option string) :
  Indicators.usable val = true ->
  exists v, val = Some v /\ v <> "" /\ v <> "..".
Proof.
  destruct val as [v|]; simpl; [|discriminate].
  rewrite andb_true_iff, !negb_true_iff. intros [H1 H2].
  exists v. split; [reflexivity|].
  split; intros ->; simpl in *; discriminate.
Qed.

(** The loop over a list of years stops at the first year with a usable
    value. *)
Lemma latest_value_first (r : Indicators.row) (ys : list nat) (v : string) :
  Indicators.latest_value r ys = Some v ->
  exists (i y : nat),
    ys !! i = Some y /\
    Indicators.row_get r (pretty y) = Some v /\
    Indicators.usable (Some v) = true /\
    forall j y', j < i -> ys !! j = Some y' ->
                 Indicators.usable (Indicators.row_get r (pretty y')) = false.
Proof.
  induction ys as [|y ys IH]; simpl; [discriminate|].
  destruct (Indicators.usable (Indicators.row_get r (pretty y))) eqn:Hu.
  - intros Hv. exists 0, y. rewrite Hv in *. repeat split; try assumption.
    intros j y' Hj. lia.
  - intros Hv. destruct (IH Hv) as (i & y0 & Hi & Hget & Huse & Hbefore).
    exists (S i), y0. repeat split; try assumption.
    intros [|j] y' Hj Hy'; simpl in Hy'.
    + inversion Hy'; subst. exact Hu.
    + apply (Hbefore j y'); [lia | exact Hy'].
Qed.

(** The value kept for a row is that of the most recent year from 2022
    back to 2000 whose field is neither missing, nor empty, nor [..]. *)
Theorem latest_value_most_recent (r : Indicators.row) (v : string) :
  Indicators.latest_value r Indicators.years = Some v ->
  exists y : nat,
    (2000 <= y <= 2022) /\
    Indicators.row_get r (pretty y) = Some v /\
    v <> "" /\ v <> ".." /\
    forall y', y < y' <= 2022 ->
      Indicators.usable (Indicators.row_get r (pretty y')) = false.
Proof.
  intros H. apply latest_value_first in H.
  destruct H as (i & y & Hi & Hget & Huse & Hbefore).
  assert (Hlt : i < 23).
  { apply lookup_lt_Some in Hi. exact Hi. }
  rewrite (years_lookup i Hlt) in Hi. inversion Hi; subst y.
  exists (2022 - i). split; [lia|]. split; [exact Hget|].
  destruct (usable_value _ Huse) as (v' & Hv' & Hne1 & Hne2). inversion Hv'; subst v'.
  split; [exact Hne1|]. split; [exact Hne2|].
  intros y' Hy'. apply (Hbefore (2022 - y') y'); [lia|].
  rewrite years_lookup by lia. f_equal. lia.
Qed.

Section IndicatorProperties.

Variables lower strip : string -> string.
Variable dict_reader : list string -> list string * list Indicators.row.

Lemma add_row_kept (col : string) (data data' : gmap string string) (r : Indicators.row) :
  Indicators.add_row lower strip col data r = Ok data' ->
  (forall c v, data !! c = Some v -> kept c v) ->
  forall c v, data' !! c = Some v -> kept c v.
Proof.
  unfold Indicators.add_row. intros H Hdata.
  destruct (Indicators.row_lookup r col) as [[name|]|]; try discriminate.
  destruct (Indicators.skipped (lower (strip name))) eqn:Hskip.
  { inversion H; subst. exact Hdata. }
  destruct (Indicators.latest_value r Indicators.years) as [val|] eqn:Hval.
  2: { inversion H; subst. exact Hdata. }
  inversion H; subst data'. intros c v.
  destruct (decide (lower (strip name) = c)) as [<-|Hne].
  - rewrite lookup_insert_eq. intros Hv. inversion Hv; subst v.
    unfold Indicators.skipped in Hskip.
    apply orb_false_iff in Hskip. destruct Hskip as [Hskip Hagg].
    apply orb_false_iff in Hskip. destruct Hskip as [Hempty Hincome].
    apply latest_value_first in Hval.
    destruct Hval as (i & y & _ & _ & Huse & _).
    destruct (usable_value _ Huse) as (v' & Hv' & Hne1 & Hne2).
    inversion Hv'; subst v'.
    repeat split; try assumption.
    + intros Heq. rewrite Heq in Hempty. discriminate.
    + by apply bool_decide_eq_false in Hagg.
  - rewrite lookup_insert_ne by exact Hne. apply Hdata.
Qed.

Lemma add_rows_kept (col : string) (rows : list Indicators.row) :
  forall data data',
  Indicators.add_rows lower strip col data rows = Ok data' ->
  (forall c v, data !! c = Some v -> kept c v) ->
  forall c v, data' !! c = Some v -> kept c v.
Proof.
  induction rows as [|r rows IH]; intros data data' H Hdata; simpl in H.
  - inversion H; subst. exact Hdata.
  - ok_steps. eapply IH; [exact H|]. eapply add_row_kept; eauto.
Qed.

(** What an indicator table never holds: an empty country name, an
    income group or a regional aggregate, an empty value or the marker
    [..].  So in the output table such a country's field shows its value,
    and NULL stands for a country the indicator table does not have. *)
Theorem extracted_table_is_clean (archive : list (string * list string))
    (data : gmap string string) :
  Indicators.download_and_extract lower strip dict_reader archive = inr data ->
  (forall c v, data !! c = Some v -> kept c v) /\
  (forall c, Economic.null_if_missing (Some (Economic.get_or_empty data c))
             = default "NULL" (data !! c)).
Proof.
  intros H.
  assert (Hkept : forall c v, data !! c = Some v -> kept c v).
  { induction archive as [|[name lines] rest IH]; simpl in H.
    - inversion H; subst. intros c v Hc. rewrite lookup_empty in Hc. discriminate.
    - destruct (Indicators.endswith ".csv" name && negb (Indicators.contains "Metadata" name));
        [|by apply IH].
      unfold Indicators.read_table in H.
      destruct (Indicators.find_header lower 0 lines); [|discriminate].
      destruct (Indicators.find_country_col lower _) as [col|]; [|discriminate].
      destruct (String.eqb col ""); [discriminate|].
      destruct (Indicators.add_rows lower strip col ∅ _) as [d|] eqn:Hrows; [|discriminate].
      inversion H; subst d. eapply add_rows_kept; [exact Hrows|].
      intros c v Hc. rewrite lookup_empty in Hc. discriminate. }
  split; [exact Hkept|]. intros c.
  unfold Economic.null_if_missing, Economic.get_or_empty.
  destruct (data !! c) as [v|] eqn:Hc; [|reflexivity]. simpl.
  destruct (Hkept c v Hc) as (_ & _ & _ & Hv & _).
  destruct (String.eqb_spec v ""); [contradiction | reflexivity].
Qed.

End IndicatorProperties.

Lemma prefix_app (s1 s2 : string) :
  String.prefix s1 s2 = true <-> exists post, s2 = s1 +:+ post.
Proof.
  revert s2. induction s1 as [|c s1 IH]; intros s2.
  - split; [simpl; eauto | by destruct s2].
  - destruct s2 as [|c' s2]; simpl.
    + split; [discriminate | intros [post H]; discriminate].
    + destruct (ascii_dec c c') as [->|Hne].
      * rewrite IH. split; intros [post H]; exists post; [by rewrite H|by inversion H].
      * split; [discriminate | intros [post H]; inversion H; congruence].
Qed.

(** [contains] is the substring test. *)
Lemma contains_app (needle hay : string) :
  Indicators.contains needle hay = true <->
  exists pre post, hay = pre +:+ needle +:+ post.
Proof.
  induction hay as [|c hay IH]; cbn [Indicators.contains];
    rewrite orb_true_iff, prefix_app.
  - split.
    + intros [[post H]|H]; [|discriminate]. exists "", post. exact H.
    + intros (pre & post & H). left. destruct pre; [eauto|discriminate].
  - rewrite IH. split.
    + intros [[post H]|(pre & post & H)].
      * exists "", post. exact H.
      * exists (String c pre), post. simpl. by rewrite H.
    + intros (pre & post & H). destruct pre as [|c' pre]; simpl in H.
      * left. eauto.
      * right. inversion H. eauto.
Qed.

Section IndicatorRows.

Variables lower strip : string -> string.
Variable dict_reader : list string -> list string * list Indicators.row.

Lemma add_rows_app (col : string) (rows1 rows2 : list Indicators.row)
    (data : gmap string string) :
  Indicators.add_rows lower strip col data (rows1 ++ rows2) =
  Indicators.add_rows lower strip col data rows1
    ≫= fun d => Indicators.add_rows lower strip col d rows2.
Proof.
  revert data. induction rows1 as [|r rows1 IH]; intros data; [reflexivity|].
  simpl. destruct (Indicators.add_row lower strip col data r); simpl; [apply IH|reflexivity].
Qed.

Lemma add_rows_keeps_value (col c v : string) (rows : list Indicators.row) :
  forall data data',
  Indicators.add_rows lower strip col data rows = Ok data' ->
  data !! c = Some v ->
  (forall r name, r ∈ rows -> Indicators.row_lookup r col = Some (Some name) ->
     lower (strip name) = c -> Indicators.latest_value r Indicators.years = None) ->
  data' !! c = Some v.
Proof.
  induction rows as [|r rows IH]; intros data data' H Hc Hnone; simpl in H.
  - by inversion H; subst.
  - ok_steps. eapply IH; [exact H | | ].
    + unfold Indicators.add_row in Ha.
      destruct (Indicators.row_lookup r col) as [[name|]|] eqn:Hr; try discriminate.
      destruct (Indicators.skipped _); [by inversion Ha; subst|].
      destruct (Indicators.latest_value r Indicators.years) as [val|] eqn:Hval;
        [|by inversion Ha; subst].
      inversion Ha; subst a.
      destruct (decide (lower (strip name) = c)) as [Heq|Hne].
      * rewrite (Hnone r name) in Hval; [discriminate| |exact Hr|exact Heq].
        apply list_elem_of_here.
      * by rewrite lookup_insert_ne.
    + intros r' name Hr'. apply Hnone. by apply list_elem_of_further.
Qed.

(** When a country has several rows, the last one that has a usable
    value decides, whatever came before. *)
Theorem last_usable_row_decides (col : string) (rows1 rows2 : list Indicators.row)
    (r : Indicators.row) (data0 data : gmap string string) (name v : string) :
  Indicators.add_rows lower strip col data0 (rows1 ++ r :: rows2) = Ok data ->
  Indicators.row_lookup r col = Some (Some name) ->
  Indicators.skipped (lower (strip name)) = false ->
  Indicators.latest_value r Indicators.years = Some v ->
  (forall r' name', r' ∈ rows2 ->
     Indicators.row_lookup r' col = Some (Some name') ->
     lower (strip name') = lower (strip name) ->
     Indicators.latest_value r' Indicators.years = None) ->
  data !! lower (strip name) = Some v.
Proof.
  intros H Hr Hskip Hv Hlater. rewrite add_rows_app in H. ok_steps.
  simpl in H. ok_steps.
  unfold Indicators.add_row in Ha0. rewrite Hr, Hskip, Hv in Ha0.
  inversion Ha0; subst a0.
  eapply add_rows_keeps_value; [exact H | by rewrite lookup_insert_eq | exact Hlater].
Qed.

(** A row whose country field is missing makes the reading of the whole
    table fail: no partial table comes back. *)
Theorem short_row_aborts_table (lines : list string) (h : nat) (col : string)
    (r : Indicators.row) :
  Indicators.find_header lower 0 lines = Some h ->
  Indicators.find_country_col lower (dict_reader (drop h lines)).1 = Some col ->
  col <> "" ->
  r ∈ (dict_reader (drop h lines)).2 ->
  Indicators.row_lookup r col = Some None ->
  exists e : exn,
    Indicators.read_table lower strip dict_reader lines = inl (Indicators.Raised e).
Proof.
  intros Hh Hcol Hcolne Hr Hnone. unfold Indicators.read_table. rewrite Hh, Hcol.
  assert (Hne : String.eqb col "" = false) by (by apply String.eqb_neq).
  rewrite Hne.
  assert (Hfail : forall rows data, r ∈ rows ->
            exists e, Indicators.add_rows lower strip col data rows = Err e).
  { induction rows as [|r0 rows IH]; intros data Hin; [by inversion Hin|].
    simpl. apply elem_of_cons in Hin. destruct Hin as [<-|Hin].
    - unfold Indicators.add_row. rewrite Hnone. simpl. eauto.
    - destruct (Indicators.add_row lower strip col data r0); simpl; [by apply IH|eauto]. }
  destruct (Hfail _ ∅ Hr) as [e ->]. eauto.
Qed.

End IndicatorRows.

(** ** The download script *)

Section DownloadProperties.

(** The [try] block either leaves the file alone and does not return
    [True], or has written the body of a 200 answer, which has more than
    a hundred features. *)
Lemma attempt_body_cases (resp : Qozs.http) (w : world) :
  (written (Download.attempt_body resp w).1 = written w /\
   (Download.attempt_body resp w).2 <> Ok true) \/
  (exists data, resp = Qozs.Response 200 (Ok data) /\ large_enough data /\
                written (Download.attempt_body resp w).1 = Some data).
Proof.
  unfold Download.attempt_body.
  destruct resp as [e|status body]; [left; split; [reflexivity|discriminate]|].
  destruct (Z.eqb_spec status 200) as [->|Hne];
    [|left; split; [reflexivity|discriminate]].
  destruct body as [data|e]; [|left; split; [reflexivity|discriminate]].
  unfold mbind, script_bind, eval, say, dump, mret, script_ret.
  destruct (Download.has_features data) as [[]|];
    try (left; split; [reflexivity|discriminate]).
  destruct (Py.getitem data "features") as [features|] eqn:Hfs;
    try (left; split; [reflexivity|discriminate]).
  destruct (Py.len features) as [n|] eqn:Hlen;
    try (left; split; [reflexivity|discriminate]).
  destruct (Nat.ltb_spec 100 n) as [Hbig|Hsmall];
    [|left; split; [reflexivity|discriminate]].
  right. exists data. split; [reflexivity|]. split; [by exists features, n|].
  cbn [written console fst].
  destruct (Py.truthy features); [|reflexivity].
  destruct (Py.getidx features 0) as [first|]; [|reflexivity].
  destruct (Py.get first "properties" (JObj [])) as [props|]; [|reflexivity].
  destruct (Download.keys props); reflexivity.
Qed.

(** What one attempt does to the file: nothing, or a document with more
    than a hundred features; it never raises, and it returns [True] only
    after writing the body of its source. *)
Lemma attempt_sound (i : nat) (url : string) (resp : Qozs.http) (w : world) :
  file_is_sound w ->
  exists (w' : world) (b : bool),
    Download.attempt i url resp w = (w', Ok b) /\
    file_is_sound w' /\
    (written w' = written w \/
     exists data, written w' = Some data /\ resp = Qozs.Response 200 (Ok data)) /\
    (b = true -> exists data, written w' = Some data /\
                              resp = Qozs.Response 200 (Ok data)).
Proof.
  intros Hw. unfold Download.attempt. rewrite run_say.
  set (w0 := World (written w) _).
  assert (Hw0 : written w0 = written w) by reflexivity. clearbody w0.
  destruct (attempt_body_cases resp w0) as [[Hkeep Hnot]|(data & -> & Hlarge & Hdata)].
  - destruct (Download.attempt_body resp w0) as [w' [b|e]]; simpl in *.
    + exists w', b. split; [reflexivity|].
      split; [intros d Hd; apply Hw; congruence|].
      split; [left; congruence|]. intros ->. congruence.
    + do 2 eexists. split; [reflexivity|]. cbn [written].
      split; [intros d Hd; apply Hw; simpl in Hd; congruence|].
      split; [left; congruence | discriminate].
  - destruct (Download.attempt_body _ w0) as [w' [b|e]]; simpl in *.
    + exists w', b. split; [reflexivity|].
      split; [intros d Hd; congruence|]. split; eauto.
    + do 2 eexists. split; [reflexivity|]. cbn [written].
      split; [intros d Hd; simpl in Hd; congruence|]. split; [eauto | discriminate].
Qed.

Lemma attempt_nothing (i : nat) (url : string) (resp : Qozs.http) (w : world) :
  gives_nothing resp ->
  exists w', Download.attempt i url resp w = (w', Ok false) /\ written w' = written w.
Proof.
  intros Hn. unfold Download.attempt. rewrite run_say. unfold Download.attempt_body.
  destruct resp as [e|status body]; [by eexists|].
  destruct (Z.eqb_spec status 200) as [->|Hne]; [|by eexists].
  destruct Hn as [Hn|[e ->]]; [contradiction|]. by eexists.
Qed.

(** The run of the [try] block on a large collection, up to the listing
    of the sample properties. *)
Lemma attempt_large (i : nat) (url : string) (data first : json) (others : list json)
    (w : world) :
  large_collection data first others ->
  exists w', written w' = Some data /\
    Download.attempt i url (Qozs.Response 200 (Ok data)) w =
      (w', Ok (is_ok (Py.get first "properties" (JObj []) ≫= Download.keys))).
Proof.
  intros (m & -> & Hfs & Hlen). unfold Download.attempt. rewrite run_say.
  unfold Download.attempt_body. cbn [Z.eqb Pos.eqb].
  unfold mbind, script_bind, eval, say, dump, mret, script_ret.
  cbn [Download.has_features Py.getitem]. rewrite Hfs.
  rewrite bool_decide_true by eauto. cbn [Py.len].
  destruct (Nat.ltb_spec 100 (length (first :: others))) as [_|Hsmall]; [|lia].
  cbn [Py.truthy length Nat.eqb negb Py.getidx lookup list_lookup written console].
  destruct (Py.get first "properties" (JObj [])) as [props|e]; cbn [mbind result_bind is_ok];
    [|eexists; split; [|reflexivity]; reflexivity].
  destruct (Download.keys props); eexists; (split; [|reflexivity]); reflexivity.
Qed.

Section Sources.

Variable responses : nat -> Qozs.http.

Lemma try_sources_sound (urls : list string) :
  forall (i : nat) (w : world),
  file_is_sound w ->
  exists (w' : world) (b : bool),
    Download.try_sources responses i urls w = (w', Ok b) /\
    file_is_sound w' /\
    (written w' = written w \/
     exists data j, written w' = Some data /\ i <= j < i + length urls /\
                    responses j = Qozs.Response 200 (Ok data)) /\
    (b = true -> exists data j, written w' = Some data /\ i <= j < i + length urls /\
                                responses j = Qozs.Response 200 (Ok data)).
Proof.
  induction urls as [|url urls IH]; intros i w Hw.
  - simpl. rewrite run_say. do 2 eexists. split; [reflexivity|].
    split; [exact Hw|]. split; [by left | discriminate].
  - cbn [Download.try_sources]. unfold mbind at 1. unfold script_bind.
    destruct (attempt_sound i url (responses i) w Hw) as (w1 & b & -> & Hw1 & Hfile & Hb).
    destruct b.
    + unfold mret, script_ret. exists w1, true. split; [reflexivity|].
      split; [exact Hw1|].
      destruct (Hb eq_refl) as (data & Hd & Hr).
      assert (Hex : exists data j, written w1 = Some data /\
                      i <= j < i + length (url :: urls) /\
                      responses j = Qozs.Response 200 (Ok data)).
      { exists data, i. simpl. repeat split; [exact Hd | lia | lia | exact Hr]. }
      split; [by right | by intros _].
    + destruct (IH (S i) w1 Hw1) as (w2 & b2 & -> & Hw2 & Hfile2 & Hb2).
      exists w2, b2. split; [reflexivity|]. split; [exact Hw2|].
      assert (Hshift : forall data j, written w2 = Some data /\
                         S i <= j < S i + length urls /\
                         responses j = Qozs.Response 200 (Ok data) ->
                exists data j, written w2 = Some data /\
                         i <= j < i + length (url :: urls) /\
                         responses j = Qozs.Response 200 (Ok data)).
      { intros data j (Hd & Hj & Hr). exists data, j. simpl.
        repeat split; [exact Hd | lia | lia | exact Hr]. }
      split.
      * destruct Hfile2 as [Hsame|(data & j & H)].
        -- destruct Hfile as [Hsame1|(data & Hd & Hr)].
           ++ left. congruence.
           ++ right. exists data, i. simpl.
              repeat split; [congruence | lia | lia | exact Hr].
        -- right. by apply (Hshift data j).
      * intros Hb2'. destruct (Hb2 Hb2') as (data & j & H). by apply (Hshift data j).
Qed.

(** The download never raises.  Whatever the sources answer, the file
    it leaves is the body of a 200 answer of one of the three sources and
    has more than a hundred features, and it returns [True] only with
    such a file written. *)
Theorem download_saves_large_collections_only :
  exists (w : world) (b : bool),
    Download.download_opportunity_zones responses start = (w, Ok b) /\
    (forall data, written w = Some data ->
       large_enough data /\
       exists j, j < 3 /\ responses j = Qozs.Response 200 (Ok data)) /\
    (b = true -> exists data, written w = Some data).
Proof.
  destruct (try_sources_sound Download.sources 0 start) as (w & b & Hrun & Hs & Hfile & Hb).
  { intros d Hd. discriminate. }
  exists w, b. split; [exact Hrun|]. split.
  - intros data Hd. split; [by apply Hs|].
    destruct Hfile as [Hsame|(d & j & Hd' & Hj & Hr)].
    + rewrite Hsame in Hd. discriminate.
    + exists j. simpl in Hj. split; [lia|]. congruence.
  - intros Hb'. destruct (Hb Hb') as (d & j & Hd & _). eauto.
Qed.

Lemma try_sources_nothing (urls : list string) :
  forall (i : nat) (w : world),
  (forall j, i <= j < i + length urls -> gives_nothing (responses j)) ->
  exists w', Download.try_sources responses i urls w = (w', Ok false) /\
             written w' = written w.
Proof.
  induction urls as [|url urls IH]; intros i w Hall.
  - simpl. rewrite run_say. by eexists.
  - cbn [Download.try_sources]. unfold mbind at 1. unfold script_bind.
    destruct (attempt_nothing i url (responses i) w) as (w1 & -> & Hw1).
    { apply Hall. simpl. lia. }
    destruct (IH (S i) w1) as (w2 & -> & Hw2).
    { intros j Hj. apply Hall. simpl. lia. }
    exists w2. split; [reflexivity | congruence].
Qed.

(** The sources are tried in order and the first one that serves a large
    collection whose first feature has listable properties decides: its
    body is the file, and the function returns [True]. *)
Theorem first_large_collection_is_saved (i : nat) (data first : json)
    (others : list json) :
  i < 3 ->
  (forall j, j < i -> gives_nothing (responses j)) ->
  responses i = Qozs.Response 200 (Ok data) ->
  large_collection data first others ->
  is_ok (Py.get first "properties" (JObj []) ≫= Download.keys) = true ->
  exists w : world,
    Download.download_opportunity_zones responses start = (w, Ok true) /\
    written w = Some data.
Proof.
  intros Hi Hbefore Hresp Hlarge Hprops. unfold Download.download_opportunity_zones.
  assert (Hgen : forall urls1 url urls2 k w,
             length urls1 = i - k -> k <= i ->
             exists w', Download.try_sources responses k (urls1 ++ url :: urls2) w
                          = (w', Ok true) /\ written w' = Some data).
  { induction urls1 as [|u urls1 IH]; intros url urls2 k w Hlen Hk; simpl in Hlen.
    - assert (k = i) by lia. subst k.
      cbn [app Download.try_sources]. unfold mbind at 1. unfold script_bind.
      rewrite Hresp.
      destruct (attempt_large i url data first others w Hlarge) as (w' & Hw' & ->).
      rewrite Hprops. unfold mret, script_ret. by exists w'.
    - cbn [app Download.try_sources]. unfold mbind at 1. unfold script_bind.
      destruct (attempt_nothing k u (responses k) w) as (w1 & -> & _).
      { apply Hbefore. lia. }
      apply IH; lia. }
  destruct i as [|[|[|i]]]; [| | |lia].
  - apply (Hgen [] _ _ 0 start); simpl; lia.
  - apply (Hgen [_] _ _ 0 start); simpl; lia.
  - apply (Hgen [_; _] _ [] 0 start); simpl; lia.
Qed.

End Sources.

End DownloadProperties.

Section DownloadMain.

Variables fadd fmul : Z -> Z -> Z.
Variable float_of_int : Z -> Z.
Variable responses : nat -> Qozs.http.

Lemma create_sample_written (w : world) :
  written (Download.create_sample_multiple_zones fadd fmul float_of_int w).1 =
  Some (JObj [("type", JStr "FeatureCollection");
              ("features", JArr (Download.sample_feature fadd fmul float_of_int
                                   <$> seq 0 50))]).
Proof. reflexivity. Qed.

(** When no source gives anything, nothing is downloaded and the sample
    of fifty features is written instead. *)
Theorem failed_download_writes_sample :
  (forall j, j < 3 -> gives_nothing (responses j)) ->
  Download.complete_file (Download.main fadd fmul float_of_int responses) = None /\
  exists fs : list json,
    Download.sample_file (Download.main fadd fmul float_of_int responses) =
      Some (JObj [("type", JStr "FeatureCollection"); ("features", JArr fs)]) /\
    length fs = 50.
Proof.
  intros Hall. unfold Download.main, Download.download_opportunity_zones.
  destruct (try_sources_nothing responses Download.sources 0 start) as (w & -> & Hw).
  { intros j Hj. apply Hall. simpl in Hj. lia. }
  cbn [Download.complete_file Download.sample_file]. split; [exact Hw|].
  eexists. split; [apply create_sample_written|]. reflexivity.
Qed.

Lemma try_sources_saved_then_failed (data first : json) (others : list json)
    (urls : list string) :
  large_collection data first others ->
  is_ok (Py.get first "properties" (JObj []) ≫= Download.keys) = false ->
  forall (k i : nat) (w : world),
  k <= i < k + length urls ->
  responses i = Qozs.Response 200 (Ok data) ->
  (forall j, k <= j < k + length urls -> j <> i -> gives_nothing (responses j)) ->
  exists w', Download.try_sources responses k urls w = (w', Ok false) /\
             written w' = Some data.
Proof.
  intros Hlarge Hprops. induction urls as [|url urls IH]; intros k i w Hi Hresp Hothers;
    [simpl in Hi; lia|].
  cbn [Download.try_sources]. unfold mbind at 1. unfold script_bind.
  destruct (decide (k = i)) as [->|Hne].
  - rewrite Hresp.
    destruct (attempt_large i url data first others w Hlarge) as (w1 & Hw1 & ->).
    rewrite Hprops.
    destruct (try_sources_nothing responses urls (S i) w1) as (w2 & -> & Hw2).
    { intros j Hj. apply Hothers; simpl; lia. }
    exists w2. split; [reflexivity | congruence].
  - destruct (attempt_nothing k url (responses k) w) as (w1 & -> & _).
    { apply Hothers; simpl; lia. }
    apply (IH (S k) i w1); [simpl in Hi; lia | exact Hresp|].
    intros j Hj. apply Hothers. simpl. lia.
Qed.

(** A file saved and a failure all the same: when a source serves a
    large collection whose first feature has properties that cannot be
    listed ([null], for one), its body is saved first and the error comes
    after; with nothing from the other sources the download returns
    [False], so that both the downloaded file and the sample are written. *)
Theorem saved_then_failed (i : nat) (data first : json) (others : list json) :
  i < 3 ->
  responses i = Qozs.Response 200 (Ok data) ->
  large_collection data first others ->
  is_ok (Py.get first "properties" (JObj []) ≫= Download.keys) = false ->
  (forall j, j < 3 -> j <> i -> gives_nothing (responses j)) ->
  Download.complete_file (Download.main fadd fmul float_of_int responses) = Some data /\
  exists sample : json,
    Download.sample_file (Download.main fadd fmul float_of_int responses) = Some sample.
Proof.
  intros Hi Hresp Hlarge Hprops Hothers.
  unfold Download.main, Download.download_opportunity_zones.
  destruct (try_sources_saved_then_failed data first others Download.sources Hlarge Hprops
              0 i start) as (w & -> & Hw).
  - simpl. lia.
  - exact Hresp.
  - intros j Hj. apply Hothers. simpl in Hj. lia.
  - cbn [Download.complete_file Download.sample_file]. split; [exact Hw|].
    eexists. apply create_sample_written.
Qed.

(** The features of the sample: fifty of them, numbered from 1, each a
    Polygon of one ring of five pairs whose last pair is its first, and
    each with a zone identifier of the form [OZ_] and four digits. *)
Theorem sample_features_are_closed_polygons (i : nat) :
  i < 50 ->
  exists (ring : list json) (zone_id : string),
    (Download.sample_feature fadd fmul float_of_int <$> seq 0 50) !! i
      = Some (Download.sample_feature fadd fmul float_of_int i) /\
    Py.getitem (Download.sample_feature fadd fmul float_of_int i) "id"
      = Ok (JInt (Z.of_nat i + 1)) /\
    geometry_type (Download.sample_feature fadd fmul float_of_int i)
      = Ok (JStr "Polygon") /\
    geometry_coordinates (Download.sample_feature fadd fmul float_of_int i)
      = Ok (JArr [JArr ring]) /\
    length ring = 5 /\ head ring = last ring /\ Forall is_pair ring /\
    property_of (Download.sample_feature fadd fmul float_of_int i) "ZONE_ID"
      = Ok (JStr zone_id) /\
    String.prefix "OZ_" zone_id = true /\ String.length zone_id = 7.
Proof.
  intros Hi. eexists _, _. split.
  { rewrite list_lookup_fmap, lookup_seq_lt by exact Hi. reflexivity. }
  split. { simpl. do 2 f_equal. lia. }
  split; [reflexivity|]. split; [reflexivity|]. split; [reflexivity|].
  split; [reflexivity|].
  split. { repeat constructor; by eexists _, _. }
  split; [reflexivity|]. split; [apply prefix_app; by eexists|].
  assert (H : Forall (fun i => String.length ("OZ_" +:+ Download.pad4 (i + 1)) = 7)
                (seq 0 50))
    by (apply (bool_decide_unpack _); vm_compute; exact I).
  rewrite Forall_forall in H. apply H. apply elem_of_seq. lia.
Qed.

End DownloadMain.

(** ** The further properties on sample inputs *)

Lemma split_part_identifiers_witness :
  exists parts : list json,
    Split.split_feature Sample.no_repr Sample.anonymous = Ok parts /\
    length parts = 2 /\
    exists p, parts !! 1%nat = Some p /\ Py.getitem p "id" = Ok (JStr "unknown_1").
Proof.
  destruct (split_part_identifiers Sample.no_repr Sample.anonymous
              [Sample.part0; Sample.part1] [("STATE", JStr "Idaho")]
              eq_refl eq_refl eq_refl) as (parts & Hsplit & Hlen & Hids).
  exists parts. split; [exact Hsplit|]. split; [exact Hlen|].
  destruct (parts !! 1%nat) as [p|] eqn:Hp.
  - exists p. split; [reflexivity|]. destruct (Hids 1%nat p Hp) as (Hno & _).
    apply Hno. reflexivity.
  - apply lookup_ge_None in Hp. rewrite Hlen in Hp. simpl in Hp. lia.
Defined.

Lemma split_feature_errors_witness :
  Split.split_feature Sample.no_repr Sample.null_props = Err TypeError.
Proof.
  destruct (split_feature_errors Sample.no_repr Sample.null_props
              Sample.null_props_members eq_refl) as (_ & _ & Hmulti).
  destruct (Hmulti [("type", JStr "MultiPolygon"); ("coordinates", JArr [Sample.part0])]
              eq_refl eq_refl) as (_ & _ & Hprops).
  apply (Hprops Sample.part0 [] JNull); [reflexivity | reflexivity | discriminate].
Defined.

Lemma split_all_or_nothing_witness :
  exists e' : exn,
    Split.main Sample.no_repr (Ok (Sample.collection [Sample.square; Sample.null_props])) =
    Process (World None [ErrorMsg e'; Traceback e']) 0.
Proof.
  apply (split_all_or_nothing Sample.no_repr
           (Sample.collection [Sample.square; Sample.null_props])
           [Sample.square; Sample.null_props] 1 Sample.null_props TypeError);
    reflexivity.
Defined.

Lemma split_idempotent_witness :
  exists out : list json,
    Split.split_features Sample.no_repr Sample.mixed [] = Ok out /\
    Forall (fun f => is_multipolygon f = false) out /\
    Split.split_features Sample.no_repr out [] = Ok out.
Proof.
  destruct (split_features_total Sample.no_repr Sample.mixed []) as [out Hout].
  { repeat constructor. }
  exists out. split; [exact Hout|].
  exact (split_idempotent Sample.no_repr Sample.mixed out Hout).
Defined.

Lemma split_output_members_witness :
  exists out : json,
    written (final (Split.main Sample.no_repr (Ok (Sample.collection Sample.mixed))))
      = Some out /\
    Py.getitem out "name" = Err (KeyError "name").
Proof.
  destruct (written (final (Split.main Sample.no_repr (Ok (Sample.collection Sample.mixed)))))
    as [out|] eqn:Hout; [|vm_compute in Hout; discriminate].
  exists out. split; [reflexivity|].
  destruct (split_output_members Sample.no_repr _ out Hout)
    as (doc & crs & nf & _ & _ & _ & _ & Hother).
  apply Hother; discriminate.
Defined.

Lemma reprojection_frame_witness :
  exists out : json,
    written (final (Convert.main Sample.swap
                      (Ok (Sample.collection [Sample.feature7; Sample.square])))) = Some out /\
    Py.getitem out "name" = Ok (JStr "Opportunity_Zones").
Proof.
  destruct (written (final (Convert.main Sample.swap
              (Ok (Sample.collection [Sample.feature7; Sample.square])))))
    as [out|] eqn:Hout; [|vm_compute in Hout; discriminate].
  exists out. split; [reflexivity|].
  destruct (reprojection_frame Sample.swap _ out Hout) as (doc & Hdoc & Hframe & _).
  inversion Hdoc; subst doc. rewrite Hframe by discriminate. reflexivity.
Defined.

Lemma convert_status_zero_written_witness :
  exists doc out : json,
    Ok (Sample.collection [Sample.feature7]) = Ok doc /\
    Convert.convert_document Sample.swap doc = Ok out /\
    written (final (Convert.main Sample.swap (Ok (Sample.collection [Sample.feature7]))))
      = Some out.
Proof.
  apply (convert_status_zero_written Sample.swap (Ok (Sample.collection [Sample.feature7]))).
  reflexivity.
Defined.


Lemma converted_coordinates_are_pairs_witness :
  exists out feature : json,
    written (final (Convert.main Sample.swap (Ok (Sample.collection [Sample.elevated]))))
      = Some out /\
    features_of out !! 0%nat = Some feature /\
    rings_hold_pairs feature.
Proof.
  destruct (written (final (Convert.main Sample.swap
              (Ok (Sample.collection [Sample.elevated])))))
    as [out|] eqn:Hout; [|vm_compute in Hout; discriminate].
  destruct (features_of out !! 0%nat) as [feature|] eqn:Hf;
    [|vm_compute in Hout; inversion Hout; subst out; vm_compute in Hf; discriminate].
  exists out, feature. split; [reflexivity|]. split; [exact Hf|].
  apply (converted_coordinates_are_pairs Sample.swap _ out feature Hout).
  - apply list_elem_of_lookup. eauto.
  - vm_compute in Hout. inversion Hout; subst out. vm_compute in Hf.
    inversion Hf; subst feature. reflexivity.
Defined.

Lemma convert_point_first_witness :
  exists out : json,
    Convert.main Sample.swap (Ok (Sample.collection [Sample.dot; Sample.feature7])) =
    Process (World (Some out)
                   [Text "Converted opportunity zones to WGS84 coordinates";
                    Text "Output: opportunity_zones_wgs84.geojson";
                    ErrorMsg TypeError;
                    Text "Make sure pyproj is installed: pip install pyproj"]) 1.
Proof.
  destruct (Convert.convert_document Sample.swap
              (Sample.collection [Sample.dot; Sample.feature7])) as [out|] eqn:Hout;
    [|vm_compute in Hout; discriminate].
  exists out.
  apply (convert_point_first Sample.swap _ Sample.dot [Sample.feature7]
           (Sample.pt 2 2) (JInt 2) out); try reflexivity. exact Hout.
Defined.

Lemma loaded_zones_have_fips_witness :
  Qozs.fips_of Qozs.state_fips_map "Alaska" <> "00" /\
  String.length (Qozs.fips_of Qozs.state_fips_map "Alaska") = 2.
Proof.
  destruct (loaded_zones_have_fips Sample.zone_rows) as [Hcode _].
  apply (Hcode (Qozs.Qoz "Alaska" "Bethel" "02050000100" "Low-Income Community" "2011-2015")).
  apply list_elem_of_lookup. exists 1. reflexivity.
Defined.

Lemma lookup_boundary_found_witness :
  lookup_boundary Sample.service 0
    (Qozs.Qoz "Alabama" "Autauga" "01001020700" "Low-Income Community" "2011-2015")
  = Some (JObj [("type", JStr "Feature"); ("geometry", Sample.tract_geometry)]).
Proof.
  apply (lookup_boundary_found Sample.service 0).
  eexists _, _. split; [reflexivity|]. split; [reflexivity|]. split; reflexivity.
Defined.

Lemma created_features_describe_zones_witness :
  exists (w : world) (fs : list json) (f : json),
    Qozs.create_qozs_geojson Sample.service Sample.zone_rows start
      = (w, Ok (Qozs.feature_collection fs)) /\
    length fs = 3 /\
    fs !! 0%nat = Some f /\
    Py.getitem f "id" = Ok (JInt 1) /\
    Py.getitem f "geometry" = Ok Sample.tract_geometry /\
    property_of f "TRACT_ID" = Ok (JStr "01001020700").
Proof.
  destruct (created_features_describe_zones Sample.service Sample.zone_rows)
    as (w & fs & Hrun & _ & Hlen & Hfs).
  - intros [|[|[|j]]] q b Hq Hb Ht; vm_compute in Hq, Hb; try discriminate.
    inversion Hb; subst b. reflexivity.
  - destruct (Hfs 0%nat (Qozs.Qoz "Alabama" "Autauga" "01001020700"
                           "Low-Income Community" "2011-2015") eq_refl)
      as (f & Hf & Hdesc).
    exists w, fs, f. split; [exact Hrun|]. split; [exact Hlen|]. split; [exact Hf|].
    destruct Hdesc as (_ & Hid & _ & _ & _ & Htract & _ & _ & Hgeo).
    split; [exact Hid|]. split; [exact Hgeo | exact Htract].
Defined.

Lemma boundary_without_geometry_is_fatal_witness :
  exists (w : world) (e' : exn),
    Qozs.create_qozs_geojson Sample.bare_service Sample.zone_rows start = (w, Err e') /\
    written w = None.
Proof.
  apply (boundary_without_geometry_is_fatal Sample.bare_service Sample.zone_rows 1
           (Qozs.Qoz "Alaska" "Bethel" "02050000100" "Low-Income Community" "2011-2015")
           (JObj [("type", JStr "Feature")]) (KeyError "geometry")); reflexivity.
Defined.

Lemma pad_tractce_width_witness :
  Bulk.TRACTCE (Bulk.pad_tractce
                  (Bulk.ZoneRow (JStr "Alabama") (JStr "Autauga") "1001020700"
                                (JStr "Low-Income Community") (JStr "2011-2015")))
  = "01001020700".
Proof.
  destruct (pad_tractce_width
              (Bulk.ZoneRow (JStr "Alabama") (JStr "Autauga") "1001020700"
                            (JStr "Low-Income Community") (JStr "2011-2015")))
    as (_ & _ & Hpad & _).
  rewrite (Hpad "1"%char "001020700"); [reflexivity | reflexivity | reflexivity|].
  simpl. lia.
Defined.


Lemma latest_value_most_recent_witness :
  exists y : nat,
    (2000 <= y <= 2022) /\
    Indicators.row_get Sample.row_france (pretty y) = Some "1.5" /\
    forall y', y < y' <= 2022 ->
      Indicators.usable (Indicators.row_get Sample.row_france (pretty y')) = false.
Proof.
  destruct (latest_value_most_recent Sample.row_france "1.5" eq_refl)
    as (y & Hy & Hget & _ & _ & Hlater).
  exists y. split; [exact Hy|]. split; [exact Hget | exact Hlater].
Defined.

Lemma extracted_table_is_clean_witness :
  exists data : gmap string string,
    Indicators.download_and_extract Sample.lower Sample.strip Sample.reader Sample.archive
      = inr data /\
    data !! "france" = Some "1.5" /\
    data !! "world" = None /\
    Economic.null_if_missing (Some (Economic.get_or_empty data "world")) = "NULL".
Proof.
  destruct (Indicators.download_and_extract Sample.lower Sample.strip Sample.reader
              Sample.archive) as [f|data] eqn:Hrun; [vm_compute in Hrun; discriminate|].
  exists data. split; [reflexivity|].
  destruct (extracted_table_is_clean Sample.lower Sample.strip Sample.reader
              Sample.archive data Hrun) as [_ Hnull].
  assert (Hfr : data !! "france" = Some "1.5")
    by (vm_compute in Hrun; inversion Hrun; subst data; reflexivity).
  assert (Hw : data !! "world" = None)
    by (vm_compute in Hrun; inversion Hrun; subst data; reflexivity).
  split; [exact Hfr|]. split; [exact Hw|]. rewrite Hnull, Hw. reflexivity.
Defined.

Lemma last_usable_row_decides_witness :
  exists data : gmap string string,
    Indicators.add_rows Sample.lower Sample.strip "Country Name" ∅
      ([Sample.row_france_old; Sample.row_world] ++
       Sample.row_france :: [Sample.row_france_empty]) = Ok data /\
    data !! "france" = Some "1.5".
Proof.
  destruct (Indicators.add_rows Sample.lower Sample.strip "Country Name" ∅
              ([Sample.row_france_old; Sample.row_world] ++
               Sample.row_france :: [Sample.row_france_empty]))
    as [data|] eqn:Hrun; [|vm_compute in Hrun; discriminate].
  exists data. split; [reflexivity|].
  apply (last_usable_row_decides Sample.lower Sample.strip "Country Name"
           [Sample.row_france_old; Sample.row_world] [Sample.row_france_empty]
           Sample.row_france ∅ data "France" "1.5" Hrun); try reflexivity.
  intros r' name' Hr'. apply list_elem_of_singleton in Hr'. subst r'. reflexivity.
Defined.

Lemma short_row_aborts_table_witness :
  exists e : exn,
    Indicators.read_table Sample.lower Sample.strip Sample.short_reader
      ["Data Source"; "Country Name"] = inl (Indicators.Raised e).
Proof.
  apply (short_row_aborts_table Sample.lower Sample.strip Sample.short_reader
           ["Data Source"; "Country Name"] 1 "Country Name" Sample.row_short);
    try reflexivity; [discriminate|].
  apply list_elem_of_further, list_elem_of_here.
Defined.

Lemma download_saves_large_collections_only_witness :
  exists (w : world) (b : bool),
    Download.download_opportunity_zones Sample.second_serves start = (w, Ok b) /\
    (forall data, written w = Some data ->
       large_enough data /\
       exists j, j < 3 /\ Sample.second_serves j = Qozs.Response 200 (Ok data)) /\
    (b = true -> exists data, written w = Some data).
Proof. exact (download_saves_large_collections_only Sample.second_serves). Defined.

Lemma first_large_collection_is_saved_witness :
  exists w : world,
    Download.download_opportunity_zones Sample.second_serves start = (w, Ok true) /\
    written w = Some Sample.squares.
Proof.
  apply (first_large_collection_is_saved Sample.second_serves 1 Sample.squares
           Sample.square (replicate 100 Sample.square)).
  - lia.
  - intros [|j] Hj; [|lia]. right. eexists. reflexivity.
  - reflexivity.
  - eexists. split; [reflexivity|]. split; [reflexivity|]. simpl. lia.
  - reflexivity.
Defined.

Lemma failed_download_writes_sample_witness :
  Download.complete_file (Download.main Z.add Z.mul id Sample.offline) = None /\
  exists fs : list json,
    Download.sample_file (Download.main Z.add Z.mul id Sample.offline) =
      Some (JObj [("type", JStr "FeatureCollection"); ("features", JArr fs)]) /\
    length fs = 50.
Proof.
  apply (failed_download_writes_sample Z.add Z.mul id Sample.offline).
  intros j _. exact I.
Defined.

Lemma saved_then_failed_witness :
  Download.complete_file (Download.main Z.add Z.mul id Sample.second_unlistable)
    = Some Sample.unlistable /\
  exists sample : json,
    Download.sample_file (Download.main Z.add Z.mul id Sample.second_unlistable)
      = Some sample.
Proof.
  apply (saved_then_failed Z.add Z.mul id Sample.second_unlistable 1 Sample.unlistable
           Sample.null_props (replicate 100 Sample.square)).
  - lia.
  - reflexivity.
  - eexists. split; [reflexivity|]. split; [reflexivity|]. simpl. lia.
  - reflexivity.
  - intros [|[|j]] Hj Hne; [| contradiction |]; right; eexists; reflexivity.
Defined.

Lemma sample_features_are_closed_polygons_witness :
  exists (ring : list json) (zone_id : string),
    geometry_coordinates (Download.sample_feature Z.add Z.mul id 7) = Ok (JArr [JArr ring]) /\
    length ring = 5 /\ head ring = last ring /\
    property_of (Download.sample_feature Z.add Z.mul id 7) "ZONE_ID" = Ok (JStr zone_id) /\
    String.length zone_id = 7.
Proof.
  destruct (sample_features_are_closed_polygons Z.add Z.mul id 7)
    as (ring & zone_id & _ & _ & _ & Hco & Hlen & Hclosed & _ & Hzone & _ & Hzlen);
    [lia|].
  exists ring, zone_id. repeat split; assumption.
Defined.
